(** * DataViewer: the grid view cache of the data viewer module

    A shallow embedding of [src/cpp/session/modules/data/DataViewer.cpp]:
    the filter comparator ([isFilterSubset], [CachedFrame::isSupersetOf]),
    the registry of cached frames ([s_cachedFrames]), the page request
    handlers ([getData], [getGridData]) and the change scan
    ([onDetectChanges]), followed by the properties proved about them. *)

From Stdlib Require Import ZArith QArith Ascii String List Lia Bool.
From stdpp Require Import base option list strings pretty gmap sorting.

Local Open Scope Z_scope.
Local Open Scope string_scope.
Local Open Scope list_scope.

(* ===================================================================== *)
(** * Part I: the pattern matcher behind [boost::regex_search]           *)
(* ===================================================================== *)

(** The source searches its filter strings with the Perl-syntax pattern
    [( \d+ \.? \d* ) - ( \d+ \.? \d* )] (written here with blanks between
    its parts).  The fragment of the syntax that the pattern
    uses is embedded here: single-character atoms under the greedy
    quantifiers [?], [*] and [+], concatenation, and numbered capture
    groups.  Matching is the backtracking search of a Perl-style engine:
    a quantifier first takes as many characters as it can and gives them
    back one at a time while the rest of the pattern fails. *)
Module Regex.

Inductive atom : Type :=
| Digit                 (* \d *)
| Lit (c : ascii).      (* a literal character, e.g. \. or - *)

Inductive regex : Type :=
| One (a : atom)                (* a   *)
| Opt (a : atom)                (* a?  *)
| Star (a : atom)               (* a*  *)
| Plus (a : atom)               (* a+  *)
| Seq (r1 r2 : regex)           (* r1 r2 *)
| Group (n : nat) (r : regex).  (* ( r ), the n-th capture group *)

(** [\d]: a decimal digit, [0] to [9]. *)
Definition is_digit (c : ascii) : bool :=
  (Ascii.leb "0" c && Ascii.leb c "9")%bool.

Definition accepts (a : atom) (c : ascii) : bool :=
  match a with
  | Digit => is_digit c
  | Lit c' => Ascii.eqb c' c
  end.

(** Sub-matches, indexed like [boost::smatch]: entry 0 is the whole match,
    entry [n] the text of group [n]; [None] is a group that did not take
    part in the match. *)
Definition smatch : Type := list (option (list ascii)).

(** [smatch[n]] converted to a [std::string]: an unmatched sub-expression
    converts to the empty string. *)
Definition sub (m : smatch) (n : nat) : string :=
  match m !! n with
  | Some (Some t) => string_of_list_ascii t
  | _ => EmptyString
  end.

Section Backtracking.
Context {R : Type}.

(** [a*] at [s]: take the longest run first, then shorter ones. *)
Fixpoint star_greedy (a : atom) (s : list ascii)
         (k : list ascii -> option R) : option R :=
  match s with
  | c :: s' =>
      if accepts a c
      then match star_greedy a s' k with
           | Some r => Some r
           | None => k s
           end
      else k s
  | [] => k []
  end.

(** [mtch r s caps k]: match [r] at the start of [s], then continue with
    [k] on what is left; the first success in priority order wins. *)
Fixpoint mtch (r : regex) (s : list ascii) (caps : smatch)
         (k : list ascii -> smatch -> option R) : option R :=
  match r with
  | One a =>
      match s with
      | c :: s' => if accepts a c then k s' caps else None
      | [] => None
      end
  | Opt a =>
      match s with
      | c :: s' =>
          if accepts a c
          then match k s' caps with
               | Some res => Some res
               | None => k s caps
               end
          else k s caps
      | [] => k s caps
      end
  | Star a => star_greedy a s (fun s' => k s' caps)
  | Plus a =>
      match s with
      | c :: s' =>
          if accepts a c
          then star_greedy a s' (fun s'' => k s'' caps)
          else None
      | [] => None
      end
  | Seq r1 r2 => mtch r1 s caps (fun s' caps' => mtch r2 s' caps' k)
  | Group n r =>
      mtch r s caps
           (fun s' caps' =>
              k s' (<[n := Some (take (length s - length s') s)]> caps'))
  end.
End Backtracking.

(** Number of sub-matches an [smatch] holds for [r]: the whole match and
    one per group. *)
Fixpoint groups (r : regex) : nat :=
  match r with
  | Seq r1 r2 => Nat.max (groups r1) (groups r2)
  | Group n r => Nat.max n (groups r)
  | _ => 0%nat
  end.

(** A match of [r] that starts exactly at the head of [s]. *)
Definition match_here (r : regex) (s : list ascii) : option smatch :=
  mtch r s (replicate (S (groups r)) None)
       (fun s' caps => Some (<[0%nat := Some (take (length s - length s') s)]> caps)).

(** [regex_search]: the match at the leftmost position that has one. *)
Fixpoint regex_search_from (r : regex) (s : list ascii) : option smatch :=
  match match_here r s with
  | Some m => Some m
  | None =>
      match s with
      | [] => None
      | _ :: s' => regex_search_from r s'
      end
  end.

Definition regex_search (s : string) (r : regex) : option smatch :=
  regex_search_from r (list_ascii_of_string s).

(** The longest run of digits at the head of a text, and what follows it. *)
Fixpoint span_digits (cs : list ascii) : list ascii * list ascii :=
  match cs with
  | c :: cs' =>
      if is_digit c
      then let '(ds, rest) := span_digits cs' in (c :: ds, rest)
      else ([], cs)
  | [] => ([], [])
  end.

End Regex.

(* ===================================================================== *)
(** * Part II: the filter comparator                                     *)
(* ===================================================================== *)

(** [safe_convert::stringTo<double>] lives in [core/SafeConvert.hpp], which
    is not part of the sources at hand, and a [double] is a floating-point
    number.  The comparator is therefore embedded over an interface: a type
    of doubles with the two comparisons the source uses, the literal [0]
    and the conversion with its default. *)
Class SafeConvert : Type := {
  double : Type;
  double_zero : double;                           (* the literal 0 *)
  double_ge : double -> double -> bool;           (* x >= y *)
  double_le : double -> double -> bool;           (* x <= y *)
  stringTo_double : string -> double -> double;   (* stringTo<double>(str, default) *)
}.

Section FilterComparator.
Context `{SafeConvert}.
Import Regex.

(** The pattern of [boost::regex numFilter]: a first group of digits,
    an optional dot and more digits; a dash; a second group of the same
    shape. *)
Definition numFilter : regex :=
  Seq (Group 1 (Seq (Plus Digit) (Seq (Opt (Lit ".")) (Star Digit))))
      (Seq (One (Lit "-"))
           (Group 2 (Seq (Plus Digit) (Seq (Opt (Lit ".")) (Star Digit))))).

(** What either group of [numFilter] encloses. *)
Definition bound : regex := Seq (Plus Digit) (Seq (Opt (Lit ".")) (Star Digit)).

Definition isFilterSubset (outer inner : string) : bool :=
  (* shortcut for identical filters (the typical case) *)
  if String.eqb inner outer then true
  else
    (* matches a numeric filter (i.e. "2.71-3.14") *)
    match regex_search inner numFilter, regex_search outer numFilter with
    | Some innerMatch, Some outerMatch =>
        (* for numeric filters, the inner is a subset if its lower bound (1)
           is larger than the outer lower bound, and the upper bound (2) is
           smaller than the outer upper bound *)
        double_ge (stringTo_double (sub innerMatch 1) double_zero)
                  (stringTo_double (sub outerMatch 1) double_zero)
        && double_le (stringTo_double (sub innerMatch 2) double_zero)
                     (stringTo_double (sub outerMatch 2) double_zero)
    | _, _ =>
        (* non-numeric filters are just string prefix matches *)
        if (String.length inner <? String.length outer)%nat then false
        else if negb (String.eqb (substring 0 (String.length outer) inner) outer)
             then false
             else true
    end.
End FilterComparator.

(* ===================================================================== *)
(** * Part III: the boundary to R, to HTTP and to the client             *)
(* ===================================================================== *)

(** [core::Error]: success, or a failure with its summary. *)
Inductive Error : Type :=
| Success
| Failure (summary : string).

Definition isError (e : Error) : bool :=
  match e with Success => false | Failure _ => true end.

Definition summary (e : Error) : string :=
  match e with Success => "" | Failure s => s end.

(** The R type tags the source tests for; every other tag is [OTHERSXP]. *)
Inductive SEXPTYPE : Type := NILSXP | PROMSXP | OTHERSXP.

Global Instance SEXPTYPE_eq_dec : EqDecision SEXPTYPE.
Proof. solve_decision. Defined.

(** An [r::exec::RFunction]: the name of the R function and the parameters
    added to it, positional ones under the empty name. *)
Inductive RParam (S : Type) : Type :=
| PSexp (x : S)
| PString (s : string)
| PStrings (l : list string)
| PInt (z : Z)
| PBool (b : bool).
Arguments PSexp {S} x.
Arguments PString {S} s.
Arguments PStrings {S} l.
Arguments PInt {S} z.
Arguments PBool {S} b.

Record RFunction (S : Type) : Type := mkRFunction {
  functionName : string;
  params : list (string * RParam S);
}.
Arguments mkRFunction {S} functionName params.
Arguments functionName {S} r.
Arguments params {S} r.

(** Result of a conversion out of R ([r::sexp::extract]). *)
Inductive Outcome (A : Type) : Type :=
| Ok (a : A)
| Err (summary : string).
Arguments Ok {A} a.
Arguments Err {A} summary.

(** What evaluating an R function comes to. *)
Inductive Evaluated (S : Type) : Type :=
| Value (v : S)
| Raised (summary : string) (stored : option S).
Arguments Value {S} v.
Arguments Raised {S} summary stored.

(** [json::Value]; an object lists its members in the order the source
    assigns them. *)
#[warnings="-register-all"]
Inductive json_Value : Type :=
| json_null
| json_int (z : Z)
| json_bool (b : bool)
| json_str (s : string)
| json_array (l : list json_Value)
| json_object (members : list (string * json_Value)).

(** The R runtime and the R code behind it.  Pointers to R objects are an
    abstract type with decidable equality; the accessors of R's C interface
    are functions on it.  Evaluating an R function is an oracle on the state
    of the R session: it yields the value of the call, or the summary of
    the error the call raised together with what, if anything, was then
    stored through the result pointer. *)
Class RRuntime : Type := {
  SEXP : Type;
  SEXP_eq_dec :: EqDecision SEXP;
  NULL : SEXP;                       (* the null pointer *)
  R_NilValue : SEXP;
  R_UnboundValue : SEXP;
  R_GlobalEnv : SEXP;
  NA_STRING : SEXP;
  TYPEOF : SEXP -> SEXPTYPE;
  Rf_isNull : SEXP -> bool;
  PRVALUE : SEXP -> SEXP;
  VECTOR_ELT : SEXP -> Z -> SEXP;
  STRING_ELT : SEXP -> Z -> SEXP;
  Rf_translateChar : SEXP -> string;
  sexp_length : SEXP -> Z;           (* r::sexp::length *)
  extract_int : SEXP -> Outcome Z;                      (* r::sexp::extract *)
  extract_strings : SEXP -> Outcome (list string);      (* r::sexp::extract *)
  jsonValueFromList : SEXP -> Outcome json_Value;       (* r::json *)
  RSession : Type;
  findVar : string -> SEXP -> RSession -> SEXP;         (* r::sexp::findVar *)
  R_eval : RFunction SEXP -> RSession -> Evaluated SEXP * RSession;
  (* what an int or a pointer holds before anything is written to it *)
  uninitialized_int : nat -> Z;
  uninitialized_SEXP : nat -> SEXP;
}.

(** [core/http]: the parsed fields of a query string and their lookup with
    a default, percent-decoding, and the serialisation of a JSON value. *)
Class HttpUtil : Type := {
  Fields : Type;
  parseQueryString : string -> Fields;
  fieldValue_int : Fields -> string -> Z -> Z;
  fieldValue_string : Fields -> string -> string -> string;
  urlDecode : string -> string;
  json_write : json_Value -> string;
  (* module_context::userScratchPath().childPath(name).absolutePath() *)
  userScratchPath_childPath : string -> string;
}.

Inductive status_Code : Type := status_Ok | status_NotFound | status_InternalServerError.

Definition status_number (c : status_Code) : Z :=
  match c with
  | status_Ok => 200
  | status_NotFound => 404
  | status_InternalServerError => 500
  end.

Record Request : Type := mkRequest { uri : string }.

Record Response : Type := mkResponse {
  statusCode : status_Code;
  body : string;
}.

Inductive ClientEventType : Type := kShowData | kDataViewChanged.

Record ClientEvent : Type := mkClientEvent {
  eventType : ClientEventType;
  eventData : json_Value;
}.

Definition kGridResource : string := "grid_resource".
Definition kViewerCacheDir : string := "viewer-cache".
Definition kNoBoundEnv : string := "_rs_no_env".

(** What a block of C++ comes to: it returns a value, or it throws an
    [r::exec::RErrorException] with its message. *)
Inductive Result (A : Type) : Type :=
| Return (a : A)
| Throw (message : string).
Arguments Return {A} a.
Arguments Throw {A} message.

(** C++ [int]: 32 bits, two's complement; arithmetic wraps around. *)
Definition int_wrap (z : Z) : Z := (z + 2 ^ 31) mod 2 ^ 32 - 2 ^ 31.
Definition int_add (a b : Z) : Z := int_wrap (a + b).
Definition int_sub (a b : Z) : Z := int_wrap (a - b).
(** [static_cast<unsigned>] of an [int]. *)
Definition to_unsigned (z : Z) : Z := z mod 2 ^ 32.

(* ===================================================================== *)
(** * Part IV: the registry of cached frames and the request handlers    *)
(* ===================================================================== *)

Section DataViewer.
Context `{SafeConvert} `{RRuntime} `{HttpUtil}.

(** CachedFrame represents an object that's currently active in a data
    viewer window. *)
Record CachedFrame : Type := mkCachedFrame {
  (* The location of the frame (if we know it) *)
  envName : string;
  objName : string;
  (* The frame's columns *)
  ncol : Z;
  colNames : list string;
  (* The current search string and filter set *)
  workingSearch : string;
  workingFilters : list string;
  (* The current order column and direction *)
  workingOrderCol : Z;
  workingOrderDir : string;
  (* Used only to test for changes. *)
  observedSEXP : SEXP;
}.

Definition isSupersetOf (frame : CachedFrame) (newSearch : string)
           (newFilters : list string) : bool :=
  if negb (isFilterSubset (workingSearch frame) newSearch) then false
  else
    forallb (fun i => isFilterSubset (nth i (workingFilters frame) "")
                                     (nth i newFilters ""))
            (seq 0 (Nat.min (length newFilters) (length (workingFilters frame)))).

(** Everything the handlers read and write besides their arguments: the
    set of active frames, the R session, and what has been sent out. *)
Record World : Type := mkWorld {
  s_cachedFrames : gmap string CachedFrame;
  session : RSession;
  calls : list (RFunction SEXP * Evaluated SEXP);
                                    (* R calls and what they came to, oldest first *)
  clientEvents : list ClientEvent;    (* module_context::enqueClientEvent *)
  errorLog : list Error;              (* LOG_ERROR *)
  uninitialized_reads : nat;          (* variables left unwritten so far *)
  recursionCount : nat;               (* counter of DROP_RECURSIVE_CALLS *)
}.

(** A computation over the world, which returns a value or throws. *)
Definition M (A : Type) : Type := World -> Result A * World.

Definition ret {A} (a : A) : M A := fun w => (Return a, w).
Definition throw {A} (message : string) : M A := fun w => (Throw message, w).
Definition bind {A B} (m : M A) (k : A -> M B) : M B :=
  fun w => match m w with
           | (Return a, w') => k a w'
           | (Throw e, w') => (Throw e, w')
           end.

Notation "'let!' x ':=' m 'in' k" := (bind m (fun x => k))
  (at level 10, x pattern, m at level 100, k at level 200).

Definition set_frames (f : gmap string CachedFrame -> gmap string CachedFrame)
  : M unit :=
  fun w => (Return tt,
            mkWorld (f (s_cachedFrames w)) (session w) (calls w) (clientEvents w)
                    (errorLog w) (uninitialized_reads w) (recursionCount w)).

Definition find_frame (cacheKey : string) : M (option CachedFrame) :=
  fun w => (Return (s_cachedFrames w !! cacheKey), w).

Definition enqueClientEvent (e : ClientEvent) : M unit :=
  fun w => (Return tt,
            mkWorld (s_cachedFrames w) (session w) (calls w) (clientEvents w ++ [e])
                    (errorLog w) (uninitialized_reads w) (recursionCount w)).

Definition LOG_ERROR (e : Error) : M unit :=
  fun w => (Return tt,
            mkWorld (s_cachedFrames w) (session w) (calls w) (clientEvents w)
                    (errorLog w ++ [e]) (uninitialized_reads w) (recursionCount w)).

Definition declare_int : M Z :=
  fun w => (Return (uninitialized_int (uninitialized_reads w)),
            mkWorld (s_cachedFrames w) (session w) (calls w) (clientEvents w)
                    (errorLog w) (S (uninitialized_reads w)) (recursionCount w)).

Definition declare_SEXP : M SEXP :=
  fun w => (Return (uninitialized_SEXP (uninitialized_reads w)),
            mkWorld (s_cachedFrames w) (session w) (calls w) (clientEvents w)
                    (errorLog w) (S (uninitialized_reads w)) (recursionCount w)).

(** [fn.call(&value, &protect)]: evaluate, log the call; [value] keeps
    what it held unless the call stored a result. *)
Definition call_outcome (r : Evaluated SEXP) (value : SEXP) : Error * SEXP :=
  match r with
  | Value v => (Success, v)
  | Raised s stored => (Failure s, default value stored)
  end.

Definition call_SEXP (fn : RFunction SEXP) (value : SEXP) : M (Error * SEXP) :=
  fun w =>
    let '(r, session') := R_eval fn (session w) in
    (Return (call_outcome r value),
     mkWorld (s_cachedFrames w) session' (calls w ++ [(fn, r)]) (clientEvents w)
             (errorLog w) (uninitialized_reads w) (recursionCount w)).

(** [fn.call()] *)
Definition call (fn : RFunction SEXP) : M Error :=
  let! r := call_SEXP fn NULL in ret (fst r).

(** [fn.call(&value)] for a C++ value: evaluate, then extract; on any
    error [value] is left as it was. *)
Definition call_as {A} (extract : SEXP -> Outcome A) (fn : RFunction SEXP)
           (value : A) : M (Error * A) :=
  fun w =>
    let '(r, session') := R_eval fn (session w) in
    (Return match r with
            | Value v =>
                match extract v with
                | Ok a => (Success, a)
                | Err s => (Failure s, value)
                end
            | Raised s _ => (Failure s, value)
            end,
     mkWorld (s_cachedFrames w) session' (calls w ++ [(fn, r)]) (clientEvents w)
             (errorLog w) (uninitialized_reads w) (recursionCount w)).

Definition call_int := call_as extract_int.
Definition call_strings := call_as extract_strings.

(** [x == NULL || TYPEOF(x) == NILSXP || Rf_isNull(x)] *)
Definition is_null (x : SEXP) : bool :=
  bool_decide (x = NULL) || bool_decide (TYPEOF x = NILSXP) || Rf_isNull x.

Definition viewerCacheDir : string := userScratchPath_childPath kViewerCacheDir.

(** The constructor [CachedFrame(env, obj, sexp)]: [ncol] and
    [workingOrderCol] are not initialised by it. *)
Definition CachedFrame_new (env obj : string) (sexp : SEXP) : M CachedFrame :=
  let! ncol0 := declare_int in
  let! workingOrderCol0 := declare_int in
  if bool_decide (sexp = NULL)
  then ret (mkCachedFrame env obj ncol0 [] "" [] workingOrderCol0 "" sexp)
  else
    (* cache list of column names *)
    let! namesSEXP0 := declare_SEXP in
    let! (_, namesSEXP) :=
      call_SEXP (mkRFunction "names" [("", PSexp sexp)]) namesSEXP0 in
    let colNames' :=
      if negb (bool_decide (namesSEXP = NULL))
         && negb (bool_decide (TYPEOF namesSEXP = NILSXP))
         && negb (Rf_isNull namesSEXP)
      then match extract_strings namesSEXP with
           | Ok l => l
           | Err _ => []
           end
      else [] in
    (* cache number of columns *)
    let! (_, ncol') := call_int (mkRFunction "ncol" [("", PSexp sexp)]) ncol0 in
    ret (mkCachedFrame env obj ncol' colNames' "" [] workingOrderCol0 "" sexp).

Definition findInNamedEnvir (envir name : string) : M SEXP :=
  (* shortcut for unbound environment *)
  if String.eqb envir kNoBoundEnv then ret NULL
  else
    (* use the global environment or resolve environment name *)
    let! env :=
      (if String.eqb envir "" || String.eqb envir "R_GlobalEnv"
       then ret R_GlobalEnv
       else let! r := call_SEXP (mkRFunction "as.environment" [("", PString envir)]) NULL
            in ret (snd r)) in
    (* if we failed to find an environment by name, return a null SEXP *)
    if is_null env then ret NULL
    else
      (* find the SEXP directly in the environment; return null if unbound *)
      fun w =>
        let obj := findVar name env (session w) in
        (Return (if bool_decide (obj = R_UnboundValue) then NULL else obj), w).

(** [getCols] *)
Definition getCols (dataSEXP : SEXP) : M json_Value :=
  let result := json_null in
  let! (error, colsSEXP) :=
    call_SEXP (mkRFunction ".rs.describeCols" [("", PSexp dataSEXP)]) NULL in
  (* on error the source builds an error object and drops it *)
  let err := if isError error then [("error", json_str (summary error))] else [] in
  ret match jsonValueFromList colsSEXP with
      | Ok v => v
      | Err _ => result
      end.

(** [getData], the block under "check to see if we have an
    ordered/filtered view we can build from": the data to page through
    and the two flags [needsTransform] and [hasTransform]. *)
Definition getData_workingView (cacheKey search : string) (filters : list string)
           (ordercol : Z) (orderdir : string) (cachedFrame : option CachedFrame)
           (dataSEXP : SEXP) (needsTransform : bool) : M (SEXP * bool * bool) :=
  let hasTransform := false in
  if needsTransform then
    match cachedFrame with
    | Some frame =>
        (* do we have a previously ordered/filtered view? *)
        let! (_, workingDataSEXP) :=
          call_SEXP (mkRFunction ".rs.findWorkingData" [("", PString cacheKey)]) NULL in
        if negb (is_null workingDataSEXP) then
          if String.eqb (workingSearch frame) search
             && bool_decide (workingFilters frame = filters)
             && String.eqb (workingOrderDir frame) orderdir
             && Z.eqb (workingOrderCol frame) ordercol
          then
            (* we have one with exactly the same parameters as requested;
               use it exactly as is *)
            ret (workingDataSEXP, false, true)
          else if isSupersetOf frame search filters then
            (* we have one that is a strict superset of the parameters
               requested; transform the filtered set instead of starting
               from scratch *)
            ret (workingDataSEXP, needsTransform, hasTransform)
          else ret (dataSEXP, needsTransform, hasTransform)
        else ret (dataSEXP, needsTransform, hasTransform)
    | None => ret (dataSEXP, needsTransform, hasTransform)
    end
  else ret (dataSEXP, needsTransform, hasTransform).

(** [getData], the block under "apply transformations if needed".  The
    [Error] tested after the call is the local [error] of [getData], which
    nothing has assigned since it was declared. *)
Definition getData_applyTransform (error : Error) (cacheKey search : string)
           (filters : list string) (ordercol : Z) (orderdir : string)
           (cachedFrame : option CachedFrame) (dataSEXP : SEXP) : M SEXP :=
  let transform :=
    mkRFunction ".rs.applyTransform"
      [("x", PSexp dataSEXP);         (* data to transform *)
       ("filtered", PStrings filters); (* which columns are filtered *)
       ("search", PString search);     (* global search (across cols) *)
       ("col", PInt ordercol);         (* which column to order on *)
       ("dir", PString orderdir)]      (* order direction ("asc"/"desc") *) in
  let! (_, dataSEXP) := call_SEXP transform dataSEXP in
  if isError error then throw (summary error)
  else
    (* check to see if we've accidentally transformed ourselves into nothing *)
    if is_null dataSEXP then throw "Failure to sort or filter data"
    else
      (* save the working data state *)
      let! _ := call (mkRFunction ".rs.saveWorkingData"
                        [("", PString cacheKey); ("", PSexp dataSEXP)]) in
      let! _ :=
        match cachedFrame with
        | Some _ =>
            set_frames
              (alter (fun frame =>
                        mkCachedFrame (envName frame) (objName frame) (ncol frame)
                                      (colNames frame) search filters ordercol orderdir
                                      (observedSEXP frame))
                     cacheKey)
        | None => ret tt
        end in
      ret dataSEXP.

(** [getData], the loop under "extract the portion of the column vector
    requested by the client"; [formattedDataSEXP] is the list allocated by
    [Rf_allocVector(VECSXP, ncol)] and filled by [SET_VECTOR_ELT]. *)
Fixpoint getData_formatColumns (dataSEXP : SEXP) (start length : Z)
         (columns : list nat) (formattedDataSEXP : list SEXP) : M (list SEXP) :=
  match columns with
  | [] => ret formattedDataSEXP
  | i :: columns' =>
      let columnSEXP := VECTOR_ELT dataSEXP (Z.of_nat i) in
      if is_null columnSEXP
      then throw ("No data in column " +:+ pretty i)
      else
        let! formattedColumnSEXP0 := declare_SEXP in
        let formatFx :=
          mkRFunction ".rs.formatDataColumn"
            [("", PSexp columnSEXP); ("", PInt start); ("", PInt length)] in
        let! (error, formattedColumnSEXP) := call_SEXP formatFx formattedColumnSEXP0 in
        if isError error then throw (summary error)
        else getData_formatColumns dataSEXP start length columns'
               (<[i := formattedColumnSEXP]> formattedDataSEXP)
  end.

(** [getData], one row of the loop under "create the result grid as JSON". *)
Definition getData_row (rownamesSEXP : SEXP) (formattedDataSEXP : list SEXP)
           (start row : Z) : json_Value :=
  let label :=
    if negb (is_null rownamesSEXP) then
      let nameSEXP := STRING_ELT rownamesSEXP row in
      if negb (bool_decide (nameSEXP = NULL))
         && negb (bool_decide (nameSEXP = NA_STRING))
         && Z.ltb 0 (sexp_length nameSEXP)
      then json_str (Rf_translateChar nameSEXP)
      else json_int (int_add row start)
    else json_int (int_add row start) in
  let cells :=
    map (fun columnSEXP =>
           if negb (is_null columnSEXP) then
             let stringSEXP := STRING_ELT columnSEXP row in
             if negb (bool_decide (stringSEXP = NULL))
                && negb (bool_decide (stringSEXP = NA_STRING))
                && Z.ltb 0 (sexp_length stringSEXP)
             then json_str (Rf_translateChar stringSEXP)
             else json_str ""
           else json_str "")
        formattedDataSEXP in
  json_array (label :: cells).

(** [getData], "int nrow = 1, ncol = 0;" and the two calls that follow: a
    call that fails leaves the initial value in place. *)
Definition getData_dimensions (dataSEXP : SEXP) : M (Z * Z) :=
  let! (_, nrow) := call_int (mkRFunction "nrow" [("", PSexp dataSEXP)]) 1 in
  let! (_, ncol) := call_int (mkRFunction "ncol" [("", PSexp dataSEXP)]) 0 in
  ret (nrow, ncol).

(** [getData], the values pushed on [filters] by the loop under "extract
    filters", for [i] from 1 to [ncol]. *)
Definition getData_filters (fields : Fields) (ncol : Z) : list string :=
  map (fun i => fieldValue_string fields
                  ("columns[" +:+ pretty i +:+ "][search][value]") "")
      (seqZ 1 ncol).

Definition getData (dataSEXP : SEXP) (fields : Fields) : M json_Value :=
  let error := Success in
  (* read draw parameters from DataTables *)
  let draw := fieldValue_int fields "draw" 0 in
  let start := fieldValue_int fields "start" 0 in
  let length := fieldValue_int fields "length" 0 in
  let ordercol := fieldValue_int fields "order[0][column]" (-1) in
  let orderdir := fieldValue_string fields "order[0][dir]" "asc" in
  let search := fieldValue_string fields "search[value]" "" in
  let cacheKey := urlDecode (fieldValue_string fields "cache_key" "") in
  let! (nrow, ncol) := getData_dimensions dataSEXP in
  (* extract filters *)
  let filters := getData_filters fields ncol in
  let hasFilter := existsb (fun filterVal => negb (String.eqb filterVal "")) filters in
  let needsTransform := Z.ltb 0 ordercol || hasFilter || negb (String.eqb search "") in
  (* check to see if we have an ordered/filtered view we can build from *)
  let! cachedFrame := find_frame cacheKey in
  let! (dataSEXP, needsTransform, hasTransform) :=
    getData_workingView cacheKey search filters ordercol orderdir cachedFrame
                        dataSEXP needsTransform in
  (* apply transformations if needed *)
  let! dataSEXP :=
    (if needsTransform
     then getData_applyTransform error cacheKey search filters ordercol orderdir
                                 cachedFrame dataSEXP
     else ret dataSEXP) in
  (* apply new row count *)
  let! filteredNRow :=
    (if needsTransform || hasTransform
     then let! (_, n) := call_int (mkRFunction "nrow" [("", PSexp dataSEXP)]) 0 in ret n
     else ret nrow) in
  (* return the lesser of the rows available and rows requested *)
  let length := Z.min length (int_sub filteredNRow start) in
  (* DataTables uses 0-based indexing, but R uses 1-based indexing *)
  let start := int_add start 1 in
  (* extract the portion of the column vector requested by the client *)
  let! formattedDataSEXP :=
    getData_formatColumns dataSEXP start length
      (seq 0 (Z.to_nat (to_unsigned ncol)))
      (replicate (Z.to_nat ncol) R_NilValue) in
  (* format the row names *)
  let! rownamesSEXP0 := declare_SEXP in
  let! (_, rownamesSEXP) :=
    call_SEXP (mkRFunction ".rs.formatRowNames"
                 [("", PSexp dataSEXP); ("", PInt start); ("", PInt length)])
              rownamesSEXP0 in
  (* create the result grid as JSON *)
  let data := map (getData_row rownamesSEXP formattedDataSEXP start) (seqZ 0 length) in
  ret (json_object [("draw", json_int draw);
                    ("recordsTotal", json_int nrow);
                    ("recordsFiltered", json_int filteredNRow);
                    ("data", json_array data)]).

(** What the [try] block of [getGridData] comes to when it does not throw:
    an early [return Success()], or a [result] together with the local
    [statusCode] of the block, or nothing at all: [TYPEOF] reads the header
    of the object it is given, the null pointer has none, and the process
    does not survive the read. *)
Inductive GridOutcome : Type :=
| NoOp
| Answered (result : json_Value) (statusCode : status_Code)
| NullDereference.

Definition getGridData_try (request : Request) : M GridOutcome :=
  (* extract the query string; if we don't find it, it's a no-op *)
  match String.index 0 "?" (uri request) with
  | None => ret NoOp
  | Some pos =>
      (* find the data frame we're going to be pulling data from *)
      let queryString :=
        substring (pos + 1) (String.length (uri request) - (pos + 1)) (uri request) in
      let fields := parseQueryString queryString in
      let envName := urlDecode (fieldValue_string fields "env" "") in
      let objName := urlDecode (fieldValue_string fields "obj" "") in
      let cacheKey := urlDecode (fieldValue_string fields "cache_key" "") in
      let show := fieldValue_string fields "show" "data" in
      if String.eqb objName "" && String.eqb cacheKey "" then ret NoOp
      else
        let statusCode := status_Ok in
        (* begin observing if we aren't already *)
        let! _ :=
          (if negb (String.eqb envName kNoBoundEnv) then
             let! objSEXP := findInNamedEnvir envName objName in
             let! it := find_frame cacheKey in
             match it with
             | None =>
                 let! frame := CachedFrame_new envName objName objSEXP in
                 set_frames (insert cacheKey frame)
             | Some _ => ret tt
             end
           else ret tt) in
        (* attempt to find the original copy of the object (loads from
           cache key if necessary) *)
        let! (error, dataSEXP) :=
          call_SEXP (mkRFunction ".rs.findDataFrame"
                       [("", PString envName); ("", PString objName);
                        ("", PString cacheKey); ("", PString viewerCacheDir)])
                    NULL in
        let! _ := (if isError error then LOG_ERROR error else ret tt) in
        (* [TYPEOF(dataSEXP)] comes before any test against the null
           pointer, which is what [dataSEXP] still is when the call stored
           nothing *)
        if bool_decide (dataSEXP = NULL) then ret NullDereference
        else
        (* if the data is a promise (happens for built-in data), the value
           is what we're looking for *)
        let dataSEXP :=
          if bool_decide (TYPEOF dataSEXP = PROMSXP) then PRVALUE dataSEXP
          else dataSEXP in
        (* couldn't find the original object *)
        if bool_decide (dataSEXP = NULL) || bool_decide (dataSEXP = R_UnboundValue)
           || Rf_isNull dataSEXP || bool_decide (TYPEOF dataSEXP = NILSXP)
        then
          let err := json_object [("error", json_str "The object no longer exists.")] in
          let statusCode := status_NotFound in
          ret (Answered err statusCode)
        else if String.eqb show "cols" then
          let! result := getCols dataSEXP in ret (Answered result statusCode)
        else if String.eqb show "data" then
          let! result := getData dataSEXP fields in ret (Answered result statusCode)
        else ret (Answered json_null statusCode)
  end.

(** [getGridData]: the response is written from [result] and from the
    [status] declared before the [try] block; the early returns leave the
    response as it was.  The handler returns the error and the response,
    or [None] where the process did not survive the block; the world is
    then the one in which it ended. *)
Definition getGridData (request : Request) (response : Response)
  : World -> option (Error * Response) * World :=
  fun w =>
    let status := status_Ok in
    match getGridData_try request w with
    | (Return NoOp, w') => (Some (Success, response), w')
    | (Return (Answered result _), w') =>
        (Some (Success, mkResponse status (json_write result)), w')
    | (Return NullDereference, w') => (None, w')
    | (Throw message, w') =>
        (* marshal R errors to the client in the format DataTables (and
           our own error handling code) expects *)
        let result := json_object [("error", json_str message)] in
        let status := status_InternalServerError in
        (Some (Success, mkResponse status (json_write result)), w')
    end.

(** [removeCachedData], after its parameter has been read. *)
Definition removeCachedData (cacheKey : string) : M Error :=
  (* remove from watchlist *)
  let! _ := set_frames (delete cacheKey) in
  (* remove cache env object and backing file *)
  call (mkRFunction ".rs.removeCachedData"
          [("", PString cacheKey); ("", PString viewerCacheDir)]).

(** [onShutdown]: failures are logged only. *)
Definition onShutdown : M unit :=
  let! error := call (mkRFunction ".rs.saveCachedData" [("", PString viewerCacheDir)]) in
  if isError error then LOG_ERROR error else ret tt.

(** The order in which a [std::map] with [std::string] keys is walked. *)
Definition key_le (a b : string) : Prop := String.leb a b = true.

Global Instance key_le_dec : RelDecision key_le.
Proof. intros a b. unfold key_le. apply _. Defined.

Definition registry_keys (frames : gmap string CachedFrame) : list string :=
  merge_sort key_le (map fst (map_to_list frames)).

(** The body of the loop of [onDetectChanges] for the entry at [key]. *)
Definition onDetectChanges_entry (key : string) : M unit :=
  let! entry := find_frame key in
  match entry with
  | None => ret tt
  | Some frame =>
      let! sexp := findInNamedEnvir (envName frame) (objName frame) in
      if negb (bool_decide (sexp = observedSEXP frame)) then
        (* create a new frame object to capture the new state of the frame *)
        let! newFrame := CachedFrame_new (envName frame) (objName frame) sexp in
        (* clear working data for the object *)
        let! _ := call (mkRFunction ".rs.removeWorkingData" [("", PString key)]) in
        (* emit client event *)
        let changed :=
          json_object
            [("cache_key", json_str key);
             ("structure_changed",
              json_bool (negb (Z.eqb (ncol frame) (ncol newFrame))
                         || negb (bool_decide (colNames frame = colNames newFrame))))] in
        let! _ := enqueClientEvent (mkClientEvent kDataViewChanged changed) in
        (* replace old frame with new *)
        set_frames (insert key newFrame)
      else ret tt
  end.

Fixpoint for_each (keys : list string) (body : string -> M unit) : M unit :=
  match keys with
  | [] => ret tt
  | key :: keys' => let! _ := body key in for_each keys' body
  end.

Definition set_recursionCount (n : nat) (w : World) : World :=
  mkWorld (s_cachedFrames w) (session w) (calls w) (clientEvents w)
          (errorLog w) (uninitialized_reads w) n.

(** [onDetectChanges]; [DROP_RECURSIVE_CALLS] counts the activations of
    the function and returns at once from any but the outermost. *)
Definition onDetectChanges : M unit :=
  fun w =>
    let w := set_recursionCount (S (recursionCount w)) w in
    if (1 <? recursionCount w)%nat
    then (Return tt, set_recursionCount (Nat.pred (recursionCount w)) w)
    else
      let '(r, w') := for_each (registry_keys (s_cachedFrames w)) onDetectChanges_entry w in
      (r, set_recursionCount (Nat.pred (recursionCount w')) w').
End DataViewer.

(** ** Opening, duplicating and releasing a view *)

(** What the remaining functions of the file use of the libraries around
    them: percent-encoding, the conversions of [r::sexp] to a
    [std::string], two accessors of R's C interface, and the reading of the
    parameters of a JSON-RPC request. *)
Class ViewerBoundary (rt : RRuntime) : Type := {
  urlEncode : string -> string;               (* http::util::urlEncode(str, true) *)
  extract_string : SEXP -> Outcome string;    (* r::sexp::extract *)
  asString : SEXP -> string;                  (* r::sexp::asString *)
  Rf_isString : SEXP -> bool;
  Rf_length : SEXP -> Z;
  (* json::readParam(params, index, &str) *)
  readParam : list json_Value -> nat -> Outcome string;
  (* json::readParams(params, &a, &b, &c, &d) *)
  readParams : list json_Value -> Outcome (string * string * string * string);
}.

(** A [json::JsonRpcRequest], of which the source reads the parameters. *)
Record JsonRpcRequest : Type := mkJsonRpcRequest {
  rpc_params : list json_Value;   (* request.params *)
}.

(** A [json::JsonRpcResponse]: the result set by [setResult], if any. *)
Definition JsonRpcResponse : Type := option json_Value.

(** How a routine called from R ends: it returns a value, or it raises an
    R error through [r::exec::error]. *)
Inductive RCall (S : Type) : Type :=
| Returned (value : S)
| RError (message : string).
Arguments Returned {S} value.
Arguments RError {S} message.

Section ViewerRpc.
Context {conv : SafeConvert} {rt : RRuntime} {hu : HttpUtil} {vb : ViewerBoundary rt}.

Notation "'let!' x ':=' m 'in' k" := (bind m (fun x => k))
  (at level 10, x pattern, m at level 100, k at level 200).

(** data items are used both as the payload for the client event that
    opens an editor viewer tab and as a server response when duplicating
    that tab's contents *)
Definition makeDataItem (dataSEXP : SEXP) (caption objName envName cacheKey : string)
  : M json_Value :=
  let! (_, nrow) := call_int (mkRFunction "nrow" [("", PSexp dataSEXP)]) 0 in
  let! (_, ncol) := call_int (mkRFunction "ncol" [("", PSexp dataSEXP)]) 0 in
  ret (json_object
         [("caption", json_str caption);
          ("totalObservations", json_int nrow);
          ("displayedObservations", json_int nrow);
          ("variables", json_int ncol);
          ("cacheKey", json_str cacheKey);
          ("object", json_str objName);
          ("environment", json_str envName);
          ("contentUrl",
           json_str (kGridResource +:+ "/gridviewer.html?env=" +:+ urlEncode envName
                     +:+ "&obj=" +:+ urlEncode objName
                     +:+ "&cache_key=" +:+ urlEncode cacheKey))]).

(** The [try] block of [rs_viewData]. *)
Definition rs_viewData_try (dataSEXP captionSEXP : SEXP)
           (objName envName cacheKey : string) : M SEXP :=
  (* validate title *)
  if negb (Rf_isString captionSEXP) || negb (Z.eqb (Rf_length captionSEXP) 1)
  then throw "invalid caption argument"
  else
    (* attempt to cast to a data frame *)
    let! (_, dataFrameSEXP) :=
      call_SEXP (mkRFunction "as.data.frame" [("", PSexp dataSEXP)]) NULL in
    let dataSEXP :=
      if negb (bool_decide (dataFrameSEXP = NULL)) then dataFrameSEXP else dataSEXP in
    let! (_, nrow) := call_int (mkRFunction "nrow" [("", PSexp dataSEXP)]) 0 in
    let! (_, ncol) := call_int (mkRFunction "ncol" [("", PSexp dataSEXP)]) 0 in
    let! dataItem :=
      makeDataItem dataSEXP (asString captionSEXP) objName envName cacheKey in
    let! _ := enqueClientEvent (mkClientEvent kShowData dataItem) in
    (* done *)
    ret R_NilValue.

Definition rs_viewData (dataSEXP captionSEXP nameSEXP envSEXP cacheKeySEXP : SEXP)
  : World -> RCall SEXP * World :=
  fun w =>
    (* attempt to reverse engineer the location of the data *)
    match call_as extract_string
            (mkRFunction "environmentName" [("", PSexp envSEXP)]) "" w with
    | (Throw message, w1) => (RError message, w1)
    | (Return (_, envName), w1) =>
        let envName :=
          if String.eqb envName "R_GlobalEnv"
          then ""    (* the global environment doesn't need to be named *)
          else if String.eqb envName "R_EmptyEnv" || String.eqb envName ""
               then kNoBoundEnv
               else envName in
        let objName := asString nameSEXP in
        let cacheKey := asString cacheKeySEXP in
        match rs_viewData_try dataSEXP captionSEXP objName envName cacheKey w1 with
        | (Return value, w2) => (Returned value, w2)
        | (Throw message, w2) => (RError message, w2)   (* r::exec::error(e.message()) *)
        end
    end.

(** [removeCachedData], from the request on: called by the client to
    expire data cached by an associated viewer tab. *)
Definition removeCachedData_rpc (request : JsonRpcRequest) : M Error :=
  match readParam (rpc_params request) 0 with
  | Err s => ret (Failure s)
  | Ok cacheKey => removeCachedData cacheKey
  end.

(** called by the client to create a second window into a data frame. this
    is primarily needed because each view needs its own cache key so we can
    filter/sort/search them independently. *)
Definition duplicateDataView (request : JsonRpcRequest) (response : JsonRpcResponse)
  : M (Error * JsonRpcResponse) :=
  match readParams (rpc_params request) with
  | Err s => ret (Failure s, response)
  | Ok (caption, envName, objName, cacheKey) =>
      (* try to duplicate the original object, but clone the cached copy if
         needed *)
      let! dataSEXP := findInNamedEnvir envName objName in
      let! found :=
        (if bool_decide (dataSEXP = NULL) then
           let! (error, dataSEXP) :=
             call_SEXP (mkRFunction ".rs.findDataFrame"
                          [("", PString envName); ("", PString objName);
                           ("", PString cacheKey); ("", PString viewerCacheDir)])
                       dataSEXP in
           if isError error then ret (inl error)
           else if is_null dataSEXP then ret (inl Success)
                else ret (inr dataSEXP)
         else ret (inr dataSEXP)) in
      match found with
      | inl error => ret (error, response)
      | inr dataSEXP =>
          (* assign a new cache key *)
          let! (error, newCacheKey) :=
            call_as extract_string
                    (mkRFunction ".rs.addCachedData" [("", PSexp dataSEXP)]) "" in
          if isError error then ret (error, response)
          else
            (* return the result *)
            let! dataItem := makeDataItem dataSEXP caption objName envName newCacheKey in
            ret (Success, Some dataItem)
      end
  end.

(** [onSuspend] persists the cache as a shutdown does; [onResume] does
    nothing. *)
Definition onSuspend : M unit := onShutdown.

Definition onResume : M unit := ret tt.
End ViewerRpc.


(* ===================================================================== *)
(** * Part V: instances of the boundary for worked scenarios             *)
(* ===================================================================== *)

(** ** Decimal conversion *)

(** An instance of [SafeConvert] over the rational numbers, for the worked
    cases of the comparator. *)
Module Decimal.

Definition digit_value (c : ascii) : Z := Z.of_nat (nat_of_ascii c) - 48.

Definition digits_value (cs : list ascii) : Z :=
  fold_left (fun acc c => 10 * acc + digit_value c) cs 0.

Definition parse (s : string) : option Q :=
  let '(ip, rest) := Regex.span_digits (list_ascii_of_string s) in
  match ip, rest with
  | [], _ => None
  | _, [] => Some (inject_Z (digits_value ip))
  | _, c :: fp =>
      if Ascii.eqb c "." && forallb Regex.is_digit fp
      then Some (Qmake (digits_value (ip ++ fp)) (Z.to_pos (10 ^ Z.of_nat (length fp))))
      else None
  end.

(** Modelled from the spec: [safe_convert::stringTo<double>] (declared in
    [core/SafeConvert.hpp]) is missing from the sources; the spec says of it
    that a bound that cannot be parsed counts as [0], the default passed to
    it.  Here a text of digits with an optional fractional part converts to
    the rational number it denotes, and any other text to the default.  On
    the short decimal numbers of the worked cases the comparisons of the
    rationals are those of the doubles. *)
Definition stringTo (s : string) (defaultValue : Q) : Q :=
  match parse s with
  | Some q => q
  | None => defaultValue
  end.

Definition convert : SafeConvert := {|
  double := Q;
  double_zero := 0%Q;
  double_ge := fun x y => Qle_bool y x;
  double_le := fun x y => Qle_bool x y;
  stringTo_double := stringTo;
|}.

End Decimal.

(** ** A miniature R session

    Data frames with named columns of already formatted cells, a global
    environment, and the working data and cached data kept by the R side of
    the viewer.  R functions listed in [failing] raise an error. *)
Module Mini.

Inductive sexp : Type :=
| mNULL                                   (* the null pointer *)
| mNil                                    (* R_NilValue *)
| mUnbound                                (* R_UnboundValue *)
| mGlobalEnv
| mNA                                     (* NA_STRING *)
| mChar (s : string)
| mStrings (l : list string)
| mInt (z : Z)
| mColumn (cells : list string)
| mFrame (id : nat) (rows : Z) (columns : list (string * list string)).

Global Instance sexp_eq_dec : EqDecision sexp.
Proof. solve_decision. Defined.

Record state : Type := mkState {
  globals : list (string * sexp);       (* bindings of the global environment *)
  working : list (string * sexp);       (* working data by cache key *)
  cached : list (string * sexp);        (* cached copies by cache key *)
  transformed : sexp;                   (* what the next transform yields *)
  failing : list string;                (* R functions that raise *)
}.

Fixpoint assoc {A} (k : string) (l : list (string * A)) : option A :=
  match l with
  | [] => None
  | (k', v) :: l' => if String.eqb k k' then Some v else assoc k l'
  end.

Definition remove {A} (k : string) (l : list (string * A)) : list (string * A) :=
  filter (fun p => negb (String.eqb k (fst p))) l.

(** Modelled from the spec: the R functions behind the calls of the source
    (those of R itself and those of the viewer's R code, [.rs.findDataFrame],
    [.rs.findWorkingData], [.rs.applyTransform] and the others) are missing
    from the sources.  They follow the DataEngine capability of the spec:
    counts and names of the columns of a frame, the working transform of a
    cache key found, saved and discarded, the original or cached copy of an
    object found, a column slice formatted from a one-based start; the
    transform yields the frame held in [transformed], and the row labels are
    absent. *)
Definition eval (fn : RFunction sexp) (st : state) : Evaluated sexp * state :=
  if existsb (String.eqb (functionName fn)) (failing st)
  then (Raised ("Error in " +:+ functionName fn) None, st)
  else
    match functionName fn, params fn with
    | "nrow", [(_, PSexp (mFrame _ rows _))] => (Value (mInt rows), st)
    | "ncol", [(_, PSexp (mFrame _ _ columns))] =>
        (Value (mInt (Z.of_nat (length columns))), st)
    | "names", [(_, PSexp (mFrame _ _ columns))] =>
        (Value (mStrings (map fst columns)), st)
    | ".rs.findWorkingData", [(_, PString key)] =>
        (Value (default mNil (assoc key (working st))), st)
    | ".rs.saveWorkingData", [(_, PString key); (_, PSexp x)] =>
        (Value mNil,
         mkState (globals st) ((key, x) :: remove key (working st)) (cached st)
                 (transformed st) (failing st))
    | ".rs.removeWorkingData", [(_, PString key)] =>
        (Value mNil,
         mkState (globals st) (remove key (working st)) (cached st)
                 (transformed st) (failing st))
    | ".rs.applyTransform", _ => (Value (transformed st), st)
    | ".rs.formatDataColumn", [(_, PSexp (mColumn cells)); (_, PInt start); (_, PInt len)] =>
        (Value (mColumn (take (Z.to_nat len) (drop (Z.to_nat (start - 1)) cells))), st)
    | ".rs.formatRowNames", _ => (Value mNil, st)
    | ".rs.findDataFrame", [(_, PString env); (_, PString obj); (_, PString key); _] =>
        (Value match assoc obj (globals st) with
               | Some x => x
               | None => default mNil (assoc key (cached st))
               end, st)
    | ".rs.removeCachedData", _ => (Value mNil, st)
    | ".rs.saveCachedData", _ => (Value mNil, st)
    | name, _ => (Raised ("could not find function " +:+ name) None, st)
    end.

Definition runtime : RRuntime := {|
  SEXP := sexp;
  NULL := mNULL;
  R_NilValue := mNil;
  R_UnboundValue := mUnbound;
  R_GlobalEnv := mGlobalEnv;
  NA_STRING := mNA;
  TYPEOF := fun x => match x with mNil => NILSXP | _ => OTHERSXP end;
  Rf_isNull := fun x => match x with mNil => true | _ => false end;
  PRVALUE := fun x => x;
  VECTOR_ELT := fun x i =>
    match x with
    | mFrame _ _ columns =>
        match columns !! Z.to_nat i with
        | Some (_, cells) => mColumn cells
        | None => mNULL
        end
    | _ => mNULL
    end;
  STRING_ELT := fun x i =>
    match x with
    | mColumn cells => match cells !! Z.to_nat i with Some c => mChar c | None => mNA end
    | mStrings l => match l !! Z.to_nat i with Some c => mChar c | None => mNA end
    | _ => mNULL
    end;
  Rf_translateChar := fun x => match x with mChar s => s | _ => "" end;
  sexp_length := fun x => match x with mChar s => Z.of_nat (String.length s) | _ => 0 end;
  extract_int := fun x => match x with mInt z => Ok z | _ => Err "not an integer" end;
  extract_strings := fun x =>
    match x with mStrings l => Ok l | _ => Err "not a character vector" end;
  jsonValueFromList := fun _ => Err "not a list";
  RSession := state;
  findVar := fun name env st =>
    match env with
    | mGlobalEnv => default mUnbound (assoc name (globals st))
    | _ => mUnbound
    end;
  R_eval := eval;
  uninitialized_int := fun n => - Z.of_nat n;
  uninitialized_SEXP := fun n => mInt (Z.of_nat n);
|}.

(** Query strings: fields separated by [&], name and value by [=]. *)
Fixpoint split_on (sep : ascii) (cs cur : list ascii) : list (list ascii) :=
  match cs with
  | [] => [rev cur]
  | c :: cs' =>
      if Ascii.eqb c sep then rev cur :: split_on sep cs' []
      else split_on sep cs' (c :: cur)
  end.

Definition parse_field (cs : list ascii) : string * string :=
  match split_on "=" cs [] with
  | name :: value :: _ => (string_of_list_ascii name, string_of_list_ascii value)
  | [name] => (string_of_list_ascii name, "")
  | [] => ("", "")
  end.

(** The decimal numeral [s] as an [int]: none when [s] is no numeral or
    its value does not fit the 32 bits of an [int]. *)
Definition parse_int (s : string) : option Z :=
  let fits (z : Z) := if Z.leb (- 2 ^ 31) z && Z.ltb z (2 ^ 31) then Some z else None in
  match list_ascii_of_string s with
  | [] => None
  | c :: cs =>
      if Ascii.eqb c "-"
      then match cs with
           | [] => None
           | _ => if forallb Regex.is_digit cs then fits (- Decimal.digits_value cs) else None
           end
      else if forallb Regex.is_digit (c :: cs) then fits (Decimal.digits_value (c :: cs))
           else None
  end.

Definition quote : string := String (ascii_of_nat 34) EmptyString.

Fixpoint write (v : json_Value) : string :=
  match v with
  | json_null => "null"
  | json_int z => pretty z
  | json_bool b => if b then "true" else "false"
  | json_str s => quote +:+ s +:+ quote
  | json_array l => "[" +:+ String.concat "," (map write l) +:+ "]"
  | json_object members =>
      "{" +:+ String.concat ","
                (map (fun m => quote +:+ fst m +:+ quote +:+ ":" +:+ write (snd m)) members)
          +:+ "}"
  end.

(** Modelled from the spec: [http::util::parseQueryString],
    [http::util::fieldValue], [http::util::urlDecode] and [json::write]
    (declared under [core/http] and [core/json]) are missing from the
    sources.  They follow the transport of the spec: the query parameters
    of a request are fields [name=value] joined by [&]; [draw], [start],
    [length] and [order[0][column]] are read as an [int], and a field that
    is absent or holds no [int] reads as the default passed for it; the
    string fields read as they are written, percent-decoding left out; and a
    JSON value is written in the usual notation. *)
Definition http : HttpUtil := {|
  Fields := list (string * string);
  parseQueryString := fun q => map parse_field (split_on "&" (list_ascii_of_string q) []);
  fieldValue_int := fun fields name defaultValue =>
    match assoc name fields with
    | Some v => default defaultValue (parse_int v)
    | None => defaultValue
    end;
  fieldValue_string := fun fields name defaultValue =>
    default defaultValue (assoc name fields);
  urlDecode := fun s => s;
  json_write := write;
  userScratchPath_childPath := fun name => "/scratch/" +:+ name;
|}.

(** A world over the miniature session with nothing sent yet. *)
Definition world (frames : gmap string (@CachedFrame runtime)) (st : state)
  : @World runtime :=
  @mkWorld runtime frames st [] [] [] 0%nat 0%nat.

(** A frame with two columns [a], [b] and three rows. *)
Definition cars : sexp :=
  mFrame 1 3 [("a", ["1"; "2"; "3"]); ("b", ["x"; "y"; "z"])].

End Mini.

(** ** The miniature session, with what opening and duplicating a view use

    The session of [Mini] with three more R functions, and the conversions
    and parameter reading of [ViewerBoundary]. *)
Module MiniViewer.
Import Mini.

(** Modelled from the spec: [environmentName], [as.data.frame] and
    [.rs.addCachedData] are missing from the sources.  An environment is
    named by the text it holds, the global one ["R_GlobalEnv"]; a frame is
    its own data frame; and duplicating a view gives the copy a cache key
    that is new to the session, under which the copy is cached.  All other
    functions are those of [Mini.eval]. *)
Definition eval (fn : RFunction sexp) (st : state) : Evaluated sexp * state :=
  if existsb (String.eqb (functionName fn)) (failing st)
  then Mini.eval fn st
  else
    match functionName fn, params fn with
    | "environmentName", [(_, PSexp mGlobalEnv)] => (Value (mStrings ["R_GlobalEnv"]), st)
    | "environmentName", [(_, PSexp (mChar name))] => (Value (mStrings [name]), st)
    | "environmentName", [(_, PSexp _)] => (Value (mStrings [""]), st)
    | "as.data.frame", [(_, PSexp x)] => (Value x, st)
    | ".rs.addCachedData", [(_, PSexp x)] =>
        let key := "copy" +:+ pretty (length (cached st)) in
        (Value (mStrings [key]),
         mkState (globals st) (working st) ((key, x) :: cached st)
                 (transformed st) (failing st))
    | _, _ => Mini.eval fn st
    end.

Definition runtime : RRuntime := {|
  SEXP := sexp;
  NULL := mNULL;
  R_NilValue := mNil;
  R_UnboundValue := mUnbound;
  R_GlobalEnv := mGlobalEnv;
  NA_STRING := mNA;
  TYPEOF := @TYPEOF Mini.runtime;
  Rf_isNull := @Rf_isNull Mini.runtime;
  PRVALUE := @PRVALUE Mini.runtime;
  VECTOR_ELT := @VECTOR_ELT Mini.runtime;
  STRING_ELT := @STRING_ELT Mini.runtime;
  Rf_translateChar := @Rf_translateChar Mini.runtime;
  sexp_length := @sexp_length Mini.runtime;
  extract_int := @extract_int Mini.runtime;
  extract_strings := @extract_strings Mini.runtime;
  jsonValueFromList := @jsonValueFromList Mini.runtime;
  RSession := state;
  findVar := @findVar Mini.runtime;
  R_eval := eval;
  uninitialized_int := @uninitialized_int Mini.runtime;
  uninitialized_SEXP := @uninitialized_SEXP Mini.runtime;
|}.

Definition read_string (params : list json_Value) (index : nat) : Outcome string :=
  match params !! index with
  | Some (json_str s) => Ok s
  | Some _ => Err "Invalid params"
  | None => Err "Param missing"
  end.

Definition read_strings (params : list json_Value)
  : Outcome (string * string * string * string) :=
  match read_string params 0, read_string params 1,
        read_string params 2, read_string params 3 with
  | Ok a, Ok b, Ok c, Ok d => Ok (a, b, c, d)
  | Err s, _, _, _ | _, Err s, _, _ | _, _, Err s, _ | _, _, _, Err s => Err s
  end.

Definition to_string (x : sexp) : Outcome string :=
  match x with
  | mStrings [s] => Ok s
  | mChar s => Ok s
  | _ => Err "not a string"
  end.

Definition as_string (x : sexp) : string :=
  match x with
  | mStrings (s :: _) => s
  | mChar s => s
  | _ => ""
  end.

Definition is_string (x : sexp) : bool :=
  match x with mStrings _ => true | _ => false end.

Definition length_of (x : sexp) : Z :=
  match x with
  | mStrings l => Z.of_nat (length l)
  | mColumn cells => Z.of_nat (length cells)
  | mFrame _ _ columns => Z.of_nat (length columns)
  | mNULL | mNil => 0
  | _ => 1
  end.

(** The names of the worked cases hold no character that needs escaping. *)
Definition boundary : ViewerBoundary runtime :=
  @Build_ViewerBoundary runtime (fun s => s) to_string as_string is_string length_of
                        read_string read_strings.

(** A world over this session with nothing sent yet. *)
Definition world (frames : gmap string (@CachedFrame runtime)) (st : state)
  : @World runtime :=
  @mkWorld runtime frames st [] [] [] 0%nat 0%nat.

End MiniViewer.

(** The miniature session on memory that has been used before: an [int]
    that is declared and never written holds [unwritten], whatever that
    is. *)
Module MiniStale.
Import Mini.

Definition runtime (unwritten : Z) : RRuntime := {|
  SEXP := sexp;
  NULL := mNULL;
  R_NilValue := mNil;
  R_UnboundValue := mUnbound;
  R_GlobalEnv := mGlobalEnv;
  NA_STRING := mNA;
  TYPEOF := @TYPEOF Mini.runtime;
  Rf_isNull := @Rf_isNull Mini.runtime;
  PRVALUE := @PRVALUE Mini.runtime;
  VECTOR_ELT := @VECTOR_ELT Mini.runtime;
  STRING_ELT := @STRING_ELT Mini.runtime;
  Rf_translateChar := @Rf_translateChar Mini.runtime;
  sexp_length := @sexp_length Mini.runtime;
  extract_int := @extract_int Mini.runtime;
  extract_strings := @extract_strings Mini.runtime;
  jsonValueFromList := @jsonValueFromList Mini.runtime;
  RSession := state;
  findVar := @findVar Mini.runtime;
  R_eval := Mini.eval;
  uninitialized_int := fun _ => unwritten;
  uninitialized_SEXP := @uninitialized_SEXP Mini.runtime;
|}.

(** A world over this session with nothing sent yet. *)
Definition world (unwritten : Z) (frames : gmap string (@CachedFrame (runtime unwritten)))
           (st : state) : @World (runtime unwritten) :=
  @mkWorld (runtime unwritten) frames st [] [] [] 0%nat 0%nat.

End MiniStale.


(* ===================================================================== *)
(** * Part VI: the numeric range filter, described without the matcher   *)
(* ===================================================================== *)

Module RangeText.
Import Regex.

(** A bound: digits, then optionally a dot and more digits. *)
Definition is_bound (b : list ascii) : Prop :=
  exists ds fs,
    b = ds ++ fs /\ ds <> [] /\ forallb is_digit ds = true /\
    (fs = [] \/ exists fd, fs = "."%char :: fd /\ forallb is_digit fd = true).

(** A numeric range: a bound, a dash, a bound. *)
Definition is_range (m : list ascii) : Prop :=
  exists lo up, m = lo ++ "-"%char :: up /\ is_bound lo /\ is_bound up.

(** The string has a numeric range somewhere inside it. *)
Definition contains_range (s : string) : Prop :=
  exists pre m post, list_ascii_of_string s = pre ++ m ++ post /\ is_range m.

(** [lo]-[up] is the first numeric range of [s]: no range starts further
    left, and none that starts at the same place is longer. *)
Definition first_range (s : string) (lo up : list ascii) : Prop :=
  exists pre post,
    list_ascii_of_string s = pre ++ (lo ++ "-"%char :: up) ++ post /\
    is_bound lo /\ is_bound up /\
    (forall pre' m' post',
        list_ascii_of_string s = pre' ++ m' ++ post' -> is_range m' ->
        (length pre <= length pre')%nat) /\
    (forall m' post',
        (lo ++ "-"%char :: up) ++ post = m' ++ post' -> is_range m' ->
        (length m' <= length (lo ++ "-"%char :: up))%nat).

(** Reading a bound, and a range, off the head of a text in one pass. *)
Definition scan_bound (cs : list ascii) : option (list ascii * list ascii) :=
  let '(ds, rest) := span_digits cs in
  match ds with
  | [] => None
  | _ =>
      match rest with
      | c :: rest' =>
          if Ascii.eqb c "."
          then let '(fd, rest'') := span_digits rest' in Some (ds ++ c :: fd, rest'')
          else Some (ds, rest)
      | [] => Some (ds, rest)
      end
  end.

Definition scan_range (cs : list ascii)
  : option (list ascii * list ascii * list ascii) :=
  match scan_bound cs with
  | Some (lo, c :: rest) =>
      if Ascii.eqb c "-"
      then match scan_bound rest with
           | Some (up, rest') => Some (lo, up, rest')
           | None => None
           end
      else None
  | _ => None
  end.

(** The first place of a text where a range can be read. *)
Fixpoint scan_first (cs : list ascii) : option (list ascii * list ascii) :=
  match scan_range cs with
  | Some (lo, up, _) => Some (lo, up)
  | None =>
      match cs with
      | [] => None
      | _ :: cs' => scan_first cs'
      end
  end.

End RangeText.

(** The comparator as the specification words it: the numeric rule applies
    when both strings, as a whole, parse as a numeric range
    [<lower>-<upper>]; otherwise [outer] has to be a prefix of [inner]. *)
Section SpecComparator.
Context `{SafeConvert}.

Definition parse_range (s : string) : option (string * string) :=
  match RangeText.scan_range (list_ascii_of_string s) with
  | Some (lo, up, []) => Some (string_of_list_ascii lo, string_of_list_ascii up)
  | _ => None
  end.

Definition spec_IsSubset (outer inner : string) : bool :=
  if String.eqb outer inner then true
  else
    match parse_range inner, parse_range outer with
    | Some (innerLower, innerUpper), Some (outerLower, outerUpper) =>
        double_ge (stringTo_double innerLower double_zero)
                  (stringTo_double outerLower double_zero)
        && double_le (stringTo_double innerUpper double_zero)
                     (stringTo_double outerUpper double_zero)
    | _, _ =>
        (String.length outer <=? String.length inner)%nat && String.prefix outer inner
    end.
End SpecComparator.


(** ** Vocabulary for the properties of the handlers *)
Section Vocabulary.
Context `{SafeConvert} `{RRuntime} `{HttpUtil}.

(** The draw parameters [getData] reads from the fields of a request. *)
Definition field_start (fields : Fields) : Z := fieldValue_int fields "start" 0.
Definition field_length (fields : Fields) : Z := fieldValue_int fields "length" 0.
Definition field_ordercol (fields : Fields) : Z :=
  fieldValue_int fields "order[0][column]" (-1).
Definition field_orderdir (fields : Fields) : string :=
  fieldValue_string fields "order[0][dir]" "asc".
Definition field_search (fields : Fields) : string :=
  fieldValue_string fields "search[value]" "".
Definition field_cacheKey (fields : Fields) : string :=
  urlDecode (fieldValue_string fields "cache_key" "").

(** The initial value of [needsTransform] in [getData]. *)
Definition needs_transform (ordercol : Z) (filters : list string) (search : string)
  : bool :=
  Z.ltb 0 ordercol
  || existsb (fun filterVal => negb (String.eqb filterVal "")) filters
  || negb (String.eqb search "").

(** The fields of the query string of a request, if it has one. *)
Definition request_fields (request : Request) : option Fields :=
  match String.index 0 "?" (uri request) with
  | None => None
  | Some pos =>
      Some (parseQueryString
              (substring (pos + 1) (String.length (uri request) - (pos + 1))
                         (uri request)))
  end.

(** The R calls made between two worlds. *)
Definition new_calls (w w' : World) : list (RFunction SEXP * Evaluated SEXP) :=
  drop (length (calls w)) (calls w').

Definition called (name : string) (c : RFunction SEXP * Evaluated SEXP) : Prop :=
  functionName (fst c) = name.

(** [logs ok blame m]: whatever the world, [m] only appends to the log of
    R calls; when it returns every call it made is [ok], and when it throws
    [e] every call it made is [ok] or is to [blame] for [e]. *)
Definition logs {A} (ok : RFunction SEXP * Evaluated SEXP -> Prop)
           (blame : RFunction SEXP * Evaluated SEXP -> string -> Prop)
           (m : M A) : Prop :=
  forall w, exists delta,
    calls (snd (m w)) = calls w ++ delta /\
    match fst (m w) with
    | Return _ => Forall ok delta
    | Throw e => Forall (fun c => ok c \/ blame c e) delta
    end.

(** Two frames that describe the same object: they differ at most in the
    working transform recorded in them. *)
Definition same_source (a b : CachedFrame) : Prop :=
  envName a = envName b /\ objName a = objName b /\ ncol a = ncol b /\
  colNames a = colNames b /\ observedSEXP a = observedSEXP b.

(** [m] leaves every registered frame registered, for the same object. *)
Definition keeps_sources {A} (m : M A) : Prop :=
  forall w key frame,
    s_cachedFrames w !! key = Some frame ->
    exists frame',
      s_cachedFrames (snd (m w)) !! key = Some frame' /\ same_source frame frame'.

(** The keys the scan of [onDetectChanges] visits before it reaches [key]. *)
Fixpoint keys_before (key : string) (keys : list string) : list string :=
  match keys with
  | [] => []
  | k :: keys' => if String.eqb k key then [] else k :: keys_before key keys'
  end.

(** The world in which the scan started in [w] reaches the entry of [key]. *)
Definition scan_reaches (w : World) (key : string) : World :=
  snd (for_each (keys_before key (registry_keys (s_cachedFrames w)))
                onDetectChanges_entry
                (set_recursionCount (S (recursionCount w)) w)).

(** The event that tells the client of a change of the data of a view. *)
Definition data_view_changed (key : string) (structure_changed : bool) : ClientEvent :=
  mkClientEvent kDataViewChanged
                (json_object [("cache_key", json_str key);
                              ("structure_changed", json_bool structure_changed)]).

(** A member of a JSON object. *)
Definition json_member (name : string) (v : json_Value) : option json_Value :=
  match v with
  | json_object members => snd <$> find (fun m => String.eqb name (fst m)) members
  | _ => None
  end.

(** The rows of the grid of a response of [getData]. *)
Definition json_rows (v : json_Value) : option (list json_Value) :=
  match json_member "data" v with
  | Some (json_array rows) => Some rows
  | _ => None
  end.
End Vocabulary.

(** ** Vocabulary for what a computation leaves alone *)
Section Frame.
Context {rt : RRuntime}.

(** [m] leaves the part [f] of the world as it finds it. *)
Definition unchanged {A X} (f : World -> X) (m : M A) : Prop :=
  forall w, f (snd (m w)) = f w.

(** The client events and the logged errors between two worlds. *)
Definition new_events (w w' : World) : list ClientEvent :=
  drop (length (clientEvents w)) (clientEvents w').

Definition new_errors (w w' : World) : list Error :=
  drop (length (errorLog w)) (errorLog w').

(** The world [w] after more R calls [delta], with the registry, the
    session and the count of unwritten variables as given, and the client
    events, the error log and the recursion counter as they were. *)
Definition after_calls (w : World) (frames : gmap string CachedFrame) (s : RSession)
           (delta : list (RFunction SEXP * Evaluated SEXP)) (n : nat) : World :=
  mkWorld frames s (calls w ++ delta) (clientEvents w) (errorLog w) n
          (recursionCount w).

(** What [fn.call(&value)] leaves in an [int] that held [value]. *)
Definition int_result (r : Evaluated SEXP) (value : Z) : Z :=
  match r with
  | Value v => match extract_int v with Ok a => a | Err _ => value end
  | Raised _ _ => value
  end.

(** What [fn.call(&value, &protect)] leaves in a pointer that held [value]. *)
Definition SEXP_result (r : Evaluated SEXP) (value : SEXP) : SEXP :=
  snd (call_outcome r value).

(** The cache keys whose working data the calls of a log remove, in the
    order of the calls. *)
Definition removeWorkingData_keys (l : list (RFunction SEXP * Evaluated SEXP))
  : list string :=
  omap (fun c =>
          if String.eqb (functionName (fst c)) ".rs.removeWorkingData"
          then match params (fst c) with
               | [(_, PString key)] => Some key
               | _ => None
               end
          else None) l.

(** The event that reports the change of the view of a cache key, with its
    structure flag. *)
Definition changed_event (change : string * bool) : ClientEvent :=
  mkClientEvent kDataViewChanged
                (json_object [("cache_key", json_str (fst change));
                              ("structure_changed", json_bool (snd change))]).

(** The frame with a transform recorded in it, as [getData] does after a
    transform. *)
Definition record_transform (search : string) (filters : list string)
           (ordercol : Z) (orderdir : string) (frame : CachedFrame) : CachedFrame :=
  mkCachedFrame (envName frame) (objName frame) (ncol frame) (colNames frame)
                search filters ordercol orderdir (observedSEXP frame).
End Frame.

(** ** Vocabulary for opening and duplicating a view *)
Section ViewerVocabulary.
Context {rt : RRuntime} {vb : ViewerBoundary rt}.

(** What [fn.call(&value)] leaves in a [std::string] that held [value], and
    the error it returns. *)
Definition string_result (r : Evaluated SEXP) (value : string) : string :=
  match r with
  | Value v => match extract_string v with Ok a => a | Err _ => value end
  | Raised _ _ => value
  end.

Definition string_error (r : Evaluated SEXP) : Error :=
  match r with
  | Value v => match extract_string v with Ok _ => Success | Err s => Failure s end
  | Raised s _ => Failure s
  end.

(** The data item of [makeDataItem]. *)
Definition data_item (caption : string) (nrow ncol : Z)
           (cacheKey objName envName : string) : json_Value :=
  json_object
    [("caption", json_str caption);
     ("totalObservations", json_int nrow);
     ("displayedObservations", json_int nrow);
     ("variables", json_int ncol);
     ("cacheKey", json_str cacheKey);
     ("object", json_str objName);
     ("environment", json_str envName);
     ("contentUrl",
      json_str (kGridResource +:+ "/gridviewer.html?env=" +:+ urlEncode envName
                +:+ "&obj=" +:+ urlEncode objName
                +:+ "&cache_key=" +:+ urlEncode cacheKey))].

(** The name under which [rs_viewData] reports an environment that R names
    [name]. *)
Definition reported_environment (name : string) : string :=
  if String.eqb name "R_GlobalEnv" then ""
  else if String.eqb name "R_EmptyEnv" || String.eqb name "" then kNoBoundEnv
       else name.
End ViewerVocabulary.

(** ** Vocabulary for the R calls of a page request *)
Section PageCalls.
Context {conv : SafeConvert} {rt : RRuntime} {hu : HttpUtil}.

Definition nrow_call (x : SEXP) : RFunction SEXP :=
  mkRFunction "nrow" [("", PSexp x)].

Definition ncol_call (x : SEXP) : RFunction SEXP :=
  mkRFunction "ncol" [("", PSexp x)].

Definition findWorkingData_call (fields : Fields) : RFunction SEXP :=
  mkRFunction ".rs.findWorkingData" [("", PString (field_cacheKey fields))].

(** The transform of [x] with the filters, search and order of a request
    on data of [ncol] columns. *)
Definition applyTransform_call (fields : Fields) (ncol : Z) (x : SEXP) : RFunction SEXP :=
  mkRFunction ".rs.applyTransform"
    [("x", PSexp x);
     ("filtered", PStrings (getData_filters fields ncol));
     ("search", PString (field_search fields));
     ("col", PInt (field_ordercol fields));
     ("dir", PString (field_orderdir fields))].

Definition saveWorkingData_call (fields : Fields) (x : SEXP) : RFunction SEXP :=
  mkRFunction ".rs.saveWorkingData" [("", PString (field_cacheKey fields)); ("", PSexp x)].

(** The first row, one-based, and the number of rows of the page of a
    request over [F] filtered rows. *)
Definition page_start (fields : Fields) : Z := int_add (field_start fields) 1.

Definition page_length (fields : Fields) (F : Z) : Z :=
  Z.min (field_length fields) (int_sub F (field_start fields)).

Definition formatDataColumn_call (fields : Fields) (F : Z) (column : SEXP)
  : RFunction SEXP :=
  mkRFunction ".rs.formatDataColumn"
    [("", PSexp column); ("", PInt (page_start fields)); ("", PInt (page_length fields F))].

Definition formatRowNames_call (fields : Fields) (F : Z) (x : SEXP) : RFunction SEXP :=
  mkRFunction ".rs.formatRowNames"
    [("", PSexp x); ("", PInt (page_start fields)); ("", PInt (page_length fields F))].

(** The response of [getData]. *)
Definition page_json (fields : Fields) (nrow F : Z) (rows : list json_Value) : json_Value :=
  json_object [("draw", json_int (fieldValue_int fields "draw" 0));
               ("recordsTotal", json_int nrow);
               ("recordsFiltered", json_int F);
               ("data", json_array rows)].
End PageCalls.


(* ===================================================================== *)
(** * Part VII: properties                                               *)
(* ===================================================================== *)

(** ** The matcher on the numeric range pattern *)

Module RegexFacts.
Import Regex RangeText.

Lemma span_digits_spec cs :
  cs = fst (span_digits cs) ++ snd (span_digits cs) /\
  forallb is_digit (fst (span_digits cs)) = true /\
  (forall c rest, snd (span_digits cs) = c :: rest -> is_digit c = false).
Proof.
  induction cs as [|c cs IH]; simpl.
  - repeat split; intros; discriminate.
  - destruct (is_digit c) eqn:Hc.
    + destruct (span_digits cs) as [ds rest]; simpl in *.
      destruct IH as (IH1 & IH2 & IH3). repeat split.
      * congruence.
      * now rewrite Hc.
      * exact IH3.
    + simpl. repeat split. intros c' rest [= -> _]. exact Hc.
Qed.

Lemma span_digits_run s1 s2 :
  forallb is_digit s1 = true ->
  span_digits (s1 ++ s2) = (s1 ++ fst (span_digits s2), snd (span_digits s2)).
Proof.
  induction s1 as [|c s1 IH]; simpl; intros Hd.
  - now destruct (span_digits s2).
  - apply andb_true_iff in Hd as [Hc Hd]. rewrite Hc, (IH Hd). reflexivity.
Qed.

Lemma span_digits_stop cs :
  (forall c rest, cs = c :: rest -> is_digit c = false) ->
  span_digits cs = ([], cs).
Proof.
  destruct cs as [|c cs]; simpl; [reflexivity|].
  intros Hc. now rewrite (Hc c cs eq_refl).
Qed.

Lemma star_greedy_digit {R} (s : list ascii) (k : list ascii -> option R) :
  (k (snd (span_digits s)) = None ->
   forall s1 c s2, s = s1 ++ c :: s2 -> forallb is_digit s1 = true ->
                   is_digit c = true -> k (c :: s2) = None) ->
  star_greedy Digit s k = k (snd (span_digits s)).
Proof.
  induction s as [|c s IH]; simpl; intros Hk; [reflexivity|].
  destruct (is_digit c) eqn:Hc; [|reflexivity].
  destruct (span_digits s) as [ds rest] eqn:Hs; simpl in *.
  rewrite IH.
  - destruct (k rest) eqn:Hr; [reflexivity|].
    apply (Hk eq_refl [] c s); auto.
  - intros Hr s1 c' s2 -> Hd Hc'.
    apply (Hk Hr (c :: s1) c' s2); simpl; auto. now rewrite Hc.
Qed.

Lemma mtch_fraction {R} (k : list ascii -> smatch -> option R) s caps :
  ((forall c s' caps', is_digit c = true \/ c = "."%char -> k (c :: s') caps' = None) \/
   (forall s' caps', k s' caps' <> None)) ->
  mtch (Seq (Opt (Lit ".")) (Star Digit)) s caps k =
  match s with
  | c :: rest' =>
      if Ascii.eqb c "." then k (snd (span_digits rest')) caps
      else k (snd (span_digits s)) caps
  | [] => k [] caps
  end.
Proof.
  intros Hk.
  assert (Hin : forall t, star_greedy Digit t (fun s' => k s' caps)
                          = k (snd (span_digits t)) caps).
  { intros t. apply star_greedy_digit. intros Hn s1 c' s2 -> Hd Hc'.
    destruct Hk as [Hk|Hk]; [apply Hk; auto | now apply Hk in Hn]. }
  destruct s as [|c rest']; [reflexivity|].
  cbn [mtch accepts]. rewrite Ascii.eqb_sym.
  destruct (Ascii.eqb c ".") eqn:Hdot.
  - rewrite Hin. destruct (k (snd (span_digits rest')) caps) eqn:Hr; [reflexivity|].
    apply Ascii.eqb_eq in Hdot as ->. simpl.
    destruct Hk as [Hk|Hk]; [apply Hk; auto | now apply Hk in Hr].
  - apply Hin.
Qed.

Lemma mtch_bound {R} (k : list ascii -> smatch -> option R) s caps :
  ((forall c s' caps', is_digit c = true \/ c = "."%char -> k (c :: s') caps' = None) \/
   (forall s' caps', k s' caps' <> None)) ->
  mtch bound s caps k =
  match scan_bound s with
  | Some (b, rest) => k rest caps
  | None => None
  end.
Proof.
  intros Hk. unfold bound, scan_bound.
  destruct s as [|c s]; [reflexivity|].
  change (mtch (Seq (Plus Digit) (Seq (Opt (Lit ".")) (Star Digit))) (c :: s) caps k)
    with (if is_digit c
          then star_greedy Digit s
                 (fun s'' => mtch (Seq (Opt (Lit ".")) (Star Digit)) s'' caps k)
          else None).
  cbn [span_digits]. destruct (is_digit c) eqn:Hc; [|reflexivity].
  destruct (span_digits_spec s) as (Happ & Hds & Hstop).
  destruct (span_digits s) as [ds rest] eqn:Hsp; simpl in Happ, Hds, Hstop.
  assert (Hrest : mtch (Seq (Opt (Lit ".")) (Star Digit)) rest caps k =
                  match rest with
                  | c' :: rest' =>
                      if Ascii.eqb c' "." then k (snd (span_digits rest')) caps
                      else k rest caps
                  | [] => k [] caps
                  end).
  { rewrite mtch_fraction by exact Hk. destruct rest as [|c' rest']; [reflexivity|].
    destruct (Ascii.eqb c' "."); [reflexivity|].
    rewrite span_digits_stop; [reflexivity|]. intros ? ? [= <- _]. eauto. }
  rewrite star_greedy_digit; rewrite Hsp; simpl snd.
  - rewrite Hrest. destruct rest as [|c' rest']; [reflexivity|].
    destruct (Ascii.eqb c' "."); [|reflexivity].
    now destruct (span_digits rest').
  - intros Hn s1 c1 s2 Hs Hd Hc1.
    rewrite mtch_fraction by exact Hk.
    assert (Hc1' : Ascii.eqb c1 "." = false).
    { destruct (Ascii.eqb c1 ".") eqn:E; [|reflexivity].
      apply Ascii.eqb_eq in E. subst c1. discriminate. }
    rewrite Hc1'.
    assert (Hsp2 : snd (span_digits (c1 :: s2)) = rest).
    { pose proof (span_digits_run s1 (c1 :: s2) Hd) as Hrun.
      rewrite <- Hs, Hsp in Hrun. now inversion Hrun. }
    rewrite Hsp2. rewrite Hrest in Hn.
    destruct rest as [|c' rest']; [exact Hn|].
    destruct (Ascii.eqb c' ".") eqn:E; [|exact Hn].
    apply Ascii.eqb_eq in E. subst c'.
    destruct Hk as [Hk|Hk]; [apply Hk; auto | now apply Hk in Hn].
Qed.

Lemma take_consumed {A} (a b : list A) :
  take (length (a ++ b) - length b) (a ++ b) = a.
Proof.
  rewrite length_app. replace (length a + length b - length b)%nat with (length a) by lia.
  apply take_app_length.
Qed.

Lemma scan_bound_app s b rest :
  scan_bound s = Some (b, rest) -> s = b ++ rest.
Proof.
  unfold scan_bound. destruct (span_digits_spec s) as (Happ & _ & _).
  destruct (span_digits s) as [ds r]; simpl in Happ.
  destruct ds as [|d ds]; [discriminate|].
  destruct r as [|c r'].
  - intros [= <- <-]. exact Happ.
  - destruct (Ascii.eqb c ".").
    + destruct (span_digits_spec r') as (Happ' & _ & _).
      destruct (span_digits r') as [fd r'']; simpl in Happ'.
      intros [= <- <-]. rewrite Happ. rewrite Happ' at 1.
      simpl. now rewrite <- app_assoc.
    + intros [= <- <-]. exact Happ.
Qed.

Lemma match_here_numFilter s :
  match_here numFilter s =
  match scan_range s with
  | Some (lo, up, _) => Some [Some (lo ++ "-"%char :: up); Some lo; Some up]
  | None => None
  end.
Proof.
  unfold match_here, numFilter, scan_range.
  set (kf := fun (s' : list ascii) (caps : smatch) =>
               Some (<[0%nat := Some (take (length s - length s') s)]> caps)).
  set (caps0 := replicate _ None).
  change (mtch (Seq (Group 1 ?g) ?x) s caps0 kf)
    with (mtch bound s caps0
            (fun s' caps' =>
               mtch x s' (<[1%nat := Some (take (length s - length s') s)]> caps') kf)).
  rewrite mtch_bound.
  2:{ left. intros c s' caps' Hc. cbn [mtch accepts].
      destruct (Ascii.eqb "-" c) eqn:E; [|reflexivity].
      apply Ascii.eqb_eq in E. subst c. destruct Hc; discriminate. }
  destruct (scan_bound s) as [[lo rest]|] eqn:Hlo; [|reflexivity].
  apply scan_bound_app in Hlo. subst s.
  destruct rest as [|c rest]; [reflexivity|].
  change (mtch (Seq (One (Lit "-")) (Group 2 ?g)) (c :: rest) ?cp kf)
    with (if Ascii.eqb "-" c
          then mtch bound rest cp
                 (fun s' caps' =>
                    kf s' (<[2%nat := Some (take (length rest - length s') rest)]> caps'))
          else None).
  rewrite Ascii.eqb_sym.
  destruct (Ascii.eqb c "-") eqn:Hdash; [|reflexivity].
  apply Ascii.eqb_eq in Hdash. subst c.
  rewrite mtch_bound by (right; discriminate).
  destruct (scan_bound rest) as [[up rest']|] eqn:Hup; [|reflexivity].
  apply scan_bound_app in Hup. subst rest. unfold kf, caps0.
  rewrite !take_consumed.
  replace (lo ++ "-"%char :: up ++ rest') with ((lo ++ "-"%char :: up) ++ rest')
    by now rewrite <- app_assoc.
  rewrite take_consumed. reflexivity.
Qed.

Lemma regex_search_from_scan s :
  regex_search_from numFilter s =
  match scan_first s with
  | Some (lo, up) => Some [Some (lo ++ "-"%char :: up); Some lo; Some up]
  | None => None
  end.
Proof.
  induction s as [|c s IH]; cbn [regex_search_from scan_first];
    rewrite match_here_numFilter.
  - now destruct (scan_range []) as [[[lo up] r]|].
  - destruct (scan_range (c :: s)) as [[[lo up] r]|]; [reflexivity|exact IH].
Qed.

Lemma span_digits_all ds rest :
  forallb is_digit ds = true ->
  (forall c r, rest = c :: r -> is_digit c = false) ->
  span_digits (ds ++ rest) = (ds, rest).
Proof.
  intros Hd Hr. rewrite span_digits_run by exact Hd.
  rewrite span_digits_stop by exact Hr. simpl. now rewrite app_nil_r.
Qed.

(** A bound followed by a dash is read back exactly. *)
Lemma scan_bound_dash b r :
  is_bound b -> scan_bound (b ++ "-"%char :: r) = Some (b, "-"%char :: r).
Proof.
  intros (ds & fs & -> & Hne & Hds & Hfs). unfold scan_bound.
  destruct Hfs as [-> | (fd & -> & Hfd)].
  - rewrite app_nil_r.
    rewrite span_digits_all; [|exact Hds|intros ? ? [= <- _]; reflexivity].
    destruct ds; [contradiction|reflexivity].
  - rewrite <- app_assoc.
    rewrite span_digits_all; [|exact Hds|intros ? ? [= <- _]; reflexivity].
    destruct ds as [|d ds]; [contradiction|].
    cbn [app]. change (Ascii.eqb "." ".") with true. cbv iota.
    rewrite span_digits_all; [|exact Hfd|intros ? ? [= <- _]; reflexivity].
    reflexivity.
Qed.

Lemma scan_bound_is_bound s b rest :
  scan_bound s = Some (b, rest) -> is_bound b.
Proof.
  unfold scan_bound. destruct (span_digits_spec s) as (_ & Hds & _).
  destruct (span_digits s) as [ds r]; simpl in Hds.
  destruct ds as [|d ds]; [discriminate|].
  destruct r as [|c r'].
  - intros [= <- <-]. exists (d :: ds), []. rewrite app_nil_r. auto.
  - destruct (Ascii.eqb c ".") eqn:Hdot.
    + apply Ascii.eqb_eq in Hdot. subst c.
      destruct (span_digits_spec r') as (_ & Hfd & _).
      destruct (span_digits r') as [fd r'']; simpl in Hfd.
      intros [= <- <-]. exists (d :: ds), ("."%char :: fd).
      repeat split; eauto.
    + intros [= <- <-]. exists (d :: ds), []. rewrite app_nil_r. auto.
Qed.

Lemma scan_bound_longest s b rest b' r' :
  scan_bound s = Some (b, rest) -> s = b' ++ r' -> is_bound b' ->
  (length b' <= length b)%nat.
Proof.
  intros Hs -> (ds & fs & -> & Hne & Hds & Hfs). revert Hs. unfold scan_bound.
  destruct Hfs as [-> | (fd & -> & Hfd)].
  - rewrite app_nil_r. rewrite span_digits_run by exact Hds.
    destruct (span_digits r') as [ds' r''] eqn:Hr'. cbn [fst snd].
    destruct (ds ++ ds') as [|x l] eqn:Hl; [discriminate|].
    assert (length ds <= length (x :: l))%nat
      by (rewrite <- Hl, length_app; lia).
    destruct r'' as [|c r3].
    + now intros [= <- <-].
    + destruct (Ascii.eqb c ".").
      * destruct (span_digits r3). intros [= <- <-].
        simpl in *. rewrite length_app. lia.
      * now intros [= <- <-].
  - rewrite <- app_assoc.
    rewrite span_digits_all; [|exact Hds|intros ? ? [= <- _]; reflexivity].
    destruct ds as [|d ds]; [contradiction|].
    cbn [app]. change (Ascii.eqb "." ".") with true. cbv iota.
    rewrite span_digits_run by exact Hfd.
    destruct (span_digits r') as [fd' r'']. cbn [fst snd].
    intros [= <- <-]. simpl. rewrite ?length_app. simpl. rewrite ?length_app. lia.
Qed.

Lemma scan_bound_complete b r :
  is_bound b -> scan_bound (b ++ r) <> None.
Proof.
  intros (ds & fs & -> & Hne & Hds & Hfs). unfold scan_bound.
  rewrite <- app_assoc. rewrite span_digits_run by exact Hds.
  destruct (span_digits (fs ++ r)) as [ds' r'']. cbn [fst snd].
  destruct (ds ++ ds') as [|x l] eqn:Hl.
  { destruct ds; [contradiction|discriminate]. }
  destruct r'' as [|c r3]; [discriminate|].
  destruct (Ascii.eqb c "."); [destruct (span_digits r3)|]; discriminate.
Qed.

Lemma scan_range_complete m post :
  is_range m -> scan_range (m ++ post) <> None.
Proof.
  intros (lo & up & -> & Hlo & Hup). unfold scan_range.
  rewrite <- app_assoc. cbn [app]. rewrite scan_bound_dash by exact Hlo.
  change (Ascii.eqb "-" "-") with true. cbv iota.
  pose proof (scan_bound_complete up post Hup) as Hc.
  destruct (scan_bound (up ++ post)) as [[u r]|]; [discriminate|contradiction].
Qed.

Lemma scan_range_sound s lo up rest :
  scan_range s = Some (lo, up, rest) ->
  s = (lo ++ "-"%char :: up) ++ rest /\ is_bound lo /\ is_bound up /\
  (forall m' post', s = m' ++ post' -> is_range m' ->
                    (length m' <= length (lo ++ "-"%char :: up))%nat).
Proof.
  unfold scan_range.
  destruct (scan_bound s) as [[lo0 [|c r1]]|] eqn:Hlo; try discriminate.
  destruct (Ascii.eqb c "-") eqn:Hdash; [|discriminate].
  apply Ascii.eqb_eq in Hdash. subst c.
  destruct (scan_bound r1) as [[up0 r2]|] eqn:Hup; [|discriminate].
  intros [= <- <- <-].
  pose proof (scan_bound_app _ _ _ Hlo) as Hs.
  pose proof (scan_bound_app _ _ _ Hup) as Hr1.
  split; [|split; [|split]].
  - rewrite Hs, Hr1. now rewrite <- app_assoc.
  - eapply scan_bound_is_bound; eauto.
  - eapply scan_bound_is_bound; eauto.
  - intros m' post' Hm (lo' & up' & -> & Hlo' & Hup').
    rewrite <- app_assoc in Hm. cbn [app] in Hm.
    pose proof (scan_bound_dash lo' (up' ++ post') Hlo') as Hd.
    rewrite <- Hm, Hlo in Hd. injection Hd as <- Hr.
    pose proof (scan_bound_longest _ _ _ _ _ Hup Hr Hup') as Hle.
    rewrite !length_app. simpl. lia.
Qed.

Lemma scan_first_sound s lo up :
  scan_first s = Some (lo, up) ->
  exists pre post,
    s = pre ++ (lo ++ "-"%char :: up) ++ post /\ is_bound lo /\ is_bound up /\
    (forall pre' m' post', s = pre' ++ m' ++ post' -> is_range m' ->
                           (length pre <= length pre')%nat) /\
    (forall m' post', (lo ++ "-"%char :: up) ++ post = m' ++ post' -> is_range m' ->
                      (length m' <= length (lo ++ "-"%char :: up))%nat).
Proof.
  induction s as [|c s IH]; cbn [scan_first].
  - destruct (scan_range []) as [[[lo0 up0] r]|] eqn:Hr; [|discriminate].
    intros [= <- <-]. apply scan_range_sound in Hr as (Hs & Hlo & Hup & Hmax).
    exists [], r. cbn [app]. repeat split; auto.
    + intros; simpl; lia.
    + intros m' post' Hm. apply (Hmax m' post'). now rewrite Hs.
  - destruct (scan_range (c :: s)) as [[[lo0 up0] r]|] eqn:Hr.
    + intros [= <- <-]. apply scan_range_sound in Hr as (Hs & Hlo & Hup & Hmax).
      exists [], r. cbn [app]. repeat split; auto.
      * intros; simpl; lia.
      * intros m' post' Hm. apply (Hmax m' post'). now rewrite Hs.
    + intros Hf. destruct (IH Hf) as (pre & post & Hs & Hlo & Hup & Hleft & Hmax).
      exists (c :: pre), post. repeat split; auto.
      * cbn [app]. now rewrite <- Hs.
      * intros pre' m' post' Hm Hrange. destruct pre' as [|c' pre'].
        -- cbn [app] in Hm. exfalso.
           apply (scan_range_complete m' post' Hrange). now rewrite <- Hm.
        -- cbn [app] in Hm. injection Hm as <- Hm.
           simpl. apply le_n_S. eapply Hleft; eauto.
Qed.

Lemma scan_first_complete pre m post :
  is_range m -> scan_first (pre ++ m ++ post) <> None.
Proof.
  intros Hm. induction pre as [|c pre IH].
  - cbn [app]. pose proof (scan_range_complete m post Hm) as Hc.
    destruct (m ++ post) as [|x l]; cbn [scan_first];
      destruct (scan_range _) as [[[? ?] ?]|]; congruence.
  - cbn [app scan_first].
    destruct (scan_range (c :: pre ++ m ++ post)) as [[[? ?] ?]|]; [discriminate|exact IH].
Qed.
End RegexFacts.

(** ** The comparator *)

Section ComparatorFacts.
Context `{SafeConvert}.
Import Regex RangeText RegexFacts.

Lemma contains_range_scan s :
  contains_range s <-> scan_first (list_ascii_of_string s) <> None.
Proof.
  split.
  - intros (pre & m & post & -> & Hm). now apply scan_first_complete.
  - intros Hs. destruct (scan_first (list_ascii_of_string s)) as [[lo up]|] eqn:E;
      [|contradiction].
    apply scan_first_sound in E as (pre & post & Hs' & Hlo & Hup & _).
    exists pre, (lo ++ "-"%char :: up), post. split; [exact Hs'|].
    now exists lo, up.
Qed.

Lemma scan_first_first_range s lo up :
  scan_first (list_ascii_of_string s) = Some (lo, up) -> first_range s lo up.
Proof. intros E. apply scan_first_sound in E. exact E. Qed.

Lemma range_split lo up lo' up' :
  is_bound lo -> is_bound lo' ->
  lo ++ "-"%char :: up = lo' ++ "-"%char :: up' -> lo = lo' /\ up = up'.
Proof.
  intros Hlo Hlo' E.
  pose proof (scan_bound_dash lo up Hlo) as H1.
  pose proof (scan_bound_dash lo' up' Hlo') as H2.
  rewrite E, H2 in H1. now inversion H1.
Qed.

Lemma first_range_scan_first s lo up :
  first_range s lo up -> scan_first (list_ascii_of_string s) = Some (lo, up).
Proof.
  intros (pre & post & Hs & Hlo & Hup & Hleft & Hlong).
  destruct (scan_first (list_ascii_of_string s)) as [[lo' up']|] eqn:E.
  - apply scan_first_sound in E
      as (pre' & post' & Hs' & Hlo' & Hup' & Hleft' & Hlong').
    assert (Hr : is_range (lo ++ "-"%char :: up)) by now exists lo, up.
    assert (Hr' : is_range (lo' ++ "-"%char :: up')) by now exists lo', up'.
    pose proof (Hleft _ _ _ Hs' Hr') as L1.
    pose proof (Hleft' _ _ _ Hs Hr) as L2.
    assert (Hlen : length pre = length pre') by lia.
    rewrite Hs in Hs'. apply app_inj_1 in Hs' as [-> Hm]; [|exact Hlen].
    pose proof (Hlong _ _ Hm Hr') as L3.
    pose proof (Hlong' _ _ (eq_sym Hm) Hr) as L4.
    apply app_inj_1 in Hm as [Hm _]; [|lia].
    apply range_split in Hm as [-> ->]; auto.
  - exfalso. revert E. rewrite Hs. apply scan_first_complete. now exists lo, up.
Qed.

(** The prefix rule at the end of [isFilterSubset]. *)
Lemma prefix_rule outer inner :
  (if (String.length inner <? String.length outer)%nat then false
   else if negb (String.eqb (substring 0 (String.length outer) inner) outer)
        then false else true) = true
  <-> (String.length outer <= String.length inner)%nat /\ exists t, inner = outer +:+ t.
Proof.
  revert inner. induction outer as [|a outer IH]; intros inner.
  - simpl. destruct inner; simpl; (split; [split; [lia|eauto]|reflexivity]).
  - destruct inner as [|c inner].
    + simpl. split; [discriminate|]. intros [Hl _]. simpl in Hl. lia.
    + specialize (IH inner). cbn [String.length substring String.eqb].
      change (S (String.length inner) <? S (String.length outer))%nat
        with (String.length inner <? String.length outer)%nat.
      destruct (String.length inner <? String.length outer)%nat eqn:Hlt.
      * split; [discriminate|]. intros [Hl _]. apply Nat.ltb_lt in Hlt. lia.
      * destruct (Ascii.eqb c a) eqn:Hca; cbn [andb negb].
        -- apply Ascii.eqb_eq in Hca. subst c. rewrite IH. split.
           ++ intros (Hl & t & ->). split; [lia|]. now exists t.
           ++ intros (Hl & t & Ht). split; [lia|]. exists t.
              cbn in Ht. now injection Ht.
        -- split; [discriminate|]. intros (_ & t & Ht). cbn in Ht.
           injection Ht as -> _. now rewrite Ascii.eqb_refl in Hca.
Qed.

Lemma isFilterSubset_refl s : isFilterSubset s s = true.
Proof. unfold isFilterSubset. now rewrite String.eqb_refl. Qed.

(** [isFilterSubset] on two different strings, with the search of the
    pattern replaced by one pass over each string. *)
Lemma isFilterSubset_scan outer inner :
  outer <> inner ->
  isFilterSubset outer inner =
  match scan_first (list_ascii_of_string inner),
        scan_first (list_ascii_of_string outer) with
  | Some (li, ui), Some (lo, uo) =>
      double_ge (stringTo_double (string_of_list_ascii li) double_zero)
                (stringTo_double (string_of_list_ascii lo) double_zero)
      && double_le (stringTo_double (string_of_list_ascii ui) double_zero)
                   (stringTo_double (string_of_list_ascii uo) double_zero)
  | _, _ =>
      if (String.length inner <? String.length outer)%nat then false
      else if negb (String.eqb (substring 0 (String.length outer) inner) outer)
           then false else true
  end.
Proof.
  intros Hne. unfold isFilterSubset, regex_search.
  destruct (String.eqb inner outer) eqn:E.
  { apply String.eqb_eq in E. congruence. }
  rewrite !regex_search_from_scan.
  destruct (scan_first (list_ascii_of_string inner)) as [[li ui]|]; [|reflexivity].
  destruct (scan_first (list_ascii_of_string outer)) as [[lo uo]|]; reflexivity.
Qed.

Lemma isFilterSubset_ranges outer inner lo uo li ui :
  outer <> inner -> first_range outer lo uo -> first_range inner li ui ->
  isFilterSubset outer inner =
  double_ge (stringTo_double (string_of_list_ascii li) double_zero)
            (stringTo_double (string_of_list_ascii lo) double_zero)
  && double_le (stringTo_double (string_of_list_ascii ui) double_zero)
               (stringTo_double (string_of_list_ascii uo) double_zero).
Proof.
  intros Hne Ho Hi. rewrite isFilterSubset_scan by exact Hne.
  now rewrite (first_range_scan_first _ _ _ Ho), (first_range_scan_first _ _ _ Hi).
Qed.

Lemma isFilterSubset_prefix outer inner :
  outer <> inner -> ~ (contains_range outer /\ contains_range inner) ->
  (isFilterSubset outer inner = true <->
   (String.length outer <= String.length inner)%nat /\ exists t, inner = outer +:+ t).
Proof.
  intros Hne Hno. rewrite isFilterSubset_scan by exact Hne.
  rewrite !contains_range_scan in Hno.
  destruct (scan_first (list_ascii_of_string inner)) as [[li ui]|] eqn:Ei;
    [|apply prefix_rule].
  destruct (scan_first (list_ascii_of_string outer)) as [[lo uo]|] eqn:Eo;
    [|apply prefix_rule].
  exfalso. apply Hno. split; discriminate.
Qed.

Lemma isFilterSubset_empty s : isFilterSubset "" s = true.
Proof.
  destruct (string_dec "" s) as [<-|Hne]; [apply isFilterSubset_refl|].
  apply isFilterSubset_prefix; [exact Hne| |].
  - intros [Hc _]. apply contains_range_scan in Hc. now apply Hc.
  - split; [simpl; lia|]. now exists s.
Qed.

Lemma parse_range_first s lo up :
  parse_range s = Some (lo, up) ->
  first_range s (list_ascii_of_string lo) (list_ascii_of_string up) /\
  s = lo +:+ "-" +:+ up.
Proof.
  unfold parse_range.
  destruct (scan_range (list_ascii_of_string s)) as [[[l u] [|? ?]]|] eqn:E;
    try discriminate.
  intros [= <- <-]. rewrite !list_ascii_of_string_of_list_ascii. split.
  - apply scan_first_first_range.
    destruct (list_ascii_of_string s); cbn [scan_first]; now rewrite E.
  - apply scan_range_sound in E as (Hs & _). rewrite app_nil_r in Hs.
    rewrite <- (string_of_list_ascii_of_string s), Hs.
    clear. induction l as [|c l IH]; cbn.
    + reflexivity.
    + now rewrite IH.
Qed.
End ComparatorFacts.

Section ComparatorClaims.
Context `{SafeConvert}.
Import Regex RangeText RegexFacts.

(** Two different strings that each contain a range: the outcome is the
    comparison of the bounds of their first ranges. *)
Lemma isFilterSubset_first_ranges outer inner :
  outer <> inner -> contains_range outer -> contains_range inner ->
  exists lo uo li ui,
    first_range outer lo uo /\ first_range inner li ui /\
    isFilterSubset outer inner =
    double_ge (stringTo_double (string_of_list_ascii li) double_zero)
              (stringTo_double (string_of_list_ascii lo) double_zero)
    && double_le (stringTo_double (string_of_list_ascii ui) double_zero)
                 (stringTo_double (string_of_list_ascii uo) double_zero).
Proof.
  intros Hne Ho Hi.
  apply contains_range_scan in Ho, Hi.
  destruct (scan_first (list_ascii_of_string outer)) as [[lo uo]|] eqn:Eo;
    [|contradiction].
  destruct (scan_first (list_ascii_of_string inner)) as [[li ui]|] eqn:Ei;
    [|contradiction].
  apply scan_first_first_range in Eo, Ei.
  exists lo, uo, li, ui. repeat split; auto.
  now apply isFilterSubset_ranges.
Qed.

(** C2 (amended).  [isFilterSubset] is true on equal strings.  On different
    strings that each contain a numeric range somewhere, it compares the
    bounds of the first range of either string: the lower bound of [inner]
    has to be at least that of [outer], its upper bound at most that of
    [outer].  On all other pairs it is true exactly when [inner] is at least
    as long as [outer] and starts with it.  A string that is a numeric range
    as a whole has that range as its first range.  With decimal conversion,
    ["3-7"] is a subset of ["1-10"] and ["abcd"] of ["abc"], not the other
    way round. *)
Theorem isFilterSubset_rules :
  (forall s, isFilterSubset s s = true) /\
  (forall outer inner,
      outer <> inner -> contains_range outer -> contains_range inner ->
      exists lo uo li ui,
        first_range outer lo uo /\ first_range inner li ui /\
        isFilterSubset outer inner =
        double_ge (stringTo_double (string_of_list_ascii li) double_zero)
                  (stringTo_double (string_of_list_ascii lo) double_zero)
        && double_le (stringTo_double (string_of_list_ascii ui) double_zero)
                     (stringTo_double (string_of_list_ascii uo) double_zero)) /\
  (forall outer inner,
      outer <> inner -> ~ (contains_range outer /\ contains_range inner) ->
      (isFilterSubset outer inner = true <->
       (String.length outer <= String.length inner)%nat /\
       exists t, inner = outer +:+ t)) /\
  (forall s lo up,
      parse_range s = Some (lo, up) ->
      first_range s (list_ascii_of_string lo) (list_ascii_of_string up)) /\
  (@isFilterSubset Decimal.convert "1-10" "3-7" = true /\
   @isFilterSubset Decimal.convert "abc" "abcd" = true /\
   @isFilterSubset Decimal.convert "3-7" "1-10" = false /\
   @isFilterSubset Decimal.convert "abcd" "abc" = false).
Proof.
  split; [exact isFilterSubset_refl|].
  split; [exact isFilterSubset_first_ranges|].
  split; [exact isFilterSubset_prefix|].
  split; [intros s lo up Hp; now apply parse_range_first in Hp|].
  repeat split; vm_compute; reflexivity.
Qed.

(** C10.  Two different strings that each merely contain a numeric range
    are compared by the numeric rule; the outcome is that of comparing the
    bounds of the first range of either string, so it is the same for any
    other pair of strings with the same first ranges.  With decimal
    conversion, ["z1-2"] is a subset of ["x1-2y"] although it does not start
    with it, and ["a5-67"] is not a subset of ["a5-6"] although it does. *)
Theorem isFilterSubset_embedded_range :
  (forall outer inner,
      outer <> inner -> contains_range outer -> contains_range inner ->
      exists lo uo li ui,
        first_range outer lo uo /\ first_range inner li ui /\
        isFilterSubset outer inner =
        double_ge (stringTo_double (string_of_list_ascii li) double_zero)
                  (stringTo_double (string_of_list_ascii lo) double_zero)
        && double_le (stringTo_double (string_of_list_ascii ui) double_zero)
                     (stringTo_double (string_of_list_ascii uo) double_zero)) /\
  (forall outer inner outer' inner' lo uo li ui,
      outer <> inner -> outer' <> inner' ->
      first_range outer lo uo -> first_range outer' lo uo ->
      first_range inner li ui -> first_range inner' li ui ->
      isFilterSubset outer inner = isFilterSubset outer' inner') /\
  (contains_range "x1-2y" /\ contains_range "z1-2" /\
   @isFilterSubset Decimal.convert "x1-2y" "z1-2" = true /\
   String.prefix "x1-2y" "z1-2" = false /\
   @isFilterSubset Decimal.convert "a5-6" "a5-67" = false /\
   String.prefix "a5-6" "a5-67" = true).
Proof.
  split; [exact isFilterSubset_first_ranges|].
  split.
  { intros outer inner outer' inner' lo uo li ui Hne Hne' Ho Ho' Hi Hi'.
    rewrite (isFilterSubset_ranges outer inner lo uo li ui) by assumption.
    now rewrite (isFilterSubset_ranges outer' inner' lo uo li ui) by assumption. }
  repeat split; try (vm_compute; reflexivity);
    apply contains_range_scan; vm_compute; discriminate.
Qed.
End ComparatorClaims.

(** Witness of C2: two different strings with a range inside. *)
Lemma isFilterSubset_rules_witness :
  exists lo uo li ui,
    RangeText.first_range "a1-5" lo uo /\ RangeText.first_range "b2-3" li ui /\
    @isFilterSubset Decimal.convert "a1-5" "b2-3" =
    @double_ge Decimal.convert
       (@stringTo_double Decimal.convert (string_of_list_ascii li) 0%Q)
       (@stringTo_double Decimal.convert (string_of_list_ascii lo) 0%Q)
    && @double_le Decimal.convert
         (@stringTo_double Decimal.convert (string_of_list_ascii ui) 0%Q)
         (@stringTo_double Decimal.convert (string_of_list_ascii uo) 0%Q).
Proof.
  apply (proj1 (proj2 (@isFilterSubset_rules Decimal.convert)) "a1-5" "b2-3").
  - discriminate.
  - apply contains_range_scan. vm_compute. discriminate.
  - apply contains_range_scan. vm_compute. discriminate.
Defined.

(** The claim C2 as the specification words it fails on two strings that
    embed a range: the code compares the embedded bounds, the specification
    asks for a prefix. *)
Lemma isFilterSubset_not_spec_IsSubset :
  @isFilterSubset Decimal.convert "a1-5" "b2-3" = true /\
  @spec_IsSubset Decimal.convert "a1-5" "b2-3" = false.
Proof. split; vm_compute; reflexivity. Qed.

(** Witness of C10. *)
Lemma isFilterSubset_embedded_range_witness :
  exists lo uo li ui,
    RangeText.first_range "x1-2y" lo uo /\ RangeText.first_range "z1-2" li ui /\
    @isFilterSubset Decimal.convert "x1-2y" "z1-2" =
    @double_ge Decimal.convert
       (@stringTo_double Decimal.convert (string_of_list_ascii li) 0%Q)
       (@stringTo_double Decimal.convert (string_of_list_ascii lo) 0%Q)
    && @double_le Decimal.convert
         (@stringTo_double Decimal.convert (string_of_list_ascii ui) 0%Q)
         (@stringTo_double Decimal.convert (string_of_list_ascii uo) 0%Q).
Proof.
  apply (proj1 (@isFilterSubset_embedded_range Decimal.convert) "x1-2y" "z1-2").
  - discriminate.
  - apply contains_range_scan. vm_compute. discriminate.
  - apply contains_range_scan. vm_compute. discriminate.
Defined.

(** ** The log of R calls *)

Section LogFacts.
Context {conv : SafeConvert} {rt : RRuntime} {hu : HttpUtil}.

Lemma bind_run {A B} (m : M A) (k : A -> M B) w :
  bind m k w = match m w with
               | (Return a, w') => k a w'
               | (Throw e, w') => (Throw e, w')
               end.
Proof. reflexivity. Qed.

Lemma logs_ret {A} ok blame (a : A) : logs ok blame (ret a).
Proof. intros w. exists []. simpl. now rewrite app_nil_r. Qed.

Lemma logs_throw {A} ok blame e : logs ok blame (@throw _ A e).
Proof. intros w. exists []. simpl. now rewrite app_nil_r. Qed.

Lemma logs_bind {A B} ok blame (m : M A) (k : A -> M B) :
  logs ok blame m -> (forall a, logs ok blame (k a)) -> logs ok blame (bind m k).
Proof.
  intros Hm Hk w. rewrite bind_run.
  destruct (Hm w) as (d1 & Hc1 & Hr1).
  destruct (m w) as [[a|e] w1]; simpl in *.
  - destruct (Hk a w1) as (d2 & Hc2 & Hr2).
    exists (d1 ++ d2). split; [now rewrite Hc2, Hc1, app_assoc|].
    destruct (fst (k a w1)).
    + now apply Forall_app.
    + apply Forall_app. split; [|exact Hr2].
      eapply Forall_impl; [exact Hr1|]. auto.
  - exists d1. auto.
Qed.

Lemma logs_mono {A} (ok ok' : _ -> Prop) (blame blame' : _ -> string -> Prop)
      (m : M A) :
  (forall c, ok c -> ok' c) -> (forall c e, blame c e -> blame' c e) ->
  logs ok blame m -> logs ok' blame' m.
Proof.
  intros Hok Hbl Hm w. destruct (Hm w) as (d & Hc & Hr).
  exists d. split; [exact Hc|].
  destruct (fst (m w)).
  - eapply Forall_impl; eauto.
  - eapply Forall_impl; [exact Hr|]. intros c [?|?]; eauto.
Qed.

Lemma logs_call_SEXP ok blame fn value :
  (forall r, ok (fn, r)) -> logs ok blame (call_SEXP fn value).
Proof.
  intros Hok w. unfold call_SEXP.
  destruct (R_eval fn (session w)) as [r s'] eqn:E. exists [(fn, r)].
  simpl. split; [reflexivity|]. repeat constructor. apply Hok.
Qed.

Lemma logs_call_as {A} ok blame (extract : SEXP -> Outcome A) fn value :
  (forall r, ok (fn, r)) -> logs ok blame (call_as extract fn value).
Proof.
  intros Hok w. unfold call_as.
  destruct (R_eval fn (session w)) as [r s'] eqn:E. exists [(fn, r)].
  simpl. split; [reflexivity|]. repeat constructor. apply Hok.
Qed.

Lemma logs_call ok blame fn :
  (forall r, ok (fn, r)) -> logs ok blame (call fn).
Proof.
  intros Hok. unfold call. apply logs_bind; [now apply logs_call_SEXP|].
  intros a. apply logs_ret.
Qed.

Lemma logs_silent {A} ok blame (m : M A) :
  (forall w, calls (snd (m w)) = calls w) ->
  (forall w, exists a, fst (m w) = Return a) ->
  logs ok blame m.
Proof.
  intros Hc Hr w. exists []. rewrite Hc, app_nil_r. split; [reflexivity|].
  destruct (Hr w) as [a ->]. constructor.
Qed.

Lemma logs_set_frames ok blame f : logs ok blame (set_frames f).
Proof. apply logs_silent; intros w; [reflexivity|now exists tt]. Qed.

Lemma logs_find_frame ok blame key : logs ok blame (find_frame key).
Proof. apply logs_silent; intros w; [reflexivity|eexists; reflexivity]. Qed.

Lemma logs_enqueClientEvent ok blame e : logs ok blame (enqueClientEvent e).
Proof. apply logs_silent; intros w; [reflexivity|now exists tt]. Qed.

Lemma logs_LOG_ERROR ok blame e : logs ok blame (LOG_ERROR e).
Proof. apply logs_silent; intros w; [reflexivity|now exists tt]. Qed.

Lemma logs_declare_int ok blame : logs ok blame declare_int.
Proof. apply logs_silent; intros w; [reflexivity|eexists; reflexivity]. Qed.

Lemma logs_declare_SEXP ok blame : logs ok blame declare_SEXP.
Proof. apply logs_silent; intros w; [reflexivity|eexists; reflexivity]. Qed.

(** What [logs] says about the calls between the two ends of a run. *)
Lemma logs_new_calls {A} ok blame (m : M A) w :
  logs ok blame m ->
  match fst (m w) with
  | Return _ => Forall ok (new_calls w (snd (m w)))
  | Throw e => Forall (fun c => ok c \/ blame c e) (new_calls w (snd (m w)))
  end.
Proof.
  intros Hm. destruct (Hm w) as (d & Hc & Hr). unfold new_calls.
  rewrite Hc, drop_app_length. exact Hr.
Qed.

(** A call followed by what depends on its outcome: either the call is
    [ok] and so is what follows, or the call is to [blame] for the message
    that is thrown right after it. *)
Lemma logs_call_SEXP_bind {B} ok blame fn value (k : Error * SEXP -> M B) :
  (forall r,
      (ok (fn, r) /\ logs ok blame (k (call_outcome r value))) \/
      (exists e, blame (fn, r) e /\
                 forall w, k (call_outcome r value) w = (Throw e, w))) ->
  logs ok blame (bind (call_SEXP fn value) k).
Proof.
  intros Hk w. rewrite bind_run. unfold call_SEXP.
  destruct (R_eval fn (session w)) as [r s'] eqn:E.
  set (w1 := mkWorld _ _ _ _ _ _ _).
  destruct (Hk r) as [[Hok Hlog] | (e & Hbl & Hthrow)].
  - destruct (Hlog w1) as (d & Hc & Hr). exists ((fn, r) :: d). split.
    + rewrite Hc. subst w1. simpl. now rewrite <- app_assoc.
    + destruct (k (call_outcome r value) w1) as [[b|e'] w2]; simpl in *;
        constructor; auto.
  - rewrite Hthrow. exists [(fn, r)]. simpl. split; [reflexivity|].
    constructor; [now right|constructor].
Qed.
End LogFacts.

Ltac logs_step :=
  first
    [ apply logs_ret | apply logs_throw | apply logs_set_frames
    | apply logs_find_frame | apply logs_enqueClientEvent | apply logs_LOG_ERROR
    | apply logs_declare_int | apply logs_declare_SEXP
    | apply logs_call_SEXP; intros ?
    | apply logs_call_as; intros ?
    | apply logs_call; intros ?
    | apply logs_bind; [|intros ?]
    | match goal with
      | |- logs _ _ (let '(_, _) := ?p in _) => destruct p
      | |- logs _ _ (match ?x with _ => _ end) => destruct x
      end ].

(** The loop that formats the columns: each of its calls is a
    [.rs.formatDataColumn] with the [start] and [length] of the loop, and
    the first that raises ends the loop with its summary. *)
Lemma logs_formatColumns `{SafeConvert} `{RRuntime} `{HttpUtil}
      (ok : RFunction SEXP * Evaluated SEXP -> Prop)
      (blame : RFunction SEXP * Evaluated SEXP -> string -> Prop)
      d start len cols fmt :
  (forall col v,
      ok (mkRFunction ".rs.formatDataColumn"
            [("", PSexp col); ("", PInt start); ("", PInt len)], Value v)) ->
  (forall col s stored,
      blame (mkRFunction ".rs.formatDataColumn"
               [("", PSexp col); ("", PInt start); ("", PInt len)], Raised s stored) s) ->
  logs ok blame (getData_formatColumns d start len cols fmt).
Proof.
  intros Hok Hbl.
  revert fmt. induction cols as [|i cols IH]; intros fmt; cbn [getData_formatColumns].
  - apply logs_ret.
  - destruct (is_null _); [apply logs_throw|].
    apply logs_bind; [apply logs_declare_SEXP|]. intros v0.
    apply logs_call_SEXP_bind. intros r.
    destruct r as [v|s stored]; cbn [call_outcome isError summary].
    + left. split; [apply Hok|apply IH].
    + right. exists s. split; [apply Hbl|reflexivity].
Qed.

Section Policy.
Context {conv : SafeConvert} {rt : RRuntime} {hu : HttpUtil}.
Variable ok : RFunction SEXP * Evaluated SEXP -> Prop.
Variable blame : RFunction SEXP * Evaluated SEXP -> string -> Prop.

(** The policy: calls other than the transform and the formatting of a
    column are [ok]; a formatting call is [ok] when it yields a value and
    to [blame] for its own summary when it raises; a transform call is
    [ok] unless it yields a null value, for which it is to [blame] under
    the message of [getData]. *)
Hypothesis other_ok :
  forall c, ~ called ".rs.formatDataColumn" c -> ~ called ".rs.applyTransform" c -> ok c.
Hypothesis format_ok :
  forall c v, called ".rs.formatDataColumn" c -> snd c = Value v -> ok c.
Hypothesis format_blame :
  forall c s stored,
    called ".rs.formatDataColumn" c -> snd c = Raised s stored -> blame c s.
Hypothesis transform_ok :
  forall c, called ".rs.applyTransform" c ->
            (forall v, snd c = Value v -> is_null v = false) -> ok c.
Hypothesis transform_blame :
  forall c v, called ".rs.applyTransform" c -> snd c = Value v -> is_null v = true ->
              blame c "Failure to sort or filter data".

Local Ltac other := apply other_ok; unfold called; simpl; discriminate.

Lemma logs_CachedFrame_new env obj sexp :
  logs ok blame (CachedFrame_new env obj sexp).
Proof. unfold CachedFrame_new. repeat logs_step; other. Qed.

Lemma logs_findInNamedEnvir envir name :
  logs ok blame (findInNamedEnvir envir name).
Proof.
  unfold findInNamedEnvir. repeat logs_step; try other.
  apply logs_silent; intros w; [reflexivity|eexists; reflexivity].
Qed.

Lemma logs_getCols dataSEXP : logs ok blame (getCols dataSEXP).
Proof. unfold getCols. repeat logs_step; other. Qed.

Lemma logs_getData_dimensions dataSEXP :
  logs ok blame (getData_dimensions dataSEXP).
Proof. unfold getData_dimensions. repeat logs_step; other. Qed.

Lemma logs_getData_workingView key search filters col dir cf d nt :
  logs ok blame (getData_workingView key search filters col dir cf d nt).
Proof. unfold getData_workingView. repeat logs_step; other. Qed.

Lemma logs_getData_applyTransform key search filters col dir cf d :
  logs ok blame (getData_applyTransform Success key search filters col dir cf d).
Proof.
  unfold getData_applyTransform. apply logs_call_SEXP_bind. intros r.
  cbn [isError].
  destruct r as [v|s stored]; cbn [call_outcome].
  - destruct (is_null v) eqn:Hv.
    + right. exists "Failure to sort or filter data". split; [|reflexivity].
      eapply transform_blame; eauto. reflexivity.
    + left. split.
      * apply transform_ok; [reflexivity|]. now intros ? [= <-].
      * repeat logs_step; other.
  - left. split.
    + apply transform_ok; [reflexivity|]. discriminate.
    + repeat logs_step; other.
Qed.

Lemma logs_getData_formatColumns d start len cols fmt :
  logs ok blame (getData_formatColumns d start len cols fmt).
Proof.
  apply logs_formatColumns.
  - intros col v. eapply format_ok; reflexivity.
  - intros col s stored. eapply format_blame; reflexivity.
Qed.

Lemma logs_getData dataSEXP fields : logs ok blame (getData dataSEXP fields).
Proof.
  unfold getData.
  apply logs_bind; [apply logs_getData_dimensions|]. intros [nrow ncol].
  apply logs_bind; [apply logs_find_frame|]. intros cf.
  apply logs_bind; [apply logs_getData_workingView|]. intros [[d nt] ht].
  apply logs_bind.
  { destruct nt; [apply logs_getData_applyTransform|apply logs_ret]. }
  intros d'.
  apply logs_bind.
  { destruct (nt || ht); repeat logs_step; other. }
  intros F.
  apply logs_bind; [apply logs_getData_formatColumns|]. intros fmt.
  repeat logs_step; other.
Qed.

Lemma logs_getGridData_try request : logs ok blame (getGridData_try request).
Proof.
  unfold getGridData_try.
  destruct (index 0 "?" (uri request)); [|apply logs_ret].
  destruct (_ && _); [apply logs_ret|].
  apply logs_bind.
  { destruct (negb _); [|apply logs_ret].
    apply logs_bind; [apply logs_findInNamedEnvir|]. intros sexp.
    apply logs_bind; [apply logs_find_frame|]. intros [fr|]; [apply logs_ret|].
    apply logs_bind; [apply logs_CachedFrame_new|]. intros fr.
    apply logs_set_frames. }
  intros _.
  apply logs_bind; [apply logs_call_SEXP; intros r; other|]. intros [error d].
  apply logs_bind; [destruct (isError error); repeat logs_step|]. intros _.
  destruct (bool_decide (d = NULL)); [apply logs_ret|].
  destruct (_ || _); [apply logs_ret|].
  destruct (String.eqb _ "cols").
  { apply logs_bind; [apply logs_getCols|]. intros. apply logs_ret. }
  destruct (String.eqb _ "data"); [|apply logs_ret].
  apply logs_bind; [apply logs_getData|]. intros. apply logs_ret.
Qed.
End Policy.

(** ** Failures of R calls during a grid request *)

Section FailureClaims.
Context {conv : SafeConvert} {rt : RRuntime} {hu : HttpUtil}.

Lemma getGridData_world request response w :
  snd (getGridData request response w) = snd (getGridData_try request w).
Proof.
  unfold getGridData. destruct (getGridData_try request w) as [[[|result code|]|e] w'];
    reflexivity.
Qed.

Lemma getGridData_throw request response w e :
  fst (getGridData_try request w) = Throw e ->
  fst (getGridData request response w) =
  Some (Success,
        mkResponse status_InternalServerError
                   (json_write (json_object [("error", json_str e)]))).
Proof.
  unfold getGridData. destruct (getGridData_try request w) as [[[|result code|]|e'] w'];
    simpl; try discriminate. now intros [= ->].
Qed.

(** C7 (amended).  While a grid request is served, a call that formats a
    column and raises fails the request with the summary of that error, and
    a transform call that yields a null value fails it with the message
    "Failure to sort or filter data": the response has status 500 and the
    message as its error.  Other calls need not fail the request: in the
    miniature session a request whose row count call raises is answered
    with a grid, the row count left at its initial value. *)
Theorem getGridData_surfaces_failures :
  (forall request response w c,
      c ∈ new_calls w (snd (getGridData request response w)) ->
      (forall s stored,
          called ".rs.formatDataColumn" c -> snd c = Raised s stored ->
          fst (getGridData request response w) =
          Some (Success,
                mkResponse status_InternalServerError
                           (json_write (json_object [("error", json_str s)])))) /\
      (forall v,
          called ".rs.applyTransform" c -> snd c = Value v -> is_null v = true ->
          fst (getGridData request response w) =
          Some (Success,
                mkResponse status_InternalServerError
                           (json_write
                              (json_object
                                 [("error", json_str "Failure to sort or filter data")]))))) /\
  (let w := Mini.world ∅ (Mini.mkState [("cars", Mini.cars)] [] [] Mini.mNil ["nrow"]) in
   let r := @getGridData Decimal.convert Mini.runtime Mini.http
              (mkRequest "/grid_data?obj=cars&cache_key=k1&start=0&length=10")
              (mkResponse status_Ok "") w in
   statusCode <$> (snd <$> fst r) = Some status_Ok /\
   Some (@json_write Mini.http (json_object [("error", json_str "Error in nrow")]))
   <> (body <$> (snd <$> fst r))).
Proof.
  split; [|split; [vm_compute; reflexivity|intros E; vm_compute in E; discriminate E]].
  intros request response w c Hc.
  rewrite getGridData_world in Hc.
  pose (ok := fun c : RFunction SEXP * Evaluated SEXP =>
                (called ".rs.formatDataColumn" c -> exists v, snd c = Value v) /\
                (called ".rs.applyTransform" c ->
                 forall v, snd c = Value v -> is_null v = false)).
  pose (blame := fun (c : RFunction SEXP * Evaluated SEXP) (e : string) =>
                   (called ".rs.formatDataColumn" c /\ exists st, snd c = Raised e st) \/
                   (called ".rs.applyTransform" c /\
                    exists v, snd c = Value v /\ is_null v = true /\
                              e = "Failure to sort or filter data")).
  assert (Hlog : logs ok blame (getGridData_try request)).
  { apply logs_getGridData_try; subst ok blame; cbv beta.
    - intros c0 H1 H2. split; intros; contradiction.
    - intros c0 v H1 H2. split; [eauto|].
      intros H3. unfold called in *. rewrite H1 in H3. discriminate.
    - intros c0 s st H1 H2. left. eauto.
    - intros c0 H1 H2. split; [|exact (fun _ => H2)].
      intros H3. unfold called in *. rewrite H1 in H3. discriminate.
    - intros c0 v H1 H2 H3. right. eauto. }
  pose proof (logs_new_calls ok blame _ w Hlog) as Hnew.
  destruct (fst (getGridData_try request w)) as [a|e] eqn:Hres.
  - rewrite Forall_forall in Hnew. destruct (Hnew c Hc) as [Hf Ht]. split.
    + intros s stored Hcalled Hr. destruct (Hf Hcalled) as [v Hv]. congruence.
    + intros v Hcalled Hr Hnull. rewrite (Ht Hcalled v Hr) in Hnull. discriminate.
  - rewrite (getGridData_throw _ _ _ _ Hres).
    rewrite Forall_forall in Hnew.
    destruct (Hnew c Hc) as [[Hf Ht] | [[Hcf [st Hst]] | [Hct (v & Hv & Hnull & ->)]]].
    + split.
      * intros s stored Hcalled Hr. destruct (Hf Hcalled) as [v Hv]. congruence.
      * intros v Hcalled Hr Hnull. rewrite (Ht Hcalled v Hr) in Hnull. discriminate.
    + split.
      * intros s stored _ Hr. congruence.
      * intros v Hcalled. unfold called in *. rewrite Hcf in Hcalled. discriminate.
    + split.
      * intros s stored Hcalled. unfold called in *. rewrite Hct in Hcalled. discriminate.
      * reflexivity.
Qed.
End FailureClaims.

(** The claim C7 as worded fails in the miniature session: the row count
    call of the request raises, nothing of it reaches the caller, and the
    request is answered with a grid of one row. *)
Lemma getGridData_swallows_row_count_failure :
  let w := Mini.world ∅ (Mini.mkState [("cars", Mini.cars)] [] [] Mini.mNil ["nrow"]) in
  let r := @getGridData Decimal.convert Mini.runtime Mini.http
             (mkRequest "/grid_data?obj=cars&cache_key=k1&start=0&length=10")
             (mkResponse status_Ok "") w in
  (mkRFunction "nrow" [("", PSexp Mini.cars)], Raised "Error in nrow" None)
    ∈ @new_calls Mini.runtime w (snd r) /\
  fst r =
  Some (Success,
        mkResponse status_Ok
          (@json_write Mini.http
             (json_object
                [("draw", json_int 0); ("recordsTotal", json_int 1);
                 ("recordsFiltered", json_int 1);
                 ("data",
                  json_array [json_array [json_int 1; json_str "1"; json_str "x"]])]))).
Proof.
  split.
  - apply list_elem_of_lookup. exists 3%nat. vm_compute. reflexivity.
  - vm_compute. reflexivity.
Qed.

(** Witness of C7: in the miniature session the formatting of the first
    column raises, and the request is answered with that error. *)
Lemma getGridData_surfaces_failures_witness :
  let w := Mini.world ∅ (Mini.mkState [("cars", Mini.cars)] [] [] Mini.mNil
                                       [".rs.formatDataColumn"]) in
  fst (@getGridData Decimal.convert Mini.runtime Mini.http
         (mkRequest "/grid_data?obj=cars&cache_key=k1&start=0&length=10")
         (mkResponse status_Ok "") w) =
  Some (Success,
        mkResponse status_InternalServerError
          (@json_write Mini.http
             (json_object [("error", json_str "Error in .rs.formatDataColumn")]))).
Proof.
  intros w.
  refine (proj1 (proj1 (@getGridData_surfaces_failures Decimal.convert Mini.runtime
                          Mini.http) _ _ w
                   (mkRFunction ".rs.formatDataColumn"
                      [("", PSexp (Mini.mColumn ["1"; "2"; "3"]));
                       ("", PInt 1); ("", PInt 3)],
                    Raised "Error in .rs.formatDataColumn" None) _)
                "Error in .rs.formatDataColumn" None _ _).
  - apply list_elem_of_lookup. exists 5%nat. vm_compute. reflexivity.
  - reflexivity.
  - reflexivity.
Defined.

(** ** The status of the response *)

Section StatusClaims.
Context {conv : SafeConvert} {rt : RRuntime} {hu : HttpUtil}.

(** The block of [getGridData] sets its [statusCode] to not-found only
    where it could not find the object, next to the error it answers. *)
Lemma getGridData_try_NotFound request w result :
  fst (getGridData_try request w) = Return (Answered result status_NotFound) ->
  result = json_object [("error", json_str "The object no longer exists.")].
Proof.
  unfold getGridData_try.
  destruct (index 0 "?" (uri request)); [|discriminate].
  destruct (_ && _); [discriminate|].
  rewrite bind_run. destruct (_ w) as [[[]|e] w1]; [|discriminate].
  rewrite bind_run. destruct (call_SEXP _ _ w1) as [[[error d]|e] w2]; [|discriminate].
  rewrite bind_run. destruct (_ w2) as [[[]|e] w3]; [|discriminate].
  destruct (bool_decide (d = NULL)); [discriminate|].
  destruct (_ || _).
  { unfold ret. now intros [= <-]. }
  destruct (String.eqb _ "cols").
  { rewrite bind_run. destruct (getCols _ w3) as [[a|e] w4]; discriminate. }
  destruct (String.eqb _ "data"); [|discriminate].
  rewrite bind_run. destruct (getData _ _ w3) as [[a|e] w4]; discriminate.
Qed.

(** C6.  Whenever the block of [getGridData] could not find the object of
    the request, having set its [statusCode] to not-found, the response
    carries the error "The object no longer exists." under status 200: the
    status written is the [status] declared outside the block, which is
    still Ok.  So it is in the miniature session for an object that is
    bound nowhere. *)
Theorem getGridData_unresolved_status :
  (forall request response w result,
      fst (getGridData_try request w) = Return (Answered result status_NotFound) ->
      fst (getGridData request response w) =
      Some (Success,
            mkResponse status_Ok
              (json_write (json_object
                             [("error", json_str "The object no longer exists.")])))) /\
  (fst (@getGridData Decimal.convert Mini.runtime Mini.http
          (mkRequest "/grid_data?obj=nope&cache_key=k1&start=0&length=10")
          (mkResponse status_InternalServerError "")
          (Mini.world ∅ (Mini.mkState [("cars", Mini.cars)] [] [] Mini.mNil []))) =
   Some (Success,
         mkResponse status_Ok
           (@json_write Mini.http
              (json_object [("error", json_str "The object no longer exists.")])))) /\
  status_number status_Ok = 200%Z.
Proof.
  split; [|split; [vm_compute; reflexivity|reflexivity]].
  intros request response w result Htry.
  pose proof (getGridData_try_NotFound _ _ _ Htry) as ->.
  unfold getGridData. destruct (getGridData_try request w) as [r w'].
  cbn [fst] in Htry. now rewrite Htry.
Qed.
End StatusClaims.

(** Witness of C6, in the miniature session. *)
Lemma getGridData_unresolved_status_witness :
  fst (@getGridData Decimal.convert Mini.runtime Mini.http
         (mkRequest "/grid_data?obj=nope&cache_key=k1")
         (mkResponse status_InternalServerError "")
         (Mini.world ∅ (Mini.mkState [] [] [] Mini.mNil []))) =
  Some (Success,
        mkResponse status_Ok
          (@json_write Mini.http
             (json_object [("error", json_str "The object no longer exists.")]))).
Proof.
  apply (proj1 (@getGridData_unresolved_status Decimal.convert Mini.runtime Mini.http)
           _ _ _ (json_object [("error", json_str "The object no longer exists.")])).
  vm_compute. reflexivity.
Defined.

(** ** The registry during a grid request *)

Section RegistryFacts.
Context {conv : SafeConvert} {rt : RRuntime} {hu : HttpUtil}.

Lemma same_source_refl (a : CachedFrame) : same_source a a.
Proof. repeat split. Qed.

Lemma same_source_trans (a b c : CachedFrame) :
  same_source a b -> same_source b c -> same_source a c.
Proof. unfold same_source. intuition congruence. Qed.

(** Computations that do not write to the registry. *)
Lemma keeps_unchanged {A} (m : M A) :
  (forall w, s_cachedFrames (snd (m w)) = s_cachedFrames w) -> keeps_sources m.
Proof.
  intros Hm w key frame Hf. exists frame. rewrite Hm. split; [exact Hf|].
  apply same_source_refl.
Qed.

Lemma keeps_ret {A} (a : A) : keeps_sources (ret a).
Proof. now apply keeps_unchanged. Qed.

Lemma keeps_throw {A} e : keeps_sources (@throw _ A e).
Proof. now apply keeps_unchanged. Qed.

Lemma keeps_bind {A B} (m : M A) (k : A -> M B) :
  keeps_sources m -> (forall a, keeps_sources (k a)) -> keeps_sources (bind m k).
Proof.
  intros Hm Hk w key frame Hf. rewrite bind_run.
  destruct (Hm w key frame Hf) as (f1 & Hf1 & Hs1).
  destruct (m w) as [[a|e] w1]; simpl in *.
  - destruct (Hk a w1 key f1 Hf1) as (f2 & Hf2 & Hs2).
    exists f2. split; [exact Hf2|]. eapply same_source_trans; eauto.
  - eauto.
Qed.

Lemma keeps_call_SEXP fn value : keeps_sources (call_SEXP fn value).
Proof.
  apply keeps_unchanged. intros w. unfold call_SEXP.
  now destruct (R_eval fn (session w)).
Qed.

Lemma keeps_call_as {A} (extract : SEXP -> Outcome A) fn value :
  keeps_sources (call_as extract fn value).
Proof.
  apply keeps_unchanged. intros w. unfold call_as.
  now destruct (R_eval fn (session w)).
Qed.

Lemma keeps_call fn : keeps_sources (call fn).
Proof.
  unfold call. apply keeps_bind; [apply keeps_call_SEXP|]. intros. apply keeps_ret.
Qed.

Lemma keeps_find_frame key : keeps_sources (find_frame key).
Proof. now apply keeps_unchanged. Qed.

Lemma keeps_LOG_ERROR e : keeps_sources (LOG_ERROR e).
Proof. now apply keeps_unchanged. Qed.

Lemma keeps_declare_SEXP : keeps_sources declare_SEXP.
Proof. now apply keeps_unchanged. Qed.

(** Recording the parameters of a transform keeps the source of the frame. *)
Lemma keeps_record key search filters ordercol orderdir :
  keeps_sources
    (set_frames
       (alter (fun frame =>
                 mkCachedFrame (envName frame) (objName frame) (ncol frame)
                               (colNames frame) search filters ordercol orderdir
                               (observedSEXP frame))
              key)).
Proof.
  intros w k frame Hf. simpl. destruct (decide (key = k)) as [->|Hne].
  - rewrite lookup_alter_eq, Hf. simpl. eexists. split; [reflexivity|].
    repeat split.
  - rewrite lookup_alter_ne by exact Hne. exists frame. split; [exact Hf|].
    apply same_source_refl.
Qed.
End RegistryFacts.

Ltac keeps_step :=
  first
    [ apply keeps_ret | apply keeps_throw | apply keeps_record
    | apply keeps_find_frame | apply keeps_LOG_ERROR | apply keeps_declare_SEXP
    | apply keeps_call_SEXP | apply keeps_call_as | apply keeps_call
    | apply keeps_bind; [|intros ?]
    | match goal with
      | |- keeps_sources (let '(_, _) := ?p in _) => destruct p
      | |- keeps_sources (match ?x with _ => _ end) => destruct x
      end ].

Section RegistryClaims.
Context {conv : SafeConvert} {rt : RRuntime} {hu : HttpUtil}.

Lemma keeps_getData_formatColumns d start len cols fmt :
  keeps_sources (getData_formatColumns d start len cols fmt).
Proof.
  revert fmt. induction cols as [|i cols IH]; intros fmt; cbn [getData_formatColumns].
  - apply keeps_ret.
  - repeat keeps_step. apply IH.
Qed.

Lemma keeps_getData dataSEXP fields : keeps_sources (getData dataSEXP fields).
Proof.
  unfold getData, getData_dimensions, getData_workingView, getData_applyTransform.
  repeat first [apply keeps_getData_formatColumns | keeps_step].
Qed.

Lemma keeps_getCols dataSEXP : keeps_sources (getCols dataSEXP).
Proof. unfold getCols. repeat keeps_step. Qed.

(** [findInNamedEnvir] returns, and leaves the registry alone. *)
Lemma findInNamedEnvir_returns envir name w :
  exists sexp w1,
    findInNamedEnvir envir name w = (Return sexp, w1) /\
    s_cachedFrames w1 = s_cachedFrames w.
Proof.
  unfold findInNamedEnvir. destruct (String.eqb envir kNoBoundEnv).
  { eexists _, _. split; reflexivity. }
  rewrite bind_run. destruct (_ || _).
  - unfold ret. destruct (is_null R_GlobalEnv); eexists _, _; split; reflexivity.
  - rewrite bind_run. unfold call_SEXP.
    destruct (R_eval _ (session w)) as [r s']. unfold ret.
    destruct (is_null _); eexists _, _; split; reflexivity.
Qed.

(** The constructor returns a frame for the object it is given, with no
    working transform recorded; for the null pointer it asks R nothing. *)
Lemma CachedFrame_new_returns env obj sexp w :
  exists frame w1,
    CachedFrame_new env obj sexp w = (Return frame, w1) /\
    s_cachedFrames w1 = s_cachedFrames w /\
    envName frame = env /\ objName frame = obj /\ observedSEXP frame = sexp /\
    workingSearch frame = "" /\ workingFilters frame = [] /\
    workingOrderDir frame = "" /\
    (sexp = NULL -> colNames frame = [] /\ calls w1 = calls w).
Proof.
  unfold CachedFrame_new, bind, declare_int, declare_SEXP, call_SEXP, call_int,
    call_as, ret.
  cbn [session s_cachedFrames calls fst snd].
  destruct (bool_decide (sexp = NULL)) eqn:Hnull.
  - eexists _, _. split; [reflexivity|].
    repeat match goal with |- _ /\ _ => split end; try reflexivity. now intros _.
  - destruct (R_eval _ _) as [r s']. simpl.
    destruct (call_outcome r _) as [e names]. simpl.
    destruct (R_eval _ s') as [r2 s'']. simpl.
    destruct r2 as [v2|s2 st2]; [destruct (extract_int v2)|];
      (eexists _, _; split; [reflexivity|];
       repeat match goal with |- _ /\ _ => split end; try reflexivity;
       intros ->; rewrite bool_decide_eq_true_2 in Hnull by reflexivity; discriminate).
Qed.

(** C8 (amended).  A grid request with a query string, an environment that
    is not the marker of no environment, an object name or a cache key, and
    a cache key that the registry does not have yet, leaves the registry
    with a frame under that cache key: the frame built from the environment
    and object names of the request and from what looking the object up in
    the environment gave (the null pointer when it gave nothing), but for
    the working transform the request may have recorded in it since. *)
Theorem getGridData_registers_frame request response w fields :
  request_fields request = Some fields ->
  urlDecode (fieldValue_string fields "env" "") <> kNoBoundEnv ->
  ~ (urlDecode (fieldValue_string fields "obj" "") = "" /\
     urlDecode (fieldValue_string fields "cache_key" "") = "") ->
  s_cachedFrames w !! urlDecode (fieldValue_string fields "cache_key" "") = None ->
  exists sexp frame0 frame,
    fst (findInNamedEnvir (urlDecode (fieldValue_string fields "env" ""))
                          (urlDecode (fieldValue_string fields "obj" "")) w)
    = Return sexp /\
    fst (CachedFrame_new
           (urlDecode (fieldValue_string fields "env" ""))
           (urlDecode (fieldValue_string fields "obj" "")) sexp
           (snd (findInNamedEnvir (urlDecode (fieldValue_string fields "env" ""))
                                  (urlDecode (fieldValue_string fields "obj" "")) w)))
    = Return frame0 /\
    s_cachedFrames (snd (getGridData request response w))
      !! urlDecode (fieldValue_string fields "cache_key" "") = Some frame /\
    same_source frame0 frame /\
    envName frame = urlDecode (fieldValue_string fields "env" "") /\
    objName frame = urlDecode (fieldValue_string fields "obj" "") /\
    observedSEXP frame = sexp.
Proof.
  intros Hfields Henv Hnames Hnew.
  unfold request_fields in Hfields.
  destruct (index 0 "?" (uri request)) as [pos|] eqn:Hpos; [|discriminate].
  injection Hfields as Hfields.
  set (env := urlDecode (fieldValue_string fields "env" "")) in *.
  set (obj := urlDecode (fieldValue_string fields "obj" "")) in *.
  set (key := urlDecode (fieldValue_string fields "cache_key" "")) in *.
  destruct (findInNamedEnvir_returns env obj w) as (sexp & w1 & Hfind & Hfr1).
  destruct (CachedFrame_new_returns env obj sexp w1)
    as (frame0 & w2 & Hctor & Hfr2 & He & Ho & Hs & _).
  exists sexp, frame0. rewrite Hfind. cbn [fst snd]. rewrite Hctor. cbn [fst].
  rewrite getGridData_world. unfold getGridData_try. rewrite Hpos, Hfields.
  fold env obj key.
  assert (Hboth : String.eqb obj "" && String.eqb key "" = false).
  { apply not_true_is_false. intros Hb. apply andb_true_iff in Hb as [H1 H2].
    apply String.eqb_eq in H1, H2. auto. }
  rewrite Hboth.
  assert (Hmark : String.eqb env kNoBoundEnv = false).
  { apply not_true_is_false. intros Hb. now apply String.eqb_eq in Hb. }
  rewrite Hmark. cbn [negb].
  rewrite bind_run, bind_run, Hfind, bind_run.
  unfold find_frame at 1. rewrite Hfr1, Hnew, bind_run, Hctor.
  match goal with
  | |- context [s_cachedFrames (snd (match set_frames ?f w2 with _ => _ end))] =>
      change (set_frames f w2)
        with (Return tt,
              mkWorld (f (s_cachedFrames w2)) (session w2) (calls w2) (clientEvents w2)
                      (errorLog w2) (uninitialized_reads w2) (recursionCount w2))
  end.
  cbv iota beta.
  match goal with
  | |- context [s_cachedFrames (snd (?m ?w3))] =>
      assert (Hkeep : keeps_sources m)
  end.
  { repeat first [apply keeps_getData | apply keeps_getCols | keeps_step]. }
  match goal with
  | |- context [s_cachedFrames (snd (?m ?w3))] =>
      destruct (Hkeep w3 key frame0) as (frame & Hframe & Hsame)
  end.
  { cbn [s_cachedFrames]. apply lookup_insert_eq. }
  exists frame. repeat split; try (exact Hframe || apply Hsame); auto.
  - destruct Hsame as (E & _). congruence.
  - destruct Hsame as (_ & E & _). congruence.
  - destruct Hsame as (_ & _ & _ & _ & E). congruence.
Qed.
End RegistryClaims.

(** The claim C8 as worded fails for a request that names the marker of no
    environment: its cache key is not registered, in the miniature session
    too. *)
Lemma getGridData_unbound_env_not_registered :
  let w := Mini.world ∅ (Mini.mkState [("cars", Mini.cars)] [] [] Mini.mNil []) in
  let r := @getGridData Decimal.convert Mini.runtime Mini.http
             (mkRequest "/grid_data?env=_rs_no_env&obj=cars&cache_key=k1&start=0&length=10")
             (mkResponse status_Ok "") w in
  @s_cachedFrames Mini.runtime w !! "k1" = None /\
  statusCode <$> (snd <$> fst r) = Some status_Ok /\
  @s_cachedFrames Mini.runtime (snd r) !! "k1" = None.
Proof. repeat split; vm_compute; reflexivity. Qed.

(** Witness of C8, in the miniature session. *)
Lemma getGridData_registers_frame_witness :
  let w := Mini.world ∅ (Mini.mkState [("cars", Mini.cars)] [] [] Mini.mNil []) in
  exists frame,
    @s_cachedFrames Mini.runtime
       (snd (@getGridData Decimal.convert Mini.runtime Mini.http
               (mkRequest "/grid_data?obj=cars&cache_key=k1&start=0&length=10")
               (mkResponse status_Ok "") w)) !! "k1" = Some frame /\
    @observedSEXP Mini.runtime frame = Mini.cars.
Proof.
  intros w.
  destruct (@getGridData_registers_frame Decimal.convert Mini.runtime Mini.http
              (mkRequest "/grid_data?obj=cars&cache_key=k1&start=0&length=10")
              (mkResponse status_Ok "") w
              [("obj", "cars"); ("cache_key", "k1"); ("start", "0"); ("length", "10")])
    as (sexp & frame0 & frame & Hfind & _ & Hframe & _ & _ & _ & Hobs).
  - vm_compute. reflexivity.
  - vm_compute. discriminate.
  - vm_compute. intros [E _]. discriminate E.
  - vm_compute. reflexivity.
  - exists frame. split; [exact Hframe|].
    rewrite Hobs. vm_compute in Hfind. now injection Hfind as <-.
Defined.

(** ** Supersets of filters *)

Section SupersetClaims.
Context {conv : SafeConvert} {rt : RRuntime} {hu : HttpUtil}.

Lemma isSupersetOf_spec (frame : CachedFrame) newSearch newFilters :
  isSupersetOf frame newSearch newFilters = true <->
  isFilterSubset (workingSearch frame) newSearch = true /\
  forall i, (i < Nat.min (length newFilters) (length (workingFilters frame)))%nat ->
            exists recorded requested,
              workingFilters frame !! i = Some recorded /\
              newFilters !! i = Some requested /\
              isFilterSubset recorded requested = true.
Proof.
  unfold isSupersetOf.
  destruct (isFilterSubset (workingSearch frame) newSearch); cbn [negb].
  2:{ split; [discriminate|]. now intros [? _]. }
  rewrite forallb_forall. split.
  - intros Hall. split; [reflexivity|]. intros i Hi.
    destruct (lookup_lt_is_Some_2 (workingFilters frame) i) as [a Ha]; [lia|].
    destruct (lookup_lt_is_Some_2 newFilters i) as [b Hb]; [lia|].
    exists a, b. repeat split; auto.
    specialize (Hall i). rewrite !nth_lookup, Ha, Hb in Hall. apply Hall.
    apply in_seq. lia.
  - intros [_ Hall] i Hi. apply in_seq in Hi.
    destruct (Hall i) as (a & b & Ha & Hb & Hab); [lia|].
    now rewrite !nth_lookup, Ha, Hb.
Qed.

(** C4.  [isSupersetOf] holds exactly when the recorded search is a
    superset of the requested one and, at every index below the length of
    the shorter of the two filter lists, the recorded filter is a superset
    of the requested one.  Filters beyond that length are not looked at:
    cutting both lists at that length changes nothing. *)
Theorem isSupersetOf_shared_indices (frame : CachedFrame) newSearch newFilters :
  (isSupersetOf frame newSearch newFilters = true <->
   isFilterSubset (workingSearch frame) newSearch = true /\
   forall i, (i < Nat.min (length newFilters) (length (workingFilters frame)))%nat ->
             exists recorded requested,
               workingFilters frame !! i = Some recorded /\
               newFilters !! i = Some requested /\
               isFilterSubset recorded requested = true) /\
  (let shared := Nat.min (length newFilters) (length (workingFilters frame)) in
   isSupersetOf frame newSearch newFilters =
   isSupersetOf
     (mkCachedFrame (envName frame) (objName frame) (ncol frame) (colNames frame)
                    (workingSearch frame) (take shared (workingFilters frame))
                    (workingOrderCol frame) (workingOrderDir frame)
                    (observedSEXP frame))
     newSearch (take shared newFilters)).
Proof.
  split; [apply isSupersetOf_spec|].
  intros shared. apply eq_true_iff_eq. rewrite !isSupersetOf_spec.
  cbn [workingSearch workingFilters]. rewrite !length_take.
  replace (Nat.min (Nat.min shared (length newFilters))
                   (Nat.min shared (length (workingFilters frame))))
    with shared by (subst shared; lia).
  fold shared.
  split; intros [Hs Hall]; (split; [exact Hs|]); intros i Hi;
    destruct (Hall i Hi) as (a & b & Ha & Hb & Hab); exists a, b.
  - rewrite !lookup_take_lt by exact Hi. auto.
  - rewrite !lookup_take_lt in Ha, Hb by exact Hi. auto.
Qed.

Lemma isSupersetOf_empty (frame : CachedFrame) newSearch newFilters :
  workingSearch frame = "" -> Forall (fun f => f = "") (workingFilters frame) ->
  isSupersetOf frame newSearch newFilters = true.
Proof.
  intros Hs Hf. apply isSupersetOf_spec. rewrite Hs. split.
  - apply isFilterSubset_empty.
  - intros i Hi.
    destruct (lookup_lt_is_Some_2 (workingFilters frame) i) as [a Ha]; [lia|].
    destruct (lookup_lt_is_Some_2 newFilters i) as [b Hb]; [lia|].
    exists a, b. repeat split; auto.
    rewrite Forall_forall in Hf. rewrite (Hf a).
    + apply isFilterSubset_empty.
    + eapply list_elem_of_lookup_2; eauto.
Qed.
End SupersetClaims.

(** ** Paging through a view *)

Section PageFacts.
Context {conv : SafeConvert} {rt : RRuntime} {hu : HttpUtil}.

Lemma new_calls_app (w w' : World) delta :
  calls w' = calls w ++ delta -> new_calls w w' = delta.
Proof. intros Hc. unfold new_calls. now rewrite Hc, drop_app_length. Qed.

Lemma getData_dimensions_returns dataSEXP w :
  exists nrow ncol w1,
    getData_dimensions dataSEXP w = (Return (nrow, ncol), w1) /\
    s_cachedFrames w1 = s_cachedFrames w.
Proof.
  unfold getData_dimensions, bind, call_int, call_as, ret.
  destruct (R_eval _ (session w)) as [r s1].
  destruct r as [v|? ?]; [destruct (extract_int v)|]; simpl;
    match goal with |- context [R_eval ?f ?s] => destruct (R_eval f s) as [r2 s2] end;
    (destruct r2 as [v2|? ?]; [destruct (extract_int v2)|]);
    eexists _, _, _; split; reflexivity.
Qed.

Lemma getData_dimensions_frames dataSEXP w dims w1 :
  getData_dimensions dataSEXP w = (Return dims, w1) ->
  s_cachedFrames w1 = s_cachedFrames w.
Proof.
  destruct (getData_dimensions_returns dataSEXP w) as (nrow & ncol & w1' & -> & Hf).
  now intros [= _ <-].
Qed.

(** The lookup of the working data in a world where R holds some. *)
Lemma getData_workingView_found key search filters ordercol orderdir frame d w wd s2 :
  R_eval (mkRFunction ".rs.findWorkingData" [("", PString key)]) (session w)
  = (Value wd, s2) ->
  is_null wd = false ->
  getData_workingView key search filters ordercol orderdir (Some frame) d true w =
  (Return
     (if String.eqb (workingSearch frame) search
         && bool_decide (workingFilters frame = filters)
         && String.eqb (workingOrderDir frame) orderdir
         && Z.eqb (workingOrderCol frame) ordercol
      then (wd, false, true)
      else if isSupersetOf frame search filters then (wd, true, false)
           else (d, true, false)),
   mkWorld (s_cachedFrames w) s2
           (calls w ++ [(mkRFunction ".rs.findWorkingData" [("", PString key)], Value wd)])
           (clientEvents w) (errorLog w) (uninitialized_reads w) (recursionCount w)).
Proof.
  intros Heval Hnull. unfold getData_workingView. rewrite bind_run.
  unfold call_SEXP. rewrite Heval. cbn [call_outcome]. rewrite Hnull. cbn [negb].
  destruct (_ && _); [reflexivity|]. destruct (isSupersetOf _ _ _); reflexivity.
Qed.

(** C1.  Take a page request whose cache key has a frame in the registry,
    at the moment R holds working data for the key, the frame recording
    exactly the search, filters, order column and order direction of the
    request.  The request is one that needs a transform (an order column
    above 0, a filter or a search that is not empty): that is where the
    source looks for a working transform, with [needsTransform] set for it
    to clear, and the parameters a transform has recorded are those of a
    request that needed it.  Then the working data is reused as it is:
    [hasTransform] is set and [needsTransform] cleared, the request makes no
    call of [.rs.applyTransform], and [recordsFiltered] is the row count R
    reports for the working data. *)
Theorem getData_reuses_working_transform d fields w nrow ncol frame wd s2 :
  fst (getData_dimensions d w) = Return (nrow, ncol) ->
  needs_transform (field_ordercol fields) (getData_filters fields ncol)
                  (field_search fields) = true ->
  s_cachedFrames w !! field_cacheKey fields = Some frame ->
  R_eval (mkRFunction ".rs.findWorkingData" [("", PString (field_cacheKey fields))])
         (session (snd (getData_dimensions d w))) = (Value wd, s2) ->
  is_null wd = false ->
  workingSearch frame = field_search fields ->
  workingFilters frame = getData_filters fields ncol ->
  workingOrderCol frame = field_ordercol fields ->
  workingOrderDir frame = field_orderdir fields ->
  (exists w2,
      getData_workingView (field_cacheKey fields) (field_search fields)
        (getData_filters fields ncol) (field_ordercol fields) (field_orderdir fields)
        (Some frame) d true (snd (getData_dimensions d w))
      = (Return (wd, false, true), w2)) /\
  Forall (fun c => ~ called ".rs.applyTransform" c)
         (new_calls w (snd (getData d fields w))) /\
  (forall json,
      fst (getData d fields w) = Return json ->
      forall v s3 n,
        R_eval (mkRFunction "nrow" [("", PSexp wd)]) s2 = (Value v, s3) ->
        extract_int v = Ok n ->
        json_member "recordsFiltered" json = Some (json_int n)).
Proof.
  destruct (getData_dimensions d w) as [dims w1] eqn:Hdim. cbn [fst snd].
  intros ->.
  intros Hneeds Hframe Heval Hnull Hsearch Hfilters Hcol Hdir.
  pose proof (getData_workingView_found (field_cacheKey fields) (field_search fields)
                (getData_filters fields ncol) (field_ordercol fields)
                (field_orderdir fields) frame d w1 wd s2 Heval Hnull) as Hview.
  rewrite Hsearch, Hfilters, Hcol, Hdir in Hview.
  rewrite String.eqb_refl, bool_decide_eq_true_2, String.eqb_refl, Z.eqb_refl in Hview
    by reflexivity.
  cbn [andb] in Hview.
  set (w2 := mkWorld _ _ _ _ _ _ _) in Hview.
  split; [now exists w2|].
  pose (ok := fun c : RFunction SEXP * Evaluated SEXP => ~ called ".rs.applyTransform" c).
  pose (blame := fun (c : RFunction SEXP * Evaluated SEXP) (e : string) => ok c).
  assert (Hok : forall c, ~ called ".rs.formatDataColumn" c ->
                          ~ called ".rs.applyTransform" c -> ok c) by (intros; assumption).
  destruct (logs_getData_dimensions ok blame Hok d w) as (d1 & Hc1 & Hr1).
  rewrite Hdim in Hc1, Hr1. cbn [fst snd] in Hc1, Hr1.
  unfold getData. rewrite bind_run, Hdim. rewrite bind_run.
  change (find_frame ?k w1) with (Return (s_cachedFrames w1 !! k), w1).
  cbv iota. rewrite (getData_dimensions_frames _ _ _ _ Hdim).
  unfold field_cacheKey, field_search, field_ordercol, field_orderdir,
    needs_transform in *.
  rewrite Hframe, Hneeds. rewrite bind_run, Hview. cbv iota.
  rewrite bind_run. change (ret wd w2) with (Return wd, w2). cbv iota.
  cbn [orb].
  match goal with |- context [snd (?m w2)] => set (rest := m) end.
  assert (Hrest : logs ok blame rest).
  { subst rest. apply logs_bind.
    { repeat logs_step. subst ok. unfold called. simpl. discriminate. }
    intros F. apply logs_bind.
    { apply logs_formatColumns; intros; subst ok blame; unfold called; simpl; discriminate. }
    intros fmt. repeat logs_step; subst ok; unfold called; simpl; discriminate. }
  destruct (Hrest w2) as (d3 & Hc3 & Hr3).
  split.
  - rewrite (new_calls_app w _ (d1 ++ [(mkRFunction ".rs.findWorkingData"
                [("", PString (urlDecode (fieldValue_string fields "cache_key" "")))],
                 Value wd)] ++ d3)).
    + apply Forall_app. split; [exact Hr1|]. apply Forall_app. split.
      * repeat constructor. unfold called. simpl. discriminate.
      * destruct (fst (rest w2)); [exact Hr3|].
        eapply Forall_impl; [exact Hr3|]. intros c [?|?]; assumption.
    + rewrite Hc3. subst w2. cbn [calls]. rewrite Hc1. now rewrite <- !app_assoc.
  - intros json Hjson v s3 n Hnrow Hextract. subst rest.
    rewrite bind_run in Hjson. rewrite bind_run in Hjson.
    unfold call_int, call_as in Hjson. subst w2. cbn [session] in Hjson.
    rewrite Hnrow, Hextract in Hjson. cbv iota beta in Hjson.
    change (ret n ?w) with (Return n, w) in Hjson. cbv iota in Hjson.
    rewrite bind_run in Hjson.
    match type of Hjson with
    | context [getData_formatColumns ?a ?b ?c ?l ?f ?x] =>
        destruct (getData_formatColumns a b c l f x) as [[fmt|e] w4]; [|discriminate]
    end.
    rewrite !bind_run in Hjson. cbn [declare_SEXP] in Hjson. cbv iota beta in Hjson.
    unfold call_SEXP in Hjson.
    rewrite bind_run in Hjson. cbv beta iota in Hjson. cbn [session] in Hjson.
    match type of Hjson with
    | context [R_eval ?f ?s] => destruct (R_eval f s) as [r5 s5]
    end.
    cbv iota beta in Hjson.
    match type of Hjson with
    | context [call_outcome ?r ?x] => destruct (call_outcome r x) as [e5 rn]
    end.
    unfold ret in Hjson. injection Hjson as <-. reflexivity.
Qed.
End PageFacts.

(** Witness of C1: in the miniature session, the second of two requests
    with the same search on the same cache key. *)
Lemma getData_reuses_working_transform_witness :
  let G := @getGridData Decimal.convert Mini.runtime Mini.http in
  let w0 := Mini.world ∅ (Mini.mkState [("cars", Mini.cars)] [] []
                            (Mini.mFrame 2 1 [("a", ["2"]); ("b", ["y"])]) []) in
  let w := snd (G (mkRequest "/grid_data?obj=cars&cache_key=k1&start=0&length=10&search[value]=y")
                  (mkResponse status_Ok "") w0) in
  let fields := @parseQueryString Mini.http
                  "obj=cars&cache_key=k1&start=0&length=10&search[value]=y" in
  Forall (fun c => ~ @called Mini.runtime ".rs.applyTransform" c)
         (@new_calls Mini.runtime w
            (snd (@getData Decimal.convert Mini.runtime Mini.http Mini.cars fields w))).
Proof.
  intros G w0 w fields.
  refine (proj1 (proj2 (@getData_reuses_working_transform
                          Decimal.convert Mini.runtime Mini.http Mini.cars fields w 3 2
                          (@mkCachedFrame Mini.runtime "" "cars" 2 ["a"; "b"] "y" [""; ""]
                                          (-1) "asc" Mini.cars)
                          (Mini.mFrame 2 1 [("a", ["2"]); ("b", ["y"])])
                          (@session Mini.runtime
                             (snd (@getData_dimensions Mini.runtime Mini.cars w)))
                          _ _ _ _ _ _ _ _ _)));
    vm_compute; reflexivity.
Defined.

(** ** The length of a page *)

Section LengthClaims.
Context {conv : SafeConvert} {rt : RRuntime} {hu : HttpUtil}.

Lemma logs_run {A} ok blame (m : M A) w r w' :
  logs ok blame m -> m w = (r, w') ->
  exists delta,
    calls w' = calls w ++ delta /\
    match r with
    | Return _ => Forall ok delta
    | Throw e => Forall (fun c => ok c \/ blame c e) delta
    end.
Proof. intros Hm Hrun. destruct (Hm w) as (d & Hc & Hr). rewrite Hrun in *. eauto. Qed.

Lemma int_sub_exact a b :
  (- 2 ^ 31 <= a - b < 2 ^ 31)%Z -> int_sub a b = (a - b)%Z.
Proof.
  intros Hr. unfold int_sub, int_wrap. rewrite Z.mod_small by lia. lia.
Qed.

Section Prefix.
Variable P : Z -> RFunction SEXP * Evaluated SEXP -> Prop.
Variable J : Z -> json_Value -> Prop.
Variable P0 : RFunction SEXP * Evaluated SEXP -> Prop.
Hypothesis P0_P : forall F c, P0 c -> P F c.

(** A step of [getData] before the filtered row count is known: it makes
    none of the calls the property is about. *)
Lemma prefix_step {A} (m : M A) (k : A -> M json_Value) :
  logs P0 (fun c _ => P0 c) m ->
  (forall a w, exists F delta,
        calls (snd (k a w)) = calls w ++ delta /\ Forall (P F) delta /\
        forall json, fst (k a w) = Return json -> J F json) ->
  forall w, exists F delta,
      calls (snd (bind m k w)) = calls w ++ delta /\ Forall (P F) delta /\
      forall json, fst (bind m k w) = Return json -> J F json.
Proof.
  intros Hm Hk w. rewrite bind_run.
  destruct (m w) as [[a|e] w1] eqn:Hrun;
    destruct (logs_run _ _ _ _ _ _ Hm Hrun) as (d1 & Hc1 & Hr1).
  - destruct (Hk a w1) as (F & d2 & Hc2 & HP & HJ). exists F, (d1 ++ d2).
    split; [rewrite Hc2, Hc1; now rewrite app_assoc|]. split; [|exact HJ].
    apply Forall_app. split; [|exact HP].
    eapply Forall_impl; [exact Hr1|]. auto.
  - exists 0%Z, d1. cbn [fst snd]. split; [exact Hc1|]. split; [|discriminate].
    eapply Forall_impl; [exact Hr1|]. intros c [?|?]; auto.
Qed.
End Prefix.

(** C3 (amended).  For every page request there is a filtered row count
    [F], the [recordsFiltered] of the response, such that the page length
    handed to every call that formats a column or the row labels is the
    lesser of the requested length and [F - start] in [int] arithmetic,
    next to the one-based [start + 1]; this length is negative when [start]
    exceeds [F] or the requested length is negative.  The grid of the
    response has as many rows as that length when it is positive, and none
    otherwise: for a requested length that is not negative and without
    overflow, [min (length, max (0, F - start))] rows, and 5 rows for
    [start = 0], [length = 10] and [F = 5]. *)
Theorem getData_page_length d fields w :
  exists F,
    let start := field_start fields in
    let length := field_length fields in
    let effective := Z.min length (int_sub F start) in
    Forall (fun c =>
              called ".rs.formatDataColumn" c \/ called ".rs.formatRowNames" c ->
              exists x, params (fst c) =
                        [("", PSexp x); ("", PInt (int_add start 1));
                         ("", PInt effective)])
           (new_calls w (snd (getData d fields w))) /\
    forall json,
      fst (getData d fields w) = Return json ->
      json_member "recordsFiltered" json = Some (json_int F) /\
      exists rows,
        json_rows json = Some rows /\
        Z.of_nat (List.length rows) = Z.max 0 effective /\
        ((0 <= length)%Z -> (- 2 ^ 31 <= F - start < 2 ^ 31)%Z ->
         Z.of_nat (List.length rows) = Z.min length (Z.max 0 (F - start))) /\
        (start = 0%Z -> length = 10%Z -> F = 5%Z -> List.length rows = 5%nat).
Proof.
  set (start := field_start fields). set (length := field_length fields).
  set (P := fun (F : Z) (c : RFunction SEXP * Evaluated SEXP) =>
              called ".rs.formatDataColumn" c \/ called ".rs.formatRowNames" c ->
              exists x, params (fst c) =
                        [("", PSexp x); ("", PInt (int_add start 1));
                         ("", PInt (Z.min length (int_sub F start)))]).
  set (J := fun (F : Z) (json : json_Value) =>
              json_member "recordsFiltered" json = Some (json_int F) /\
              exists rows,
                json_rows json = Some rows /\
                Z.of_nat (List.length rows) = Z.max 0 (Z.min length (int_sub F start)) /\
                ((0 <= length)%Z -> (- 2 ^ 31 <= F - start < 2 ^ 31)%Z ->
                 Z.of_nat (List.length rows) = Z.min length (Z.max 0 (F - start))) /\
                (start = 0%Z -> length = 10%Z -> F = 5%Z -> List.length rows = 5%nat)).
  set (P0 := fun c : RFunction SEXP * Evaluated SEXP =>
               ~ called ".rs.formatDataColumn" c /\ ~ called ".rs.formatRowNames" c).
  assert (P0_P : forall F c, P0 c -> P F c).
  { intros F c [H1 H2] [H3|H3]; contradiction. }
  assert (Hname : forall name ps r,
             name <> ".rs.formatDataColumn" -> name <> ".rs.formatRowNames" ->
             P0 (mkRFunction name ps, r)).
  { intros name ps r H1 H2. split; exact H1 || exact H2. }
  enough (Hall : exists F delta,
             calls (snd (getData d fields w)) = calls w ++ delta /\
             Forall (P F) delta /\
             forall json, fst (getData d fields w) = Return json -> J F json).
  { destruct Hall as (F & delta & Hc & HP & HJ). exists F. cbv zeta.
    rewrite (new_calls_app _ _ _ Hc). split; [exact HP|exact HJ]. }
  revert w. unfold getData.
  apply (prefix_step P J P0 P0_P).
  { unfold getData_dimensions. repeat logs_step; apply Hname; discriminate. }
  intros [nrow ncol].
  apply (prefix_step P J P0 P0_P); [apply logs_find_frame|]. intros cf.
  apply (prefix_step P J P0 P0_P).
  { unfold getData_workingView. repeat logs_step; apply Hname; discriminate. }
  intros [[d1 nt] ht].
  apply (prefix_step P J P0 P0_P).
  { destruct nt; [|apply logs_ret].
    unfold getData_applyTransform. repeat logs_step; apply Hname; discriminate. }
  intros d2.
  apply (prefix_step P J P0 P0_P).
  { destruct (nt || ht); repeat logs_step; apply Hname; discriminate. }
  intros F w1. exists F.
  fold start length.
  match goal with |- context [snd (?m w1)] => set (rest := m) end.
  assert (Hrest : logs (P F) (fun c _ => P F c) rest).
  { subst rest. apply logs_bind.
    { apply logs_formatColumns; intros; intros _; eexists; reflexivity. }
    intros fmt. repeat logs_step. intros _. eexists. reflexivity. }
  destruct (Hrest w1) as (delta & Hc & Hr). exists delta.
  split; [exact Hc|]. split.
  { destruct (fst (rest w1)); [exact Hr|].
    eapply Forall_impl; [exact Hr|]. intros c [?|?]; assumption. }
  clear Hrest Hc Hr. intros json Hjson. subst rest.
  rewrite bind_run in Hjson.
  match type of Hjson with
  | context [getData_formatColumns ?a ?b ?c ?l ?f ?x] =>
      destruct (getData_formatColumns a b c l f x) as [[fmt|e] w4]; [|discriminate]
  end.
  rewrite !bind_run in Hjson. cbn [declare_SEXP] in Hjson. cbv iota beta in Hjson.
  unfold call_SEXP in Hjson.
  rewrite bind_run in Hjson. cbv beta iota in Hjson. cbn [session] in Hjson.
  match type of Hjson with
  | context [R_eval ?f ?s] => destruct (R_eval f s) as [r5 s5]
  end.
  cbv iota beta in Hjson.
  match type of Hjson with
  | context [call_outcome ?r ?x] => destruct (call_outcome r x) as [e5 rn]
  end.
  unfold ret in Hjson. injection Hjson as <-.
  subst start length. unfold field_start, field_length.
  split; [reflexivity|]. eexists. split; [reflexivity|].
  rewrite length_map, length_seqZ. unfold field_start, field_length.
  split; [lia|]. split.
  - intros HL HF. rewrite int_sub_exact by exact HF. lia.
  - intros Hs HL HF. rewrite Hs, HL, HF. reflexivity.
Qed.
End LengthClaims.

(** The claim C3 as worded fails in the miniature session: for [start = 5]
    and [length = 10] on a frame of three rows, the columns are formatted
    with the length [-2], which is less than [max (0, 3 - 5)]; the grid is
    empty. *)
Lemma getData_negative_page_length :
  let w := Mini.world ∅ (Mini.mkState [("cars", Mini.cars)] [] [] Mini.mNil []) in
  let r := @getGridData Decimal.convert Mini.runtime Mini.http
             (mkRequest "/grid_data?obj=cars&cache_key=k1&start=5&length=10")
             (mkResponse status_Ok "") w in
  (mkRFunction ".rs.formatDataColumn"
     [("", PSexp (Mini.mColumn ["1"; "2"; "3"])); ("", PInt 6); ("", PInt (-2))],
   Value (Mini.mColumn []))
    ∈ @new_calls Mini.runtime w (snd r) /\
  body <$> (snd <$> fst r) =
  Some (@json_write Mini.http
          (json_object [("draw", json_int 0); ("recordsTotal", json_int 3);
                        ("recordsFiltered", json_int 3); ("data", json_array [])])) /\
  (-2 < Z.min 10 (Z.max 0 (3 - 5)))%Z.
Proof.
  cbv zeta. split; [|split].
  - apply list_elem_of_lookup. exists 5%nat. vm_compute. reflexivity.
  - vm_compute. reflexivity.
  - reflexivity.
Qed.

(** In the miniature session, a request for ten rows from the start of a
    frame of five rows is answered with five rows. *)
Example getData_five_of_ten_rows :
  let five := Mini.mFrame 3 5 [("n", ["1"; "2"; "3"; "4"; "5"])] in
  let w := Mini.world ∅ (Mini.mkState [("five", five)] [] [] Mini.mNil []) in
  let fields := @parseQueryString Mini.http "obj=five&cache_key=k5&start=0&length=10" in
  (length <$>
   match fst (@getData Decimal.convert Mini.runtime Mini.http five fields w) with
   | Return json => json_rows json
   | Throw _ => None
   end) = Some 5%nat.
Proof. vm_compute. reflexivity. Qed.

(** ** Narrowing a view that is neither filtered nor searched *)

Section NarrowingClaims.
Context {conv : SafeConvert} {rt : RRuntime} {hu : HttpUtil}.

(** The block that applies the transform starts by calling
    [.rs.applyTransform] on the data it is given. *)
Lemma getData_applyTransform_calls key search filters col dir cf d w :
  exists r delta,
    calls (snd (getData_applyTransform Success key search filters col dir cf d w)) =
    calls w ++
    (mkRFunction ".rs.applyTransform"
       [("x", PSexp d); ("filtered", PStrings filters); ("search", PString search);
        ("col", PInt col); ("dir", PString dir)], r) :: delta.
Proof.
  unfold getData_applyTransform. rewrite bind_run. unfold call_SEXP.
  destruct (R_eval _ (session w)) as [r s']. exists r.
  set (w1 := mkWorld _ _ _ _ _ _ _).
  match goal with |- context [snd (?m w1)] => set (rest := m) end.
  assert (Hrest : logs (fun _ => True) (fun _ _ => True) rest).
  { subst rest. destruct (call_outcome r d) as [e d']. repeat logs_step; exact I. }
  destruct (Hrest w1) as (delta & Hc & _). exists delta.
  rewrite Hc. subst w1. cbn [calls]. now rewrite <- app_assoc.
Qed.

(** C9 (amended).  The empty string is a superset of every filter and
    search string, so a frame whose recorded search and filters are all
    empty is a superset of every request.  When a request with a search or
    a filter that is not empty finds such a frame under its cache key and R
    holds working data for the key, the working data is not reused as it is
    but narrowed: it is the data handed to [.rs.applyTransform], together
    with the filters, search and order of the request. *)
Theorem empty_filters_are_supersets :
  (forall s, isFilterSubset "" s = true) /\
  (forall (frame : CachedFrame) newSearch newFilters,
      workingSearch frame = "" -> Forall (fun f => f = "") (workingFilters frame) ->
      isSupersetOf frame newSearch newFilters = true) /\
  (forall d fields w nrow ncol frame wd s2,
      fst (getData_dimensions d w) = Return (nrow, ncol) ->
      s_cachedFrames w !! field_cacheKey fields = Some frame ->
      workingSearch frame = "" -> Forall (fun f => f = "") (workingFilters frame) ->
      (field_search fields <> "" \/
       exists f, f ∈ getData_filters fields ncol /\ f <> "") ->
      R_eval (mkRFunction ".rs.findWorkingData" [("", PString (field_cacheKey fields))])
             (session (snd (getData_dimensions d w))) = (Value wd, s2) ->
      is_null wd = false ->
      needs_transform (field_ordercol fields) (getData_filters fields ncol)
                      (field_search fields) = true /\
      (exists w2,
          getData_workingView (field_cacheKey fields) (field_search fields)
            (getData_filters fields ncol) (field_ordercol fields) (field_orderdir fields)
            (Some frame) d true (snd (getData_dimensions d w))
          = (Return (wd, true, false), w2)) /\
      exists r,
        (mkRFunction ".rs.applyTransform"
           [("x", PSexp wd); ("filtered", PStrings (getData_filters fields ncol));
            ("search", PString (field_search fields));
            ("col", PInt (field_ordercol fields));
            ("dir", PString (field_orderdir fields))], r)
          ∈ new_calls w (snd (getData d fields w))).
Proof.
  split; [exact isFilterSubset_empty|]. split; [exact isSupersetOf_empty|].
  intros d fields w nrow ncol frame wd s2.
  destruct (getData_dimensions d w) as [dims w1] eqn:Hdim. cbn [fst snd].
  intros -> Hframe Hsearch Hfilters Hadds Heval Hnull.
  assert (Hneeds : needs_transform (field_ordercol fields) (getData_filters fields ncol)
                                   (field_search fields) = true).
  { unfold needs_transform. destruct Hadds as [Hs | (f & Hin & Hf)].
    - apply orb_true_iff. right. apply negb_true_iff.
      apply not_true_is_false. intros E. now apply String.eqb_eq in E.
    - apply orb_true_iff. left. apply orb_true_iff. right.
      apply existsb_exists. exists f. split; [now apply list_elem_of_In|].
      apply negb_true_iff. apply not_true_is_false.
      intros E. now apply String.eqb_eq in E. }
  split; [exact Hneeds|].
  pose proof (getData_workingView_found (field_cacheKey fields) (field_search fields)
                (getData_filters fields ncol) (field_ordercol fields)
                (field_orderdir fields) frame d w1 wd s2 Heval Hnull) as Hview.
  assert (Hdiff : String.eqb (workingSearch frame) (field_search fields)
                  && bool_decide (workingFilters frame = getData_filters fields ncol)
                  = false).
  { apply not_true_is_false. intros E. apply andb_true_iff in E as [E1 E2].
    apply String.eqb_eq in E1. apply bool_decide_eq_true in E2.
    destruct Hadds as [Hs | (f & Hin & Hf)].
    - congruence.
    - rewrite <- E2 in Hin. rewrite Forall_forall in Hfilters. auto. }
  rewrite Hdiff in Hview. cbn [andb] in Hview.
  rewrite (isSupersetOf_empty frame _ _ Hsearch Hfilters) in Hview.
  set (w2 := mkWorld _ _ _ _ _ _ _) in Hview.
  split; [now exists w2|].
  destruct (logs_getData_dimensions (fun _ => True) (fun _ _ => True)
              (fun _ _ _ => I) d w) as (d1 & Hc1 & _).
  rewrite Hdim in Hc1. cbn [snd] in Hc1.
  unfold getData. rewrite bind_run, Hdim. rewrite bind_run.
  change (find_frame ?k w1) with (Return (s_cachedFrames w1 !! k), w1).
  cbv iota. rewrite (getData_dimensions_frames _ _ _ _ Hdim).
  unfold field_cacheKey, field_search, field_ordercol, field_orderdir,
    needs_transform in *.
  rewrite Hframe, Hneeds. rewrite bind_run, Hview. cbv iota.
  rewrite bind_run.
  destruct (getData_applyTransform_calls
              (urlDecode (fieldValue_string fields "cache_key" ""))
              (fieldValue_string fields "search[value]" "")
              (getData_filters fields ncol)
              (fieldValue_int fields "order[0][column]" (-1))
              (fieldValue_string fields "order[0][dir]" "asc")
              (Some frame) wd w2) as (r & d3 & Hc3).
  exists r.
  destruct (getData_applyTransform _ _ _ _ _ _ _ _ w2) as [[d'|e] w3].
  - cbn [snd] in Hc3.
    match goal with |- context [snd (?m w3)] => set (rest := m) end.
    assert (Hrest : logs (fun _ => True) (fun _ _ => True) rest).
    { subst rest. apply logs_bind; [repeat logs_step; exact I|]. intros F.
      apply logs_bind; [apply logs_formatColumns; intros; exact I|]. intros fmt.
      repeat logs_step; exact I. }
    destruct (Hrest w3) as (d4 & Hc4 & _).
    erewrite new_calls_app;
      [|rewrite Hc4, Hc3; subst w2; cbn [calls]; rewrite Hc1, <- !app_assoc;
        reflexivity].
    apply elem_of_app. right. apply elem_of_app. right.
    apply elem_of_app. left. apply list_elem_of_here.
  - cbn [snd] in *.
    erewrite new_calls_app;
      [|rewrite Hc3; subst w2; cbn [calls]; rewrite Hc1, <- !app_assoc;
        reflexivity].
    apply elem_of_app. right. apply elem_of_app. right. apply list_elem_of_here.
Qed.
End NarrowingClaims.

(** The claim C9 as worded fails in the miniature session for the frame a
    first plain request has registered under [k1]: it records an empty
    search and no filters, the next request adds a search, and R holds no
    working data for [k1].  There is nothing to narrow: the request keeps
    the data it was given, and the transform is called on [cars] itself. *)
Lemma fresh_frame_transforms_raw_data :
  let G := @getGridData Decimal.convert Mini.runtime Mini.http in
  let w0 := Mini.world ∅ (Mini.mkState [("cars", Mini.cars)] [] []
                            (Mini.mFrame 2 1 [("a", ["2"]); ("b", ["y"])]) []) in
  let w := snd (G (mkRequest "/grid_data?obj=cars&cache_key=k1&start=0&length=10")
                  (mkResponse status_Ok "") w0) in
  let fields := @parseQueryString Mini.http
                  "obj=cars&cache_key=k1&start=0&length=10&search[value]=y" in
  let frame := @mkCachedFrame Mini.runtime "" "cars" 2 ["a"; "b"] "" [] (-1) "" Mini.cars in
  let w1 := snd (@getData_dimensions Mini.runtime Mini.cars w) in
  @s_cachedFrames Mini.runtime w !! @field_cacheKey Mini.http fields = Some frame /\
  @workingSearch Mini.runtime frame = "" /\
  Forall (fun f => f = "") (@workingFilters Mini.runtime frame) /\
  @field_search Mini.http fields = "y" /\
  @isSupersetOf Decimal.convert Mini.runtime frame (@field_search Mini.http fields)
                (@getData_filters Mini.http fields 2) = true /\
  fst (@getData_workingView Decimal.convert Mini.runtime
         (@field_cacheKey Mini.http fields) (@field_search Mini.http fields)
         (@getData_filters Mini.http fields 2) (@field_ordercol Mini.http fields)
         (@field_orderdir Mini.http fields) (Some frame) Mini.cars true w1)
  = Return (Mini.cars, true, false) /\
  @new_calls Mini.runtime w1
     (snd (@getData_workingView Decimal.convert Mini.runtime
             (@field_cacheKey Mini.http fields) (@field_search Mini.http fields)
             (@getData_filters Mini.http fields 2) (@field_ordercol Mini.http fields)
             (@field_orderdir Mini.http fields) (Some frame) Mini.cars true w1))
  = [(mkRFunction ".rs.findWorkingData" [("", PString "k1")], Value Mini.mNil)] /\
  (mkRFunction ".rs.applyTransform"
     [("x", PSexp Mini.cars); ("filtered", PStrings [""; ""]); ("search", PString "y");
      ("col", PInt (-1)); ("dir", PString "asc")],
   Value (Mini.mFrame 2 1 [("a", ["2"]); ("b", ["y"])]))
    ∈ @new_calls Mini.runtime w
        (snd (@getData Decimal.convert Mini.runtime Mini.http Mini.cars fields w)).
Proof.
  cbv zeta. repeat match goal with |- _ /\ _ => split end;
    try (vm_compute; reflexivity).
  - repeat constructor.
  - apply list_elem_of_lookup. exists 3%nat. vm_compute. reflexivity.
Qed.

(** Witness of C9: in the miniature session, a view ordered by its first
    column, then searched as well. *)
Lemma empty_filters_are_supersets_witness :
  let G := @getGridData Decimal.convert Mini.runtime Mini.http in
  let sorted := Mini.mFrame 2 3 [("a", ["3"; "2"; "1"]); ("b", ["z"; "y"; "x"])] in
  let w0 := Mini.world ∅ (Mini.mkState [("cars", Mini.cars)] [] [] sorted []) in
  let w := snd (G (mkRequest "/grid_data?obj=cars&cache_key=k1&order[0][column]=1&order[0][dir]=desc")
                  (mkResponse status_Ok "") w0) in
  let fields := @parseQueryString Mini.http
                  "obj=cars&cache_key=k1&order[0][column]=1&order[0][dir]=desc&search[value]=y" in
  exists r,
    (mkRFunction ".rs.applyTransform"
       [("x", PSexp sorted); ("filtered", PStrings [""; ""]); ("search", PString "y");
        ("col", PInt 1); ("dir", PString "desc")], r)
      ∈ @new_calls Mini.runtime w
          (snd (@getData Decimal.convert Mini.runtime Mini.http Mini.cars fields w)).
Proof.
  intros G sorted w0 w fields.
  refine (proj2 (proj2 (proj2 (proj2 (@empty_filters_are_supersets
                                        Decimal.convert Mini.runtime Mini.http))
                         Mini.cars fields w 3%Z 2%Z
                         (@mkCachedFrame Mini.runtime "" "cars" 2 ["a"; "b"] "" [""; ""]
                                         1 "desc" Mini.cars)
                         sorted
                         (@session Mini.runtime
                            (snd (@getData_dimensions Mini.runtime Mini.cars w)))
                         _ _ _ _ _ _ _))).
  - vm_compute. reflexivity.
  - vm_compute. reflexivity.
  - reflexivity.
  - repeat constructor.
  - left. vm_compute. discriminate.
  - vm_compute. reflexivity.
  - reflexivity.
Defined.

(** ** The scan for changes *)

Section ScanFacts.
Context {conv : SafeConvert} {rt : RRuntime} {hu : HttpUtil}.

Lemma registry_keys_elem (frames : gmap string CachedFrame) key :
  key ∈ registry_keys frames <-> is_Some (frames !! key).
Proof.
  unfold registry_keys. rewrite merge_sort_Permutation.
  rewrite list_elem_of_fmap. split.
  - intros ([k v] & -> & Hin). apply elem_of_map_to_list in Hin. eauto.
  - intros [v Hv]. exists (key, v). split; [reflexivity|].
    now apply elem_of_map_to_list.
Qed.

Lemma registry_keys_NoDup (frames : gmap string CachedFrame) :
  NoDup (registry_keys frames).
Proof.
  unfold registry_keys. rewrite merge_sort_Permutation.
  apply NoDup_fst_map_to_list.
Qed.

Lemma keys_before_split key keys :
  key ∈ keys ->
  exists rest, keys = keys_before key keys ++ key :: rest /\
               key ∉ keys_before key keys.
Proof.
  induction keys as [|k keys IH]; intros Hin.
  - now apply elem_of_nil in Hin.
  - cbn [keys_before]. destruct (String.eqb k key) eqn:E.
    + apply String.eqb_eq in E. subst k. exists keys. split; [reflexivity|].
      apply not_elem_of_nil.
    + apply elem_of_cons in Hin as [->|Hin]; [now rewrite String.eqb_refl in E|].
      destruct (IH Hin) as (rest & Hk & Hn). exists rest. split.
      * cbn [app]. now rewrite <- Hk.
      * intros Hc. apply elem_of_cons in Hc as [->|Hc]; [|contradiction].
        now rewrite String.eqb_refl in E.
Qed.

(** What one step of the scan does to the world. *)
Lemma onDetectChanges_entry_run key w :
  match s_cachedFrames w !! key with
  | None => onDetectChanges_entry key w = (Return tt, w)
  | Some frame =>
      exists sexp w1,
      findInNamedEnvir (envName frame) (objName frame) w = (Return sexp, w1) /\
      if bool_decide (sexp = observedSEXP frame)
      then onDetectChanges_entry key w = (Return tt, w1)
      else exists newFrame w2 r s3,
          CachedFrame_new (envName frame) (objName frame) sexp w1
          = (Return newFrame, w2) /\
          onDetectChanges_entry key w =
          (Return tt,
           mkWorld (<[key := newFrame]> (s_cachedFrames w2)) s3
                   (calls w2 ++ [(mkRFunction ".rs.removeWorkingData"
                                    [("", PString key)], r)])
                   (clientEvents w2 ++
                    [data_view_changed key
                       (negb (Z.eqb (ncol frame) (ncol newFrame))
                        || negb (bool_decide (colNames frame = colNames newFrame)))])
                   (errorLog w2) (uninitialized_reads w2) (recursionCount w2))
  end.
Proof.
  unfold onDetectChanges_entry. rewrite bind_run.
  change (find_frame key w) with (Return (s_cachedFrames w !! key), w). cbv iota.
  destruct (s_cachedFrames w !! key) as [frame|]; [|reflexivity].
  destruct (findInNamedEnvir_returns (envName frame) (objName frame) w)
    as (sexp & w1 & Hfind & _).
  exists sexp, w1. split; [exact Hfind|]. rewrite bind_run, Hfind.
  destruct (bool_decide (sexp = observedSEXP frame)); cbn [negb]; [reflexivity|].
  destruct (CachedFrame_new_returns (envName frame) (objName frame) sexp w1)
    as (newFrame & w2 & Hnew & _).
  rewrite bind_run, Hnew. rewrite bind_run. unfold call. rewrite bind_run.
  unfold call_SEXP. destruct (R_eval _ (session w2)) as [r s3].
  exists newFrame, w2, r, s3. split; [reflexivity|]. reflexivity.
Qed.

Lemma findInNamedEnvir_events envir name w :
  clientEvents (snd (findInNamedEnvir envir name w)) = clientEvents w.
Proof.
  unfold findInNamedEnvir. destruct (String.eqb envir kNoBoundEnv); [reflexivity|].
  rewrite bind_run. destruct (_ || _).
  - unfold ret. now destruct (is_null R_GlobalEnv).
  - rewrite bind_run. unfold call_SEXP.
    destruct (R_eval _ (session w)) as [r s']. unfold ret.
    now destruct (is_null _).
Qed.

Lemma CachedFrame_new_events env obj sexp w :
  clientEvents (snd (CachedFrame_new env obj sexp w)) = clientEvents w.
Proof.
  unfold CachedFrame_new, bind, declare_int, declare_SEXP, call_SEXP, call_int,
    call_as, ret.
  cbn [session s_cachedFrames calls clientEvents fst snd].
  destruct (bool_decide (sexp = NULL)); [reflexivity|].
  destruct (R_eval _ _) as [r s']. simpl.
  destruct (call_outcome r _) as [e names]. simpl.
  destruct (R_eval _ s') as [r2 s'']. simpl.
  destruct r2 as [v2|s2 st2]; [destruct (extract_int v2)|]; reflexivity.
Qed.

(** One step of the scan returns, leaves the other entries alone, and only
    appends to the log of calls and to the events. *)
Lemma onDetectChanges_entry_effect key w :
  fst (onDetectChanges_entry key w) = Return tt /\
  (forall k, k <> key ->
             s_cachedFrames (snd (onDetectChanges_entry key w)) !! k
             = s_cachedFrames w !! k) /\
  (exists delta, calls (snd (onDetectChanges_entry key w)) = calls w ++ delta) /\
  (exists events,
      clientEvents (snd (onDetectChanges_entry key w)) = clientEvents w ++ events).
Proof.
  pose proof (onDetectChanges_entry_run key w) as Hrun.
  destruct (s_cachedFrames w !! key) as [frame|].
  2:{ rewrite Hrun. cbn [fst snd]. repeat split; auto;
      exists []; now rewrite app_nil_r. }
  destruct Hrun as (sexp & w1 & Hfind & Hrun).
  destruct (findInNamedEnvir_returns (envName frame) (objName frame) w)
    as (sexp' & w1' & Hfind' & Hf1).
  rewrite Hfind in Hfind'. injection Hfind' as <- <-.
  destruct (logs_findInNamedEnvir (fun _ => True) (fun _ _ => True) (fun _ _ _ => I)
              (envName frame) (objName frame) w) as (d1 & Hc1 & _).
  pose proof (findInNamedEnvir_events (envName frame) (objName frame) w) as He1.
  rewrite Hfind in Hc1, He1. cbn [snd] in Hc1, He1.
  destruct (bool_decide (sexp = observedSEXP frame)).
  { rewrite Hrun. cbn [fst snd]. split; [reflexivity|]. split; [now rewrite Hf1|].
    split; [now exists d1|]. exists []. now rewrite app_nil_r. }
  destruct Hrun as (newFrame & w2 & r & s3 & Hnew & Hrun).
  destruct (CachedFrame_new_returns (envName frame) (objName frame) sexp w1)
    as (nf & w2' & Hnew' & Hf2 & _).
  rewrite Hnew in Hnew'. injection Hnew' as <- <-.
  destruct (logs_CachedFrame_new (fun _ => True) (fun _ _ => True) (fun _ _ _ => I)
              (envName frame) (objName frame) sexp w1) as (d2 & Hc2 & _).
  pose proof (CachedFrame_new_events (envName frame) (objName frame) sexp w1) as He2.
  rewrite Hnew in Hc2, He2. cbn [snd] in Hc2, He2.
  rewrite Hrun. cbn [fst snd s_cachedFrames calls clientEvents].
  split; [reflexivity|]. split; [|split].
  - intros k Hk. rewrite lookup_insert_ne by congruence. now rewrite Hf2, Hf1.
  - eexists. rewrite Hc2, Hc1, <- !app_assoc. reflexivity.
  - eexists. rewrite He2, He1. reflexivity.
Qed.

Lemma for_each_app keys1 keys2 w :
  for_each (keys1 ++ keys2) onDetectChanges_entry w =
  for_each keys2 onDetectChanges_entry
           (snd (for_each keys1 onDetectChanges_entry w)).
Proof.
  revert w. induction keys1 as [|k keys1 IH]; intros w; [reflexivity|].
  cbn [app for_each]. rewrite !bind_run.
  destruct (onDetectChanges_entry_effect k w) as (Hr & _).
  destruct (onDetectChanges_entry k w) as [r w1]. cbn [fst] in Hr. subst r.
  apply IH.
Qed.

Lemma for_each_effect keys w :
  fst (for_each keys onDetectChanges_entry w) = Return tt /\
  (forall k, k ∉ keys ->
             s_cachedFrames (snd (for_each keys onDetectChanges_entry w)) !! k
             = s_cachedFrames w !! k) /\
  (exists delta,
      calls (snd (for_each keys onDetectChanges_entry w)) = calls w ++ delta) /\
  (exists events,
      clientEvents (snd (for_each keys onDetectChanges_entry w))
      = clientEvents w ++ events).
Proof.
  revert w. induction keys as [|k keys IH]; intros w.
  - cbn. repeat split; auto; exists []; now rewrite app_nil_r.
  - cbn [for_each]. rewrite bind_run.
    destruct (onDetectChanges_entry_effect k w) as (Hr & Ho & (d1 & Hc1) & (e1 & He1)).
    destruct (onDetectChanges_entry k w) as [r w1]. cbn [fst snd] in *. subst r.
    destruct (IH w1) as (Hr2 & Ho2 & (d2 & Hc2) & (e2 & He2)).
    split; [exact Hr2|]. split; [|split].
    + intros k' Hk'. rewrite Ho2, Ho.
      * reflexivity.
      * intros ->. apply Hk'. apply list_elem_of_here.
      * intros Hin. apply Hk'. now apply list_elem_of_further.
    + exists (d1 ++ d2). now rewrite Hc2, Hc1, app_assoc.
    + exists (e1 ++ e2). now rewrite He2, He1, app_assoc.
Qed.

(** What the constructor builds: the order column it never writes, the
    column count it writes only for an object that is not the null
    pointer, and the column names and count it asks R for. *)
Lemma CachedFrame_new_built env obj sexp w :
  exists frame w1,
    CachedFrame_new env obj sexp w = (Return frame, w1) /\
    workingOrderCol frame = uninitialized_int (S (uninitialized_reads w)) /\
    (sexp = NULL ->
     ncol frame = uninitialized_int (uninitialized_reads w) /\ colNames frame = []) /\
    (sexp <> NULL ->
     exists r1 r2,
       calls w1 = calls w ++ [(mkRFunction "names" [("", PSexp sexp)], r1);
                              (mkRFunction "ncol" [("", PSexp sexp)], r2)] /\
       (forall v, r1 = Value v -> is_null v = true -> colNames frame = []) /\
       (forall v l, r1 = Value v -> is_null v = false -> extract_strings v = Ok l ->
                    colNames frame = l) /\
       (forall v n, r2 = Value v -> extract_int v = Ok n -> ncol frame = n)).
Proof.
  unfold CachedFrame_new, bind, declare_int, declare_SEXP, call_SEXP, call_int,
    call_as, ret.
  cbn [session s_cachedFrames calls fst snd].
  destruct (bool_decide (sexp = NULL)) eqn:Hnull.
  - eexists _, _. split; [reflexivity|].
    repeat match goal with |- _ /\ _ => split end; try reflexivity.
    + intros _. split; reflexivity.
    + intros Hne. apply bool_decide_eq_true in Hnull. contradiction.
  - apply bool_decide_eq_false in Hnull.
    cbn [uninitialized_reads clientEvents errorLog recursionCount].
    destruct (R_eval _ _) as [r1 s1]. cbn [fst snd session calls].
    destruct (call_outcome r1 _) as [e1 names] eqn:Hout. cbn [fst snd].
    match goal with |- context [R_eval ?f ?s] => destruct (R_eval f s) as [r2 s2] end.
    cbn [fst snd].
    assert (Hnames :
              (forall v, r1 = Value v -> is_null v = true ->
                 (if negb (bool_decide (names = NULL))
                     && negb (bool_decide (TYPEOF names = NILSXP))
                     && negb (Rf_isNull names)
                  then match extract_strings names with Ok l => l | Err _ => [] end
                  else []) = []) /\
              (forall v l, r1 = Value v -> is_null v = false -> extract_strings v = Ok l ->
                 (if negb (bool_decide (names = NULL))
                     && negb (bool_decide (TYPEOF names = NILSXP))
                     && negb (Rf_isNull names)
                  then match extract_strings names with Ok l => l | Err _ => [] end
                  else []) = l)).
    { split.
      - intros v -> Hv. cbn [call_outcome] in Hout. injection Hout as _ <-.
        unfold is_null in Hv. rewrite <- !negb_orb, Hv. reflexivity.
      - intros v l -> Hv Hl. cbn [call_outcome] in Hout. injection Hout as _ <-.
        unfold is_null in Hv. rewrite <- !negb_orb, Hv. cbn [negb]. now rewrite Hl. }
    destruct Hnames as [Hn1 Hn2].
    destruct r2 as [v2|s2' st2]; [destruct (extract_int v2) as [n|s] eqn:Hn|];
      (eexists _, _; split; [reflexivity|];
       repeat match goal with |- _ /\ _ => split end; try reflexivity;
       [ intros ->; contradiction
       | intros _; eexists _, _;
         split; [cbn [calls]; now rewrite <- app_assoc|];
         split; [exact Hn1|]; split; [exact Hn2|];
         intros v n' Hv Hn'; cbn [ncol]; congruence ]).
Qed.

(** C5.  Take a registered frame and the world in which the scan reaches
    it.  If looking its object up again gives an identity other than the
    observed one, the scan builds a new frame for the identity found, calls
    [.rs.removeWorkingData] for the cache key, emits the event
    [data_view_changed] with the cache key and a flag that is true exactly
    when the column count or the column names of the new frame differ from
    the recorded ones, and puts the new frame in the registry in place of
    the old.  The new frame has the names of the old and the identity
    found; its column names and column count are what [names] and [ncol]
    of the identity found yield, asked in the course of the scan; and it
    records an empty search, no filters and no order direction.  Its order
    column is not reset: the constructor never writes it, and it holds what
    an [int] holds that is declared and left alone.  So it is in the
    miniature session on memory that holds [3]: a view ordered by its first
    column, its object bound anew, is left with order column [3]. *)
Theorem onDetectChanges_invalidates :
  (forall w key frame sexp,
      recursionCount w = 0%nat ->
      s_cachedFrames w !! key = Some frame ->
      fst (findInNamedEnvir (envName frame) (objName frame) (scan_reaches w key))
      = Return sexp ->
      sexp <> observedSEXP frame ->
      let w' := snd (onDetectChanges w) in
      let found := snd (findInNamedEnvir (envName frame) (objName frame)
                                         (scan_reaches w key)) in
      s_cachedFrames (scan_reaches w key) !! key = Some frame /\
      exists newFrame,
        fst (CachedFrame_new (envName frame) (objName frame) sexp found)
        = Return newFrame /\
        (exists r, (mkRFunction ".rs.removeWorkingData" [("", PString key)], r)
                     ∈ new_calls w w') /\
        data_view_changed key
          (negb (Z.eqb (ncol frame) (ncol newFrame))
           || negb (bool_decide (colNames frame = colNames newFrame)))
          ∈ new_events w w' /\
        (negb (Z.eqb (ncol frame) (ncol newFrame))
         || negb (bool_decide (colNames frame = colNames newFrame)) = true
         <-> ncol frame <> ncol newFrame \/ colNames frame <> colNames newFrame) /\
        s_cachedFrames w' !! key = Some newFrame /\
        envName newFrame = envName frame /\ objName newFrame = objName frame /\
        observedSEXP newFrame = sexp /\
        workingSearch newFrame = "" /\ workingFilters newFrame = [] /\
        workingOrderDir newFrame = "" /\
        workingOrderCol newFrame = uninitialized_int (S (uninitialized_reads found)) /\
        (sexp = NULL ->
         colNames newFrame = [] /\
         ncol newFrame = uninitialized_int (uninitialized_reads found)) /\
        (sexp <> NULL ->
         exists r1 r2,
           (mkRFunction "names" [("", PSexp sexp)], r1) ∈ new_calls w w' /\
           (mkRFunction "ncol" [("", PSexp sexp)], r2) ∈ new_calls w w' /\
           (forall v, r1 = Value v -> is_null v = true -> colNames newFrame = []) /\
           (forall v l, r1 = Value v -> is_null v = false -> extract_strings v = Ok l ->
                        colNames newFrame = l) /\
           (forall v n, r2 = Value v -> extract_int v = Ok n -> ncol newFrame = n))) /\
  (let other := Mini.mFrame 9 3 [("a", ["7"; "8"; "9"]); ("b", ["x"; "y"; "z"])] in
   let frame := @mkCachedFrame (MiniStale.runtime 3) "" "cars" 2 ["a"; "b"] "" [""; ""] 1
                               "asc" Mini.cars in
   let w := MiniStale.world 3 {[ "k1" := frame ]}
              (Mini.mkState [("cars", other)] [("k1", Mini.cars)] [] Mini.mNil []) in
   s_cachedFrames (snd (@onDetectChanges (MiniStale.runtime 3) w)) !! "k1"
   = Some (@mkCachedFrame (MiniStale.runtime 3) "" "cars" 2 ["a"; "b"] "" [] 3 "" other)).
Proof.
  split; [|vm_compute; reflexivity].
  intros w key frame sexp Hrc Hframe Hfind Hdiff w' found. subst w' found.
  unfold scan_reaches in *.
  set (wS := set_recursionCount (S (recursionCount w)) w) in *.
  assert (Hin : key ∈ registry_keys (s_cachedFrames w))
    by (apply registry_keys_elem; eauto).
  destruct (keys_before_split key _ Hin) as (rest & Hkeys & Hbefore).
  set (before := keys_before key (registry_keys (s_cachedFrames w))) in *.
  assert (Hrest : key ∉ rest).
  { pose proof (registry_keys_NoDup (s_cachedFrames w)) as Hnd.
    rewrite Hkeys in Hnd. apply NoDup_app in Hnd as (_ & _ & Hnd).
    now apply NoDup_cons in Hnd as [Hnd _]. }
  destruct (for_each_effect before wS) as (_ & Ho0 & (d0 & Hc0) & (e0 & He0)).
  set (w0 := snd (for_each before onDetectChanges_entry wS)) in *.
  assert (Hframe0 : s_cachedFrames w0 !! key = Some frame)
    by (rewrite (Ho0 key Hbefore); exact Hframe).
  split; [exact Hframe0|].
  pose proof (onDetectChanges_entry_run key w0) as Hrun. rewrite Hframe0 in Hrun.
  destruct Hrun as (sexp' & w1 & Hfind' & Hrun).
  rewrite Hfind' in Hfind |- *. cbn [fst snd] in Hfind |- *.
  injection Hfind as ->.
  rewrite bool_decide_eq_false_2 in Hrun by exact Hdiff.
  destruct Hrun as (newFrame & w2 & r & s3 & Hnew & Hrun).
  exists newFrame. rewrite Hnew. cbn [fst].
  destruct (logs_findInNamedEnvir (fun _ => True) (fun _ _ => True) (fun _ _ _ => I)
              (envName frame) (objName frame) w0) as (d1 & Hc1 & _).
  pose proof (findInNamedEnvir_events (envName frame) (objName frame) w0) as He1.
  rewrite Hfind' in Hc1, He1. cbn [snd] in Hc1, He1.
  destruct (logs_CachedFrame_new (fun _ => True) (fun _ _ => True) (fun _ _ _ => I)
              (envName frame) (objName frame) sexp w1) as (d2 & Hc2 & _).
  pose proof (CachedFrame_new_events (envName frame) (objName frame) sexp w1) as He2.
  destruct (CachedFrame_new_returns (envName frame) (objName frame) sexp w1)
    as (nf & w2' & Hnew'' & _ & Henv & Hobj & Hobs & Hws & Hwf & Hwd & _).
  destruct (CachedFrame_new_built (envName frame) (objName frame) sexp w1)
    as (nf' & w2'' & Hnew3 & Hcol & Hnull & Hbuilt).
  rewrite Hnew in Hc2, He2, Hnew'', Hnew3. cbn [snd] in Hc2, He2.
  injection Hnew'' as <- <-. injection Hnew3 as <- <-.
  (* the run of the whole scan *)
  assert (Hscan : exists delta events,
             s_cachedFrames (snd (onDetectChanges w)) !! key = Some newFrame /\
             calls (snd (onDetectChanges w)) =
             calls w ++ d0 ++ d1 ++ d2 ++
               (mkRFunction ".rs.removeWorkingData" [("", PString key)], r) :: delta /\
             clientEvents (snd (onDetectChanges w)) =
             clientEvents w ++ e0 ++
               data_view_changed key
                 (negb (Z.eqb (ncol frame) (ncol newFrame))
                  || negb (bool_decide (colNames frame = colNames newFrame)))
               :: events).
  { unfold onDetectChanges. fold wS.
    replace (recursionCount wS) with 1%nat by (subst wS; cbn; now rewrite Hrc).
    cbn [Nat.ltb Nat.leb].
    change (s_cachedFrames wS) with (s_cachedFrames w).
    rewrite Hkeys, for_each_app. fold w0.
    cbn [for_each]. rewrite bind_run, Hrun.
    set (w3 := mkWorld _ _ _ _ _ _ _).
    destruct (for_each_effect rest w3) as (_ & Ho4 & (d4 & Hc4) & (e4 & He4)).
    destruct (for_each rest onDetectChanges_entry w3) as [r4 w4].
    cbv beta iota zeta.
    cbn [fst snd set_recursionCount s_cachedFrames calls clientEvents] in *.
    exists d4, e4.
    split; [|split].
    - rewrite (Ho4 key Hrest). subst w3. cbn [s_cachedFrames].
      apply lookup_insert_eq.
    - rewrite Hc4. subst w3. cbn [calls]. rewrite Hc2, Hc1, Hc0.
      subst wS. cbn [calls set_recursionCount]. now rewrite <- !app_assoc.
    - rewrite He4. subst w3. cbn [clientEvents]. rewrite He2, He1, He0.
      subst wS. cbn [clientEvents set_recursionCount]. now rewrite <- !app_assoc. }
  destruct Hscan as (delta & events & Hk & Hc & He).
  assert (Hd2 : forall c, c ∈ d2 -> c ∈ new_calls w (snd (onDetectChanges w))).
  { intros c Hcin. rewrite (new_calls_app _ _ _ Hc).
    rewrite !elem_of_app. right. right. now left. }
  split; [reflexivity|].
  split.
  { exists r. rewrite (new_calls_app _ _ _ Hc).
    rewrite !elem_of_app. right. right. right. apply list_elem_of_here. }
  split.
  { unfold new_events. rewrite He, drop_app_length.
    rewrite elem_of_app. right. apply list_elem_of_here. }
  split.
  { rewrite orb_true_iff, !negb_true_iff, Z.eqb_neq, bool_decide_eq_false.
    reflexivity. }
  split; [exact Hk|].
  repeat (split; [assumption|]).
  split.
  - intros Hn. destruct (Hnull Hn) as [Hn1 Hn2]. auto.
  - intros Hn. destruct (Hbuilt Hn) as (r1 & r2 & Hcalls & Hb1 & Hb2 & Hb3).
    assert (Hd2eq : d2 = [(mkRFunction "names" [("", PSexp sexp)], r1);
                          (mkRFunction "ncol" [("", PSexp sexp)], r2)]).
    { rewrite Hc2 in Hcalls. now apply app_inv_head in Hcalls. }
    exists r1, r2. repeat match goal with |- _ /\ _ => split end; auto.
    + apply Hd2. rewrite Hd2eq. apply list_elem_of_here.
    + apply Hd2. rewrite Hd2eq. apply list_elem_of_further, list_elem_of_here.
Qed.
End ScanFacts.

(** Witness of C5: in the miniature session, the frame [cars] with columns
    [a], [b] is registered under [k1], and [cars] is bound anew to a frame
    with a third column: the scan reports a change of structure, and the
    frame it leaves under [k1] has the three columns of the new object. *)
Lemma onDetectChanges_invalidates_witness :
  let wider := Mini.mFrame 9 3 [("a", ["1"; "2"; "3"]); ("b", ["x"; "y"; "z"]);
                                ("c", ["p"; "q"; "r"])] in
  let frame := @mkCachedFrame Mini.runtime "" "cars" 2 ["a"; "b"] "y" [""; ""] (-1)
                              "asc" Mini.cars in
  let w := Mini.world {[ "k1" := frame ]}
                      (Mini.mkState [("cars", wider)] [("k1", Mini.cars)] [] Mini.mNil []) in
  data_view_changed "k1" true
    ∈ @new_events Mini.runtime w (snd (@onDetectChanges Mini.runtime w)) /\
  exists newFrame,
    @s_cachedFrames Mini.runtime (snd (@onDetectChanges Mini.runtime w)) !! "k1"
    = Some newFrame /\
    @colNames Mini.runtime newFrame = ["a"; "b"; "c"] /\
    @ncol Mini.runtime newFrame = 3 /\
    @workingSearch Mini.runtime newFrame = "".
Proof.
  intros wider frame w.
  destruct (proj1 (@onDetectChanges_invalidates Mini.runtime) w "k1" frame wider)
    as (_ & newFrame & Hnew & _ & Hev & _ & Hreg & _).
  - reflexivity.
  - vm_compute. reflexivity.
  - vm_compute. reflexivity.
  - discriminate.
  - assert (E : newFrame = @mkCachedFrame Mini.runtime "" "cars" 3 ["a"; "b"; "c"] "" []
                                           (-1) "" wider).
    { apply (f_equal (fun r => match r with Return a => a | Throw _ => newFrame end))
        in Hnew.
      etransitivity; [symmetry; exact Hnew|]. vm_compute. reflexivity. }
    clear Hnew. rewrite E in Hev. split; [exact Hev|].
    exists newFrame. split; [exact Hreg|]. rewrite E. repeat split.
Defined.

(** In the same session, a new identity with the same two columns is
    reported as a change of content only. *)
Example onDetectChanges_same_shape :
  let other := Mini.mFrame 9 3 [("a", ["7"; "8"; "9"]); ("b", ["x"; "y"; "z"])] in
  let frame := @mkCachedFrame Mini.runtime "" "cars" 2 ["a"; "b"] "y" [""; ""] (-1)
                              "asc" Mini.cars in
  let w := Mini.world {[ "k1" := frame ]}
                      (Mini.mkState [("cars", other)] [("k1", Mini.cars)] [] Mini.mNil []) in
  @clientEvents Mini.runtime (snd (@onDetectChanges Mini.runtime w))
  = [data_view_changed "k1" false].
Proof. vm_compute. reflexivity. Qed.


(* ===================================================================== *)
(** * Part VIII: further properties of the handlers                      *)
(* ===================================================================== *)

(** ** What a computation leaves alone *)

Section FrameFacts.
Context {conv : SafeConvert} {rt : RRuntime} {hu : HttpUtil}.

Lemma unchanged_ret {A X} (f : World -> X) (a : A) : unchanged f (ret a).
Proof. intros w. reflexivity. Qed.

Lemma unchanged_throw {A X} (f : World -> X) e : unchanged f (@throw _ A e).
Proof. intros w. reflexivity. Qed.

Lemma unchanged_bind {A B X} (f : World -> X) (m : M A) (k : A -> M B) :
  unchanged f m -> (forall a, unchanged f (k a)) -> unchanged f (bind m k).
Proof.
  intros Hm Hk w. rewrite bind_run. specialize (Hm w).
  destruct (m w) as [[a|e] w1]; cbn [snd] in *.
  - now rewrite Hk.
  - exact Hm.
Qed.
End FrameFacts.

(** A primitive of the world leaves a field alone when the field is not
    the one it writes. *)
Ltac unchanged_prim :=
  let w := fresh "w" in
  intros w;
  first
    [ reflexivity
    | unfold call_SEXP, call_as, call_int, call_strings;
      match goal with
      | |- context [R_eval ?f ?s] => destruct (R_eval f s)
      end; reflexivity ].

Ltac unchanged_step :=
  first
    [ apply unchanged_ret | apply unchanged_throw
    | apply unchanged_bind; [|intros ?]
    | match goal with
      | |- unchanged _ (let '(_, _) := ?p in _) => destruct p
      | |- unchanged _ (match ?x with _ => _ end) => destruct x
      | |- unchanged _ (call _) => unfold call
      end
    | unchanged_prim ].

Section Lookup.
Context {conv : SafeConvert} {rt : RRuntime} {hu : HttpUtil}.

Lemma unchanged_findInNamedEnvir {X} (f : World -> X) envir name :
  (forall w s c,
      f (mkWorld (s_cachedFrames w) s c (clientEvents w) (errorLog w)
                 (uninitialized_reads w) (recursionCount w)) = f w) ->
  unchanged f (findInNamedEnvir envir name).
Proof.
  intros Hf. unfold findInNamedEnvir.
  destruct (String.eqb envir kNoBoundEnv); [apply unchanged_ret|].
  apply unchanged_bind.
  - destruct (_ || _); [apply unchanged_ret|].
    apply unchanged_bind; [|intros; apply unchanged_ret].
    intros w. unfold call_SEXP. destruct (R_eval _ _). cbn [snd]. apply Hf.
  - intros env. destruct (is_null env); [apply unchanged_ret|]. intros w. reflexivity.
Qed.

(** X1.  [findInNamedEnvir] never throws and leaves the registry, the
    client events and the error log alone.  For the marker of no
    environment it returns the null pointer; what it returns is never
    [R_UnboundValue] unless that is the null pointer, an unbound name
    coming back as null; and an object of the global environment, named by
    the empty name or by ["R_GlobalEnv"], is returned as [findVar] finds
    it.  For these three names the world is left as it was; for any other
    name exactly one R call is made, [as.environment] of the name, and when
    that call raises without storing a value the result is the null
    pointer. *)
Theorem findInNamedEnvir_effect envir name w :
  let r := findInNamedEnvir envir name w in
  (exists sexp,
      fst r = Return sexp /\
      (sexp = NULL \/ sexp <> R_UnboundValue) /\
      (envir = kNoBoundEnv -> sexp = NULL) /\
      (envir = "" \/ envir = "R_GlobalEnv" ->
       is_null R_GlobalEnv = false ->
       sexp = if bool_decide (findVar name R_GlobalEnv (session w) = R_UnboundValue)
              then NULL else findVar name R_GlobalEnv (session w))) /\
  s_cachedFrames (snd r) = s_cachedFrames w /\
  clientEvents (snd r) = clientEvents w /\
  errorLog (snd r) = errorLog w /\
  (if String.eqb envir kNoBoundEnv || String.eqb envir "" || String.eqb envir "R_GlobalEnv"
   then snd r = w
   else exists ev,
       new_calls w (snd r) = [(mkRFunction "as.environment" [("", PString envir)], ev)] /\
       (forall s, ev = Raised s None -> fst r = Return NULL)).
Proof.
  intros r.
  split; [|split; [|split; [|split]]];
    try (subst r; apply (unchanged_findInNamedEnvir _ envir name); reflexivity).
  - subst r. unfold findInNamedEnvir.
    destruct (String.eqb_spec envir kNoBoundEnv) as [->|Hne].
    { exists NULL. repeat split; auto. 
      - intros [H|H]; discriminate H. }
    destruct (String.eqb_spec envir "") as [->|He]; cbn [orb].
    { rewrite bind_run. cbn [ret]. cbv beta iota.
      destruct (is_null R_GlobalEnv) eqn:Hg.
      - exists NULL. repeat split; auto; try congruence.
      - eexists. split; [reflexivity|]. repeat split.
        + destruct (bool_decide _) eqn:Hb; [now left|right].
          now apply bool_decide_eq_false in Hb.
        + intros H; discriminate H.
    }
    destruct (String.eqb_spec envir "R_GlobalEnv") as [->|Hg'].
    { rewrite bind_run. cbn [ret]. cbv beta iota.
      destruct (is_null R_GlobalEnv) eqn:Hg.
      - exists NULL. repeat split; auto; try congruence.
      - eexists. split; [reflexivity|]. repeat split.
        + destruct (bool_decide _) eqn:Hb; [now left|right].
          now apply bool_decide_eq_false in Hb.
        + intros H; discriminate H.
    }
    rewrite !bind_run. unfold call_SEXP.
    destruct (R_eval _ _) as [ev s']. cbn [ret fst snd]. cbv beta iota.
    destruct (is_null _).
    + exists NULL. repeat split; auto; try congruence. intros [H|H]; congruence.
    + eexists. split; [reflexivity|]. repeat split.
      * destruct (bool_decide _) eqn:Hb; [now left|right].
        now apply bool_decide_eq_false in Hb.
      * congruence.
      * intros [H|H]; congruence.
  - subst r. unfold findInNamedEnvir.
    destruct (String.eqb_spec envir kNoBoundEnv) as [->|Hne]; [reflexivity|].
    cbn [orb].
    destruct (String.eqb_spec envir "") as [->|He]; cbn [orb].
    { rewrite bind_run. cbn [ret]. cbv beta iota. now destruct (is_null R_GlobalEnv). }
    destruct (String.eqb_spec envir "R_GlobalEnv") as [->|Hg'].
    { rewrite bind_run. cbn [ret]. cbv beta iota. now destruct (is_null R_GlobalEnv). }
    rewrite !bind_run. unfold call_SEXP.
    destruct (R_eval _ _) as [ev s'] eqn:Hev. cbn [ret fst snd]. cbv beta iota.
    exists ev. split.
    + destruct (is_null _); unfold new_calls, ret; cbn [snd calls];
        now rewrite drop_app_length.
    + intros s ->. cbn [call_outcome snd default]. 
      unfold is_null. rewrite bool_decide_eq_true_2 by reflexivity. reflexivity.
Qed.
End Lookup.

(** ** The constructor of a frame, and the columns of an object *)

Section Construction.
Context {conv : SafeConvert} {rt : RRuntime} {hu : HttpUtil}.

Lemma new_calls_snoc (w w' : World) c :
  calls w' = calls w ++ [c] -> new_calls w w' = [c].
Proof. intros Hc. unfold new_calls. now rewrite Hc, drop_app_length. Qed.

Lemma new_calls_nil (w w' : World) :
  calls w' = calls w -> new_calls w w' = [].
Proof. intros Hc. unfold new_calls. rewrite Hc. apply drop_all. Qed.

(** X2.  The constructor [CachedFrame(env, obj, sexp)] never throws and
    leaves the registry and the client events alone.  The frame it builds
    has the environment name, the object name and the pointer it is given
    and records no transform.  For the null pointer it makes no R call and
    the frame has no column names.  For any other pointer it makes exactly
    two calls, [names] and then [ncol] of the object: the column names are
    what [names] yields when that is not null and converts to strings, none
    when it is null, and the column count is what [ncol] yields when that
    converts to an integer. *)
Theorem CachedFrame_new_effect env obj sexp w :
  let r := CachedFrame_new env obj sexp w in
  exists frame,
    fst r = Return frame /\
    envName frame = env /\ objName frame = obj /\ observedSEXP frame = sexp /\
    workingSearch frame = "" /\ workingFilters frame = [] /\
    workingOrderDir frame = "" /\
    s_cachedFrames (snd r) = s_cachedFrames w /\
    clientEvents (snd r) = clientEvents w /\
    (sexp = NULL -> new_calls w (snd r) = [] /\ colNames frame = []) /\
    (sexp <> NULL ->
     exists r1 r2,
       new_calls w (snd r) =
       [(mkRFunction "names" [("", PSexp sexp)], r1);
        (mkRFunction "ncol" [("", PSexp sexp)], r2)] /\
       (forall v, r1 = Value v -> is_null v = true -> colNames frame = []) /\
       (forall v l, r1 = Value v -> is_null v = false -> extract_strings v = Ok l ->
                    colNames frame = l) /\
       (forall v n, r2 = Value v -> extract_int v = Ok n -> ncol frame = n)).
Proof.
  intros r. subst r.
  unfold CachedFrame_new, bind, declare_int, declare_SEXP, call_SEXP, call_int,
    call_as, ret.
  cbn [session s_cachedFrames calls fst snd].
  destruct (bool_decide (sexp = NULL)) eqn:Hnull.
  - eexists. split; [reflexivity|].
    repeat match goal with |- _ /\ _ => split end; try reflexivity.
    + intros _. split; [|reflexivity]. now apply new_calls_nil.
    + intros Hne. apply bool_decide_eq_true in Hnull. contradiction.
  - apply bool_decide_eq_false in Hnull.
    cbn [uninitialized_reads clientEvents errorLog recursionCount].
    destruct (R_eval _ _) as [r1 s1]. cbn [fst snd session calls].
    destruct (call_outcome r1 _) as [e1 names] eqn:Hout. cbn [fst snd].
    match goal with |- context [R_eval ?f ?s] => destruct (R_eval f s) as [r2 s2] end.
    cbn [fst snd].
    assert (Hnames :
              (forall v, r1 = Value v -> is_null v = true ->
                 (if negb (bool_decide (names = NULL))
                     && negb (bool_decide (TYPEOF names = NILSXP))
                     && negb (Rf_isNull names)
                  then match extract_strings names with Ok l => l | Err _ => [] end
                  else []) = []) /\
              (forall v l, r1 = Value v -> is_null v = false -> extract_strings v = Ok l ->
                 (if negb (bool_decide (names = NULL))
                     && negb (bool_decide (TYPEOF names = NILSXP))
                     && negb (Rf_isNull names)
                  then match extract_strings names with Ok l => l | Err _ => [] end
                  else []) = l)).
    { split.
      - intros v -> Hv. cbn [call_outcome] in Hout. injection Hout as _ <-.
        unfold is_null in Hv. rewrite <- !negb_orb, Hv. reflexivity.
      - intros v l -> Hv Hl. cbn [call_outcome] in Hout. injection Hout as _ <-.
        unfold is_null in Hv. rewrite <- !negb_orb, Hv. cbn [negb]. now rewrite Hl. }
    destruct Hnames as [Hn1 Hn2].
    destruct r2 as [v2|s2' st2]; [destruct (extract_int v2) as [n|s] eqn:Hn|];
      (eexists; split; [reflexivity|];
       repeat match goal with |- _ /\ _ => split end; try reflexivity;
       [ intros ->; contradiction
       | intros _; eexists _, _;
         split; [unfold new_calls; cbn [calls snd]; rewrite <- app_assoc;
                 now rewrite drop_app_length|];
         split; [exact Hn1|]; split; [exact Hn2|];
         intros v n' Hv Hn'; cbn [ncol]; congruence ]).
Qed.

(** X3.  [getCols] never throws: it makes exactly one R call,
    [.rs.describeCols] of the data, leaves the registry, the client events
    and the error log alone, and returns the JSON of whatever that call
    left in [colsSEXP].  A call that raises without storing a value is
    neither reported nor logged: the result is that of the null pointer
    [colsSEXP] started with. *)
Theorem getCols_swallows_failure dataSEXP w :
  let r := getCols dataSEXP w in
  exists ev,
    new_calls w (snd r) = [(mkRFunction ".rs.describeCols" [("", PSexp dataSEXP)], ev)] /\
    s_cachedFrames (snd r) = s_cachedFrames w /\
    clientEvents (snd r) = clientEvents w /\
    errorLog (snd r) = errorLog w /\
    fst r = Return match jsonValueFromList (snd (call_outcome ev NULL)) with
                   | Ok v => v
                   | Err _ => json_null
                   end /\
    (forall s, ev = Raised s None ->
               fst r = Return match jsonValueFromList NULL with
                              | Ok v => v
                              | Err _ => json_null
                              end).
Proof.
  intros r. subst r. unfold getCols. rewrite bind_run. unfold call_SEXP.
  destruct (R_eval _ _) as [ev s']. exists ev.
  destruct (call_outcome ev NULL) as [e cols] eqn:Hout. cbn [ret fst snd].
  repeat match goal with |- _ /\ _ => split end; try reflexivity.
  - now apply new_calls_snoc.
  - intros s ->. cbn [call_outcome default] in Hout. now injection Hout as _ <-.
Qed.
End Construction.

(** ** The run of a page request, block by block *)

Section PageRun.
Context {conv : SafeConvert} {rt : RRuntime} {hu : HttpUtil}.

Notation "'let!' x ':=' m 'in' k" := (bind m (fun x => k))
  (at level 10, x pattern, m at level 100, k at level 200).

Lemma ret_run {A} (a : A) w : ret a w = (Return a, w).
Proof. reflexivity. Qed.

Lemma after_calls_id w :
  after_calls w (s_cachedFrames w) (session w) [] (uninitialized_reads w) = w.
Proof. destruct w. unfold after_calls. simpl. now rewrite app_nil_r. Qed.

Lemma after_calls_twice w F s d n F' s' d' n' :
  after_calls (after_calls w F s d n) F' s' d' n' = after_calls w F' s' (d ++ d') n'.
Proof. unfold after_calls. simpl. now rewrite <- app_assoc. Qed.

Lemma call_SEXP_run fn value w :
  exists r s',
    call_SEXP fn value w =
    (Return (call_outcome r value),
     after_calls w (s_cachedFrames w) s' [(fn, r)] (uninitialized_reads w)).
Proof. unfold call_SEXP. destruct (R_eval fn (session w)) as [r s']. now exists r, s'. Qed.

Lemma call_int_run fn value w :
  exists e r s',
    call_int fn value w =
    (Return (e, int_result r value),
     after_calls w (s_cachedFrames w) s' [(fn, r)] (uninitialized_reads w)).
Proof.
  unfold call_int, call_as. destruct (R_eval fn (session w)) as [r s'].
  exists (match r with
          | Value v => match extract_int v with Ok _ => Success | Err s => Failure s end
          | Raised s _ => Failure s
          end), r, s'.
  unfold int_result.
  destruct r as [v|s st]; [destruct (extract_int v)|]; reflexivity.
Qed.

Lemma getData_dimensions_run d w :
  exists r1 r2 s',
    getData_dimensions d w =
    (Return (int_result r1 1, int_result r2 0),
     after_calls w (s_cachedFrames w) s' [(nrow_call d, r1); (ncol_call d, r2)]
                 (uninitialized_reads w)).
Proof.
  unfold getData_dimensions. rewrite bind_run.
  destruct (call_int_run (mkRFunction "nrow" [("", PSexp d)]) 1 w) as (e1 & r1 & s1 & ->).
  cbv beta iota. rewrite bind_run.
  match goal with
  | |- context [call_int ?f ?v ?w'] =>
      destruct (call_int_run f v w') as (e2 & r2 & s2 & ->)
  end.
  exists r1, r2, s2. cbn [ret]. now rewrite after_calls_twice.
Qed.

Lemma getData_workingView_run fields ncol cf d w :
  let needs := needs_transform (field_ordercol fields) (getData_filters fields ncol)
                               (field_search fields) in
  exists view dv nt ht s',
    getData_workingView (field_cacheKey fields) (field_search fields)
      (getData_filters fields ncol) (field_ordercol fields) (field_orderdir fields)
      cf d needs w
    = (Return (dv, nt, ht),
       after_calls w (s_cachedFrames w) s' view (uninitialized_reads w)) /\
    ((view = [] /\ dv = d /\ nt = needs /\ ht = false /\ (needs = false \/ cf = None)) \/
     (exists frame r,
         cf = Some frame /\ needs = true /\
         view = [(findWorkingData_call fields, r)] /\
         let wd := SEXP_result r NULL in
         let exact :=
           String.eqb (workingSearch frame) (field_search fields)
           && bool_decide (workingFilters frame = getData_filters fields ncol)
           && String.eqb (workingOrderDir frame) (field_orderdir fields)
           && Z.eqb (workingOrderCol frame) (field_ordercol fields) in
         ((is_null wd = false /\ exact = true /\ dv = wd /\ nt = false /\ ht = true) \/
          ((is_null wd = true \/ exact = false) /\
           nt = true /\ ht = false /\
           dv = if negb (is_null wd)
                   && isSupersetOf frame (field_search fields)
                                   (getData_filters fields ncol)
                then wd else d)))).
Proof.
  intros needs. unfold getData_workingView.
  destruct needs eqn:Hneeds.
  2:{ exists [], d, false, false, (session w). rewrite after_calls_id.
      split; [reflexivity|]. left. repeat split; auto. }
  destruct cf as [frame|].
  2:{ exists [], d, true, false, (session w). rewrite after_calls_id.
      split; [reflexivity|]. left. repeat split; auto. }
  rewrite bind_run.
  destruct (call_SEXP_run (mkRFunction ".rs.findWorkingData"
                             [("", PString (field_cacheKey fields))]) NULL w)
    as (r & s' & ->).
  cbv beta iota.
  destruct (call_outcome r NULL) as [e wd] eqn:Hout.
  assert (Hwd : SEXP_result r NULL = wd) by (unfold SEXP_result; now rewrite Hout).
  destruct (is_null wd) eqn:Hnull; cbn [negb].
  { eexists _, _, _, _, _. split; [reflexivity|]. right. exists frame, r.
    repeat split. cbv zeta. rewrite Hwd, Hnull. right. cbn [negb andb]. auto. }
  match goal with
  | |- context [if ?c then ret (wd, false, true) else _] => destruct c eqn:Hexact
  end.
  { eexists _, _, _, _, _. split; [reflexivity|]. right. exists frame, r.
    repeat split. cbv zeta. rewrite Hwd, Hnull. left. auto. }
  destruct (isSupersetOf frame _ _) eqn:Hsup.
  - eexists _, _, _, _, _. split; [reflexivity|]. right. exists frame, r.
    repeat split. cbv zeta. rewrite Hwd, Hnull, Hsup. right. cbn [negb andb]. auto.
  - eexists _, _, _, _, _. split; [reflexivity|]. right. exists frame, r.
    repeat split. cbv zeta. rewrite Hwd, Hnull, Hsup. right. cbn [negb andb]. auto.
Qed.

Lemma getData_applyTransform_run fields ncol cf x w :
  exists r s',
    let y := SEXP_result r x in
    (is_null y = true /\
     getData_applyTransform Success (field_cacheKey fields) (field_search fields)
       (getData_filters fields ncol) (field_ordercol fields) (field_orderdir fields)
       cf x w
     = (Throw "Failure to sort or filter data",
        after_calls w (s_cachedFrames w) s' [(applyTransform_call fields ncol x, r)]
                    (uninitialized_reads w))) \/
    (is_null y = false /\
     exists r' s'',
       getData_applyTransform Success (field_cacheKey fields) (field_search fields)
         (getData_filters fields ncol) (field_ordercol fields) (field_orderdir fields)
         cf x w
       = (Return y,
          after_calls w
            (match cf with
             | Some _ =>
                 alter (record_transform (field_search fields)
                          (getData_filters fields ncol) (field_ordercol fields)
                          (field_orderdir fields))
                       (field_cacheKey fields) (s_cachedFrames w)
             | None => s_cachedFrames w
             end)
            s'' [(applyTransform_call fields ncol x, r); (saveWorkingData_call fields y, r')]
            (uninitialized_reads w))).
Proof.
  unfold getData_applyTransform. rewrite bind_run.
  match goal with
  | |- context [call_SEXP ?f ?v ?w'] => destruct (call_SEXP_run f v w') as (r & s' & ->)
  end.
  exists r, s'. cbv zeta beta iota. unfold SEXP_result.
  destruct (call_outcome r x) as [e y]. cbn [snd isError].
  destruct (is_null y) eqn:Hnull.
  - left. split; [reflexivity|]. reflexivity.
  - right. split; [reflexivity|]. rewrite bind_run. unfold call. rewrite bind_run.
    match goal with
    | |- context [call_SEXP ?f ?v ?w'] => destruct (call_SEXP_run f v w') as (r' & s'' & ->)
    end.
    exists r', s''. cbn [ret]. rewrite after_calls_twice. rewrite bind_run.
    destruct cf as [frame|]; reflexivity.
Qed.

Lemma getData_formatColumns_step dd start len i cols fmt w :
  getData_formatColumns dd start len (i :: cols) fmt w =
  if is_null (VECTOR_ELT dd (Z.of_nat i))
  then (Throw ("No data in column " +:+ pretty i), w)
  else
    let fn := mkRFunction ".rs.formatDataColumn"
                [("", PSexp (VECTOR_ELT dd (Z.of_nat i))); ("", PInt start);
                 ("", PInt len)] in
    let '(r, s1) := R_eval fn (session w) in
    let w1 := after_calls w (s_cachedFrames w) s1 [(fn, r)] (S (uninitialized_reads w)) in
    match r with
    | Value v => getData_formatColumns dd start len cols (<[i := v]> fmt) w1
    | Raised s st => (Throw s, w1)
    end.
Proof.
  cbn [getData_formatColumns]. destruct (is_null _); [reflexivity|].
  rewrite bind_run. unfold declare_SEXP at 1. cbv beta iota. rewrite bind_run.
  unfold call_SEXP. cbn [session]. cbv zeta.
  destruct (R_eval _ (session w)) as [r s1]. cbv beta iota.
  destruct r as [v|s st]; reflexivity.
Qed.

Lemma getData_formatColumns_run dd fields F cols fmt w :
  exists fcalls s' n',
    Forall (fun c => exists i v,
                i ∈ cols /\
                c = (formatDataColumn_call fields F (VECTOR_ELT dd (Z.of_nat i)), Value v))
           fcalls /\
    ((exists fmt',
         getData_formatColumns dd (page_start fields) (page_length fields F) cols fmt w
         = (Return fmt', after_calls w (s_cachedFrames w) s' fcalls n') /\
         length fmt' = length fmt /\
         length fcalls = length cols /\
         Forall (fun i => is_null (VECTOR_ELT dd (Z.of_nat i)) = false) cols) \/
     (exists i,
         i ∈ cols /\ is_null (VECTOR_ELT dd (Z.of_nat i)) = true /\
         getData_formatColumns dd (page_start fields) (page_length fields F) cols fmt w
         = (Throw ("No data in column " +:+ pretty i),
            after_calls w (s_cachedFrames w) s' fcalls n')) \/
     (exists i s st,
         i ∈ cols /\
         getData_formatColumns dd (page_start fields) (page_length fields F) cols fmt w
         = (Throw s,
            after_calls w (s_cachedFrames w) s'
              (fcalls ++ [(formatDataColumn_call fields F (VECTOR_ELT dd (Z.of_nat i)),
                           Raised s st)]) n'))).
Proof.
  revert fmt w. induction cols as [|i cols IH]; intros fmt w.
  - exists [], (session w), (uninitialized_reads w). split; [constructor|].
    left. exists fmt. rewrite after_calls_id. repeat split. constructor.
  - pose proof (getData_formatColumns_step dd (page_start fields) (page_length fields F)
                  i cols fmt w) as Hstep.
    destruct (is_null (VECTOR_ELT dd (Z.of_nat i))) eqn:Hnull.
    { exists [], (session w), (uninitialized_reads w). split; [constructor|].
      right. left. exists i. rewrite after_calls_id. repeat split; auto.
      apply list_elem_of_here. }
    cbv zeta in Hstep.
    destruct (R_eval _ (session w)) as [r s1].
    destruct r as [v|s st].
    + match type of Hstep with
      | _ = getData_formatColumns _ _ _ cols ?f ?w1 =>
          destruct (IH f w1) as (fcalls & s' & n' & Hall & Hrun);
          assert (Hw1 : forall delta,
                     after_calls w1 (s_cachedFrames w1) s' delta n' =
                     after_calls w (s_cachedFrames w) s'
                       ((formatDataColumn_call fields F (VECTOR_ELT dd (Z.of_nat i)),
                         Value v) :: delta) n')
            by (intros delta; unfold after_calls; cbn; now rewrite <- app_assoc)
      end.
      exists ((formatDataColumn_call fields F (VECTOR_ELT dd (Z.of_nat i)), Value v) :: fcalls),
             s', n'.
      split.
      { constructor.
        - exists i, v. split; [apply list_elem_of_here|reflexivity].
        - eapply Forall_impl; [exact Hall|]. intros c (j & v' & Hj & ->).
          exists j, v'. split; [now apply list_elem_of_further|reflexivity]. }
      destruct Hrun as [(fmt' & Hr & Hlen & Hn & Hcols)
                       | [(j & Hj & Hjn & Hr) | (j & s & st & Hj & Hr)]].
      * rewrite Hw1 in Hr. left. exists fmt'. split; [now rewrite Hstep|]. split; [|split].
        -- now rewrite Hlen, length_insert.
        -- cbn [length]. now rewrite Hn.
        -- constructor; assumption.
      * rewrite Hw1 in Hr. right. left. exists j. split; [now apply list_elem_of_further|].
        split; [exact Hjn|now rewrite Hstep].
      * rewrite Hw1 in Hr. right. right. exists j, s, st.
        split; [now apply list_elem_of_further|]. now rewrite Hstep.
    + exists [], s1, (S (uninitialized_reads w)). split; [constructor|].
      right. right. exists i, s, st. split; [apply list_elem_of_here|].
      now rewrite Hstep.
Qed.

(** [getData], with its parts under their names. *)
Lemma getData_eq d fields :
  getData d fields =
  let! (nrow, ncol) := getData_dimensions d in
  let! cf := find_frame (field_cacheKey fields) in
  let! (dv, nt, ht) :=
    getData_workingView (field_cacheKey fields) (field_search fields)
      (getData_filters fields ncol) (field_ordercol fields) (field_orderdir fields) cf d
      (needs_transform (field_ordercol fields) (getData_filters fields ncol)
                       (field_search fields)) in
  let! dt :=
    (if nt
     then getData_applyTransform Success (field_cacheKey fields) (field_search fields)
            (getData_filters fields ncol) (field_ordercol fields)
            (field_orderdir fields) cf dv
     else ret dv) in
  let! F :=
    (if nt || ht
     then let! (_, n) := call_int (nrow_call dt) 0 in ret n
     else ret nrow) in
  let! formattedDataSEXP :=
    getData_formatColumns dt (page_start fields) (page_length fields F)
      (seq 0 (Z.to_nat (to_unsigned ncol))) (replicate (Z.to_nat ncol) R_NilValue) in
  let! rownamesSEXP0 := declare_SEXP in
  let! (_, rownamesSEXP) :=
    call_SEXP (formatRowNames_call fields F dt) rownamesSEXP0 in
  ret (page_json fields nrow F
         (map (getData_row rownamesSEXP formattedDataSEXP (page_start fields))
              (seqZ 0 (page_length fields F)))).
Proof. reflexivity. Qed.

(** The run of [getData] as a whole: the R calls it makes, in order, the
    registry it leaves, and what it returns or throws. *)
Lemma getData_run d fields w :
  exists r1 r2,
    let nrow := int_result r1 1 in
    let ncol := int_result r2 0 in
    let search := field_search fields in
    let filters := getData_filters fields ncol in
    let needs := needs_transform (field_ordercol fields) filters search in
    let cf := s_cachedFrames w !! field_cacheKey fields in
    let recorded :=
      alter (record_transform search filters (field_ordercol fields)
                              (field_orderdir fields))
            (field_cacheKey fields) (s_cachedFrames w) in
    let exact frame :=
      String.eqb (workingSearch frame) search
      && bool_decide (workingFilters frame = filters)
      && String.eqb (workingOrderDir frame) (field_orderdir fields)
      && Z.eqb (workingOrderCol frame) (field_ordercol fields) in
    fst (getData_dimensions d w) = Return (nrow, ncol) /\
    exists view tr cnt rest frames' dd F s' n' result,
      getData d fields w =
      (result,
       after_calls w frames' s'
         ([(nrow_call d, r1); (ncol_call d, r2)] ++ view ++ tr ++ cnt ++ rest) n') /\
      (* the policy *)
      ((needs = false /\ view = [] /\ tr = [] /\ cnt = [] /\ dd = d /\ F = nrow /\
        frames' = s_cachedFrames w) \/
       (needs = true /\
        exists frame r rc,
          cf = Some frame /\ view = [(findWorkingData_call fields, r)] /\
          is_null (SEXP_result r NULL) = false /\ exact frame = true /\
          tr = [] /\ dd = SEXP_result r NULL /\
          cnt = [(nrow_call dd, rc)] /\ F = int_result rc 0 /\
          frames' = s_cachedFrames w) \/
       (needs = true /\
        exists x rx,
          ((cf = None /\ view = [] /\ x = d) \/
           (exists frame r,
               cf = Some frame /\ view = [(findWorkingData_call fields, r)] /\
               (is_null (SEXP_result r NULL) = true \/ exact frame = false) /\
               x = if negb (is_null (SEXP_result r NULL))
                      && isSupersetOf frame search filters
                   then SEXP_result r NULL else d)) /\
          dd = SEXP_result rx x /\
          ((is_null dd = true /\ tr = [(applyTransform_call fields ncol x, rx)] /\
            cnt = [] /\ rest = [] /\ frames' = s_cachedFrames w /\
            result = Throw "Failure to sort or filter data") \/
           (is_null dd = false /\
            exists rs rc,
              tr = [(applyTransform_call fields ncol x, rx);
                    (saveWorkingData_call fields dd, rs)] /\
              cnt = [(nrow_call dd, rc)] /\ F = int_result rc 0 /\
              frames' = recorded)))) /\
      (* the page *)
      ((result = Throw "Failure to sort or filter data" /\ rest = [] /\
        exists x rx, tr = [(applyTransform_call fields ncol x, rx)] /\
                     is_null (SEXP_result rx x) = true) \/
       exists fcalls,
         Forall (fun c => exists i v,
                     (i < Z.to_nat (to_unsigned ncol))%nat /\
                     c = (formatDataColumn_call fields F (VECTOR_ELT dd (Z.of_nat i)),
                          Value v))
                fcalls /\
         ((exists fmt rr rn0,
              result =
              Return (page_json fields nrow F
                        (map (getData_row (SEXP_result rr rn0) fmt (page_start fields))
                             (seqZ 0 (page_length fields F)))) /\
              rest = fcalls ++ [(formatRowNames_call fields F dd, rr)] /\
              length fmt = Z.to_nat ncol /\
              length fcalls = Z.to_nat (to_unsigned ncol) /\
              forall i, (i < Z.to_nat (to_unsigned ncol))%nat ->
                        is_null (VECTOR_ELT dd (Z.of_nat i)) = false) \/
          (exists i,
              (i < Z.to_nat (to_unsigned ncol))%nat /\
              is_null (VECTOR_ELT dd (Z.of_nat i)) = true /\
              result = Throw ("No data in column " +:+ pretty i) /\
              rest = fcalls) \/
          (exists i s st,
              (i < Z.to_nat (to_unsigned ncol))%nat /\
              result = Throw s /\
              rest = fcalls ++ [(formatDataColumn_call fields F (VECTOR_ELT dd (Z.of_nat i)),
                                 Raised s st)]))).
Proof.
  destruct (getData_dimensions_run d w) as (r1 & r2 & s1 & Hdim).
  exists r1, r2. cbv zeta. split; [now rewrite Hdim|].
  set (nrow := int_result r1 1) in *. set (ncol := int_result r2 0) in *.
  set (w1 := after_calls w _ s1 _ _) in Hdim.
  (* the tail of the request, from the filtered row count on *)
  assert (Hpage : forall dd F w3,
    exists fcalls rest s' n' result,
      (let! formattedDataSEXP :=
         getData_formatColumns dd (page_start fields) (page_length fields F)
           (seq 0 (Z.to_nat (to_unsigned ncol))) (replicate (Z.to_nat ncol) R_NilValue) in
       let! rownamesSEXP0 := declare_SEXP in
       let! (_, rownamesSEXP) :=
         call_SEXP (formatRowNames_call fields F dd) rownamesSEXP0 in
       ret (page_json fields nrow F
              (map (getData_row rownamesSEXP formattedDataSEXP (page_start fields))
                   (seqZ 0 (page_length fields F))))) w3
      = (result, after_calls w3 (s_cachedFrames w3) s' rest n') /\
      Forall (fun c => exists i v,
                  (i < Z.to_nat (to_unsigned ncol))%nat /\
                  c = (formatDataColumn_call fields F (VECTOR_ELT dd (Z.of_nat i)),
                       Value v))
             fcalls /\
      ((exists fmt rr rn0,
           result =
           Return (page_json fields nrow F
                     (map (getData_row (SEXP_result rr rn0) fmt (page_start fields))
                          (seqZ 0 (page_length fields F)))) /\
           rest = fcalls ++ [(formatRowNames_call fields F dd, rr)] /\
           length fmt = Z.to_nat ncol /\
           length fcalls = Z.to_nat (to_unsigned ncol) /\
           forall i, (i < Z.to_nat (to_unsigned ncol))%nat ->
                     is_null (VECTOR_ELT dd (Z.of_nat i)) = false) \/
       (exists i,
           (i < Z.to_nat (to_unsigned ncol))%nat /\
           is_null (VECTOR_ELT dd (Z.of_nat i)) = true /\
           result = Throw ("No data in column " +:+ pretty i) /\
           rest = fcalls) \/
       (exists i s st,
           (i < Z.to_nat (to_unsigned ncol))%nat /\
           result = Throw s /\
           rest = fcalls ++ [(formatDataColumn_call fields F (VECTOR_ELT dd (Z.of_nat i)),
                              Raised s st)]))).
  { intros dd F w3. rewrite bind_run.
    destruct (getData_formatColumns_run dd fields F (seq 0 (Z.to_nat (to_unsigned ncol)))
                (replicate (Z.to_nat ncol) R_NilValue) w3)
      as (fcalls & s' & n' & Hall & Hrun).
    assert (Hall' : Forall (fun c => exists i v,
                                (i < Z.to_nat (to_unsigned ncol))%nat /\
                                c = (formatDataColumn_call fields F
                                       (VECTOR_ELT dd (Z.of_nat i)), Value v)) fcalls).
    { eapply Forall_impl; [exact Hall|]. intros c (i & v & Hi & ->).
      exists i, v. split; [|reflexivity]. apply elem_of_seq in Hi. lia. }
    exists fcalls.
    destruct Hrun as [(fmt' & -> & Hlen & Hn & Hcols)
                     | [(j & Hj & Hjn & ->) | (j & s & st & Hj & ->)]].
    - cbv beta iota. rewrite bind_run. unfold declare_SEXP at 1. cbv beta iota.
      rewrite bind_run.
      match goal with
      | |- context [call_SEXP ?f ?v ?w'] =>
          destruct (call_SEXP_run f v w') as (rr & s'' & ->); set (rn0 := v)
      end.
      cbv beta iota. 
      destruct (call_outcome rr rn0) as [e rn] eqn:Hout.
      assert (Hrn : SEXP_result rr rn0 = rn) by (unfold SEXP_result; now rewrite Hout).
      eexists (fcalls ++ [(formatRowNames_call fields F dd, rr)]), s'', _, _.
      split.
      { unfold ret. f_equal. unfold after_calls. cbn. now rewrite <- app_assoc. }
      split; [exact Hall'|]. left. exists fmt', rr, rn0.
      rewrite Hrn. split; [reflexivity|]. split; [reflexivity|].
      split; [now rewrite Hlen, length_replicate|].
      split; [now rewrite Hn, length_seq|].
      intros i Hi. rewrite Forall_forall in Hcols. apply Hcols.
      apply elem_of_seq. lia.
    - eexists fcalls, s', n', _. split; [reflexivity|]. split; [exact Hall'|].
      right. left. exists j. apply elem_of_seq in Hj.
      repeat split; auto. lia.
    - eexists _, s', n', _. split; [reflexivity|]. split; [exact Hall'|].
      right. right. exists j, s, st. apply elem_of_seq in Hj.
      repeat split; auto. lia. }
  rewrite getData_eq. rewrite bind_run, Hdim. cbv beta iota.
  rewrite bind_run. unfold find_frame at 1. cbv beta iota.
  replace (s_cachedFrames w1) with (s_cachedFrames w) by reflexivity.
  set (cf := s_cachedFrames w !! field_cacheKey fields).
  (* the tail of the request from the transform on *)
  assert (Htr : forall x w2,
    exists rx tr cnt rest frames' F s' n' result,
      (let! dt :=
         getData_applyTransform Success (field_cacheKey fields) (field_search fields)
           (getData_filters fields ncol) (field_ordercol fields)
           (field_orderdir fields) cf x in
       let! F := (let! (_, n) := call_int (nrow_call dt) 0 in ret n) in
       let! formattedDataSEXP :=
         getData_formatColumns dt (page_start fields) (page_length fields F)
           (seq 0 (Z.to_nat (to_unsigned ncol))) (replicate (Z.to_nat ncol) R_NilValue) in
       let! rownamesSEXP0 := declare_SEXP in
       let! (_, rownamesSEXP) :=
         call_SEXP (formatRowNames_call fields F dt) rownamesSEXP0 in
       ret (page_json fields nrow F
              (map (getData_row rownamesSEXP formattedDataSEXP (page_start fields))
                   (seqZ 0 (page_length fields F))))) w2
      = (result, after_calls w2 frames' s' (tr ++ cnt ++ rest) n') /\
      ((is_null (SEXP_result rx x) = true /\
        tr = [(applyTransform_call fields ncol x, rx)] /\
        cnt = [] /\ rest = [] /\ frames' = s_cachedFrames w2 /\
        result = Throw "Failure to sort or filter data") \/
       (is_null (SEXP_result rx x) = false /\
        (exists rs rc,
            tr = [(applyTransform_call fields ncol x, rx);
                  (saveWorkingData_call fields (SEXP_result rx x), rs)] /\
            cnt = [(nrow_call (SEXP_result rx x), rc)] /\ F = int_result rc 0 /\
            frames' =
            match cf with
            | Some _ =>
                alter (record_transform (field_search fields)
                         (getData_filters fields ncol) (field_ordercol fields)
                         (field_orderdir fields))
                      (field_cacheKey fields) (s_cachedFrames w2)
            | None => s_cachedFrames w2
            end) /\
        exists fcalls,
          Forall (fun c => exists i v,
                      (i < Z.to_nat (to_unsigned ncol))%nat /\
                      c = (formatDataColumn_call fields F
                             (VECTOR_ELT (SEXP_result rx x) (Z.of_nat i)), Value v))
                 fcalls /\
          ((exists fmt rr rn0,
               result =
               Return (page_json fields nrow F
                         (map (getData_row (SEXP_result rr rn0) fmt (page_start fields))
                              (seqZ 0 (page_length fields F)))) /\
               rest = fcalls ++ [(formatRowNames_call fields F (SEXP_result rx x), rr)] /\
               length fmt = Z.to_nat ncol /\
               length fcalls = Z.to_nat (to_unsigned ncol) /\
               forall i, (i < Z.to_nat (to_unsigned ncol))%nat ->
                         is_null (VECTOR_ELT (SEXP_result rx x) (Z.of_nat i)) = false) \/
           (exists i,
               (i < Z.to_nat (to_unsigned ncol))%nat /\
               is_null (VECTOR_ELT (SEXP_result rx x) (Z.of_nat i)) = true /\
               result = Throw ("No data in column " +:+ pretty i) /\
               rest = fcalls) \/
           (exists i s st,
               (i < Z.to_nat (to_unsigned ncol))%nat /\
               result = Throw s /\
               rest = fcalls ++
                      [(formatDataColumn_call fields F
                          (VECTOR_ELT (SEXP_result rx x) (Z.of_nat i)),
                        Raised s st)]))))).
  { intros x w2. rewrite bind_run.
    destruct (getData_applyTransform_run fields ncol cf x w2) as (rx & s' & Hrun).
    cbv zeta in Hrun. exists rx.
    destruct Hrun as [(Hnull & ->) | (Hnull & rs & s'' & ->)].
    - exists [(applyTransform_call fields ncol x, rx)], [], [], (s_cachedFrames w2), 0,
             s', (uninitialized_reads w2), (Throw "Failure to sort or filter data").
      split.
      { rewrite !app_nil_r. reflexivity. }
      left. repeat split; auto.
    - cbv beta iota. rewrite bind_run, bind_run.
      match goal with
      | |- context [call_int ?f ?v ?w'] =>
          destruct (call_int_run f v w') as (e & rc & s3 & ->)
      end.
      cbv beta iota. rewrite ret_run. cbv beta iota. rewrite after_calls_twice.
      match goal with
      | |- context [after_calls w2 ?fr s3 ?dl ?n] =>
          destruct (Hpage (SEXP_result rx x) (int_result rc 0) (after_calls w2 fr s3 dl n))
            as (fcalls & rest & s4 & n4 & result & -> & Hall & Hres)
      end.
      rewrite after_calls_twice. cbn [s_cachedFrames after_calls].
      exists [(applyTransform_call fields ncol x, rx);
              (saveWorkingData_call fields (SEXP_result rx x), rs)],
             [(nrow_call (SEXP_result rx x), rc)], rest,
             (match cf with
              | Some _ =>
                  alter (record_transform (field_search fields)
                           (getData_filters fields ncol) (field_ordercol fields)
                           (field_orderdir fields))
                        (field_cacheKey fields) (s_cachedFrames w2)
              | None => s_cachedFrames w2
              end), (int_result rc 0), s4, n4, result.
      split.
      { rewrite <- !app_assoc. reflexivity. }
      right. split; [exact Hnull|]. split.
      { exists rs, rc. repeat split. }
      exists fcalls. split; [exact Hall|exact Hres]. }
  rewrite bind_run.
  destruct (getData_workingView_run fields ncol cf d w1)
    as (view & dv & nt & ht & s2 & Hview & Hcases).
  cbv zeta in Hview, Hcases. rewrite Hview. cbv beta iota.
  subst w1. rewrite after_calls_twice. cbn [s_cachedFrames after_calls uninitialized_reads].
  fold (after_calls w (s_cachedFrames w) s2
          ([(nrow_call d, r1); (ncol_call d, r2)] ++ view) (uninitialized_reads w)).
  set (w2 := after_calls w (s_cachedFrames w) s2 _ _).
  assert (Hw2 : forall fr s' delta n',
             after_calls w2 fr s' delta n' =
             after_calls w fr s' ([(nrow_call d, r1); (ncol_call d, r2)] ++ view ++ delta) n').
  { intros. subst w2. rewrite after_calls_twice. now rewrite <- app_assoc. }
  destruct Hcases as [(-> & -> & -> & -> & Hplain)
                     | (frame & r & Hcf & Hneeds & -> & Hsub)].
  - destruct (needs_transform _ _ _) eqn:Hneeds.
    + (* no frame: transform the data as it is *)
      destruct Hplain as [Hplain|Hcf]; [discriminate|].
      cbn [orb]. cbv iota.
      destruct (Htr d w2) as (rx & tr & cnt & rest & frames' & F & s' & n' & result & -> & Hc).
      rewrite Hw2.
      exists [], tr, cnt, rest, frames', (SEXP_result rx d), F, s', n', result.
      split; [reflexivity|].
      destruct Hc as [(Hnull & -> & -> & -> & -> & ->)
                     | (Hnull & (rs & rc & -> & -> & -> & ->) & fcalls & Hall & Hres)].
      * split.
        -- right. right. split; [reflexivity|]. exists d, rx.
           split; [left; auto|]. split; [reflexivity|]. left. repeat split; auto.
        -- left. repeat split. exists d, rx. auto.
      * split.
        -- right. right. split; [reflexivity|]. exists d, rx.
           split; [left; auto|]. split; [reflexivity|]. right.
           split; [exact Hnull|]. exists rs, rc. repeat split.
           rewrite Hcf. subst w2. cbn [s_cachedFrames after_calls].
           symmetry. apply map_eq. intros k.
           destruct (decide (field_cacheKey fields = k)) as [<-|Hk].
           ++ rewrite lookup_alter_eq. fold cf. now rewrite Hcf.
           ++ now rewrite lookup_alter_ne.
        -- right. exists fcalls. auto.
    + (* a plain request *)
      cbn [orb]. cbv iota. rewrite bind_run, ret_run. cbv beta iota.
      rewrite bind_run, ret_run. cbv beta iota.
      destruct (Hpage d nrow w2) as (fcalls & rest & s' & n' & result & -> & Hall & Hres).
      rewrite Hw2.
      exists [], [], [], rest, (s_cachedFrames w), d, nrow, s', n', result.
      split; [reflexivity|]. split.
      * left. repeat split.
      * right. exists fcalls. auto.
  - destruct Hsub as [(Hnull & Hexact & -> & -> & ->) | (Hwhy & -> & -> & ->)].
    + (* the working data reused as it is *)
      cbn [orb]. cbv iota. rewrite bind_run, ret_run. cbv beta iota.
      rewrite bind_run, bind_run.
      match goal with
      | |- context [call_int ?f ?v ?w'] =>
          destruct (call_int_run f v w') as (e & rc & s3 & ->)
      end.
      cbv beta iota. rewrite ret_run. cbv beta iota.
      match goal with
      | |- context [after_calls w2 ?fr s3 ?dl ?n] =>
          destruct (Hpage (SEXP_result r NULL) (int_result rc 0)
                          (after_calls w2 fr s3 dl n))
            as (fcalls & rest & s4 & n4 & result & -> & Hall & Hres)
      end.
      rewrite after_calls_twice, Hw2. cbn [s_cachedFrames after_calls].
      exists [(findWorkingData_call fields, r)], [],
             [(nrow_call (SEXP_result r NULL), rc)], rest, (s_cachedFrames w),
             (SEXP_result r NULL), (int_result rc 0), s4, n4, result.
      split; [subst w2; reflexivity|]. split.
      * right. left. split; [exact Hneeds|]. exists frame, r, rc. repeat split; auto.
      * right. exists fcalls. auto.
    + (* a transform, of the working data or of the data as it is *)
      cbn [orb]. cbv iota.
      match goal with
      | |- context [getData_applyTransform _ _ _ _ _ _ _ ?x] =>
          destruct (Htr x w2)
            as (rx & tr & cnt & rest & frames' & F & s' & n' & result & -> & Hc);
            set (x0 := x) in *
      end.
      rewrite Hw2.
      exists [(findWorkingData_call fields, r)], tr, cnt, rest, frames',
             (SEXP_result rx x0), F, s', n', result.
      split; [reflexivity|].
      destruct Hc as [(Hnull & -> & -> & -> & -> & ->)
                     | (Hnull & (rs & rc & -> & -> & -> & ->) & fcalls & Hall & Hres)].
      * split.
        -- right. right. split; [exact Hneeds|]. exists x0, rx.
           split; [right; exists frame, r; auto|]. split; [reflexivity|].
           left. repeat split; auto.
        -- left. repeat split. exists x0, rx. auto.
      * split.
        -- right. right. split; [exact Hneeds|]. exists x0, rx.
           split; [right; exists frame, r; auto|]. split; [reflexivity|]. right.
           split; [exact Hnull|]. exists rs, rc. repeat split.
           now rewrite Hcf.
        -- right. exists fcalls. auto.
Qed.
End PageRun.

(** ** What a page request asks of R, records and answers *)

Section PageTheorems.
Context {conv : SafeConvert} {rt : RRuntime} {hu : HttpUtil}.

Lemma new_calls_after w F s delta n :
  new_calls w (after_calls w F s delta n) = delta.
Proof. unfold new_calls, after_calls. cbn. now rewrite drop_app_length. Qed.

(** X6.  The R calls of a page request, in order: [nrow] and [ncol] of the
    data; at most one [.rs.findWorkingData] for the cache key; then no
    transform, or one [.rs.applyTransform], followed by
    [.rs.saveWorkingData] of its result under the cache key exactly when
    that result is not null; at most one [nrow] of the data paged through;
    the [.rs.formatDataColumn] calls of its columns; and at most one
    [.rs.formatRowNames].  The transform is called with the filters, the
    search, the order column and the order direction of the request, on
    the data as given or, only when the frame of the cache key records a
    superset of the request and R holds working data for the key, on that
    working data. *)
Theorem getData_call_sequence d fields w :
  exists r1 r2 view tr cnt fcalls tail dd F,
    let ncol := int_result r2 0 in
    let search := field_search fields in
    let filters := getData_filters fields ncol in
    new_calls w (snd (getData d fields w)) =
    [(nrow_call d, r1); (ncol_call d, r2)] ++ view ++ tr ++ cnt ++ fcalls ++ tail /\
    fst (getData_dimensions d w) = Return (int_result r1 1, ncol) /\
    (view = [] \/ exists r, view = [(findWorkingData_call fields, r)]) /\
    (tr = [] \/
     exists x rx,
       ((tr = [(applyTransform_call fields ncol x, rx)] /\
         is_null (SEXP_result rx x) = true) \/
        (exists rs,
            tr = [(applyTransform_call fields ncol x, rx);
                  (saveWorkingData_call fields (SEXP_result rx x), rs)] /\
            is_null (SEXP_result rx x) = false)) /\
       (x = d \/
        exists frame r,
          s_cachedFrames w !! field_cacheKey fields = Some frame /\
          view = [(findWorkingData_call fields, r)] /\
          x = SEXP_result r NULL /\ is_null x = false /\
          isSupersetOf frame search filters = true)) /\
    (cnt = [] \/ exists rc, cnt = [(nrow_call dd, rc)]) /\
    Forall (fun c => exists i r,
                c = (formatDataColumn_call fields F (VECTOR_ELT dd (Z.of_nat i)), r))
           fcalls /\
    (tail = [] \/ exists rr, tail = [(formatRowNames_call fields F dd, rr)]).
Proof.
  destruct (getData_run d fields w) as (r1 & r2 & Hdim & Hrun). cbv zeta in Hdim, Hrun.
  destruct Hrun as (view & tr & cnt & rest & frames' & dd & F & s' & n' & result
                    & Hget & Hpolicy & Hpage).
  assert (Hrest : exists fcalls tail,
             rest = fcalls ++ tail /\
             Forall (fun c => exists i r,
                         c = (formatDataColumn_call fields F (VECTOR_ELT dd (Z.of_nat i)), r))
                    fcalls /\
             (tail = [] \/ exists rr, tail = [(formatRowNames_call fields F dd, rr)])).
  { destruct Hpage as [(_ & -> & _) | (fcalls & Hall & Hres)].
    { exists [], []. repeat split; auto. }
    assert (Hall' : Forall (fun c => exists i r,
                                c = (formatDataColumn_call fields F
                                       (VECTOR_ELT dd (Z.of_nat i)), r)) fcalls).
    { eapply Forall_impl; [exact Hall|]. intros c (i & v & _ & ->). eauto. }
    destruct Hres as [(fmt & rr & rn0 & _ & -> & _)
                     | [(i & _ & _ & _ & ->) | (i & s & st & _ & _ & ->)]].
    - exists fcalls, [(formatRowNames_call fields F dd, rr)]. repeat split; eauto.
    - exists fcalls, []. rewrite app_nil_r. repeat split; auto.
    - eexists (fcalls ++ [_]), []. rewrite app_nil_r. split; [reflexivity|].
      split; [|now left]. apply Forall_app. split; [exact Hall'|].
      constructor; [|constructor]. eauto. }
  destruct Hrest as (fcalls & tail & -> & Hf & Htail).
  exists r1, r2, view, tr, cnt, fcalls, tail, dd, F. cbv zeta.
  rewrite Hget. cbn [snd]. rewrite new_calls_after.
  split; [reflexivity|]. split; [exact Hdim|].
  destruct Hpolicy as [(_ & -> & -> & -> & _)
                      | [(_ & frame & r & rc & _ & -> & _ & _ & -> & -> & -> & _)
                        | (_ & x & rx & Hsrc & -> & Htr)]].
  - repeat split; auto.
  - repeat split; eauto.
  - assert (Hx : x = d \/
                 exists frame r,
                   s_cachedFrames w !! field_cacheKey fields = Some frame /\
                   view = [(findWorkingData_call fields, r)] /\
                   x = SEXP_result r NULL /\ is_null x = false /\
                   isSupersetOf frame (field_search fields)
                                (getData_filters fields (int_result r2 0)) = true).
    { destruct Hsrc as [(_ & _ & ->) | (frame & r & Hcf & -> & _ & Hx)]; [now left|].
      destruct (is_null (SEXP_result r NULL)) eqn:Hnull; cbn [negb andb] in Hx;
        [now left|].
      destruct (isSupersetOf frame _ _) eqn:Hsup; [|now left].
      right. exists frame, r. subst x. repeat split; auto. }
    assert (Hview : view = [] \/ exists r, view = [(findWorkingData_call fields, r)]).
    { destruct Hsrc as [(_ & -> & _) | (frame & r & _ & -> & _)]; eauto. }
    destruct Htr as [(Hnull & -> & -> & _) | (Hnull & rs & rc & -> & -> & _)].
    + split; [exact Hview|]. split; [|repeat split; auto].
      right. exists x, rx. split; [left; auto|exact Hx].
    + split; [exact Hview|]. split; [|repeat split; eauto].
      right. exists x, rx. split; [right; eauto|exact Hx].
Qed.

(** The calls of the page of a request are those that format a column or
    the row names. *)
Lemma page_calls_named fields F dd ncol fcalls rest :
  Forall (fun c => exists i v,
              (i < Z.to_nat (to_unsigned ncol))%nat /\
              c = (formatDataColumn_call fields F (VECTOR_ELT dd (Z.of_nat i)), Value v))
         fcalls ->
  (rest = fcalls \/
   (exists rr, rest = fcalls ++ [(formatRowNames_call fields F dd, rr)]) \/
   (exists i s st,
       rest = fcalls ++ [(formatDataColumn_call fields F (VECTOR_ELT dd (Z.of_nat i)),
                          Raised s st)])) ->
  Forall (fun c => called ".rs.formatDataColumn" c \/ called ".rs.formatRowNames" c) rest.
Proof.
  intros Hall Hrest.
  assert (Hf : Forall (fun c => called ".rs.formatDataColumn" c \/
                                called ".rs.formatRowNames" c) fcalls).
  { eapply Forall_impl; [exact Hall|]. intros c (i & v & _ & ->). now left. }
  destruct Hrest as [-> | [(rr & ->) | (i & s & st & ->)]]; [exact Hf| |];
    (apply Forall_app; split; [exact Hf|]); (constructor; [|constructor]);
    [now right|now left].
Qed.

(** X7.  What a page request leaves behind.  It emits no client event and
    logs no error.  It changes the registry in one way only: when it saves
    a transform, which it does exactly when its [.rs.applyTransform] call
    comes to a value that is not null, the frame under its cache key, if
    there is one, records the search, filters, order column and order
    direction of the request, its source unchanged; every other frame, and
    the whole registry when no transform is saved, stays as it was. *)
Theorem getData_records_transform d fields w :
  exists nrow ncol,
    fst (getData_dimensions d w) = Return (nrow, ncol) /\
    let w' := snd (getData d fields w) in
    let saved := exists c, c ∈ new_calls w w' /\ called ".rs.saveWorkingData" c in
    clientEvents w' = clientEvents w /\
    errorLog w' = errorLog w /\
    (saved ->
     s_cachedFrames w' =
     alter (record_transform (field_search fields) (getData_filters fields ncol)
                             (field_ordercol fields) (field_orderdir fields))
           (field_cacheKey fields) (s_cachedFrames w)) /\
    (~ saved -> s_cachedFrames w' = s_cachedFrames w) /\
    (saved <->
     exists x r, (applyTransform_call fields ncol x, r) ∈ new_calls w w' /\
                 is_null (SEXP_result r x) = false).
Proof.
  destruct (getData_run d fields w) as (r1 & r2 & Hdim & Hrun). cbv zeta in Hdim, Hrun.
  destruct Hrun as (view & tr & cnt & rest & frames' & dd & F & s' & n' & result
                    & Hget & Hpolicy & Hpage).
  exists (int_result r1 1), (int_result r2 0). split; [exact Hdim|]. cbv zeta.
  rewrite Hget. cbn [snd]. rewrite new_calls_after.
  split; [reflexivity|]. split; [reflexivity|].
  change (s_cachedFrames (after_calls w frames' s' _ n')) with frames'.
  (* the calls of the page name neither function *)
  assert (Hrest : Forall (fun c => called ".rs.formatDataColumn" c \/
                                   called ".rs.formatRowNames" c) rest).
  { destruct Hpage as [(_ & -> & _) | (fcalls & Hall & Hres)]; [constructor|].
    eapply page_calls_named; [exact Hall|].
    destruct Hres as [(fmt & rr & rn0 & _ & -> & _)
                     | [(i & _ & _ & _ & ->) | (i & s & st & _ & _ & ->)]]; eauto 10. }
  assert (Hrest_other : forall c name,
             c ∈ rest -> called name c ->
             name = ".rs.formatDataColumn" \/ name = ".rs.formatRowNames").
  { intros c name Hin Hc. rewrite Forall_forall in Hrest.
    unfold called in *. destruct (Hrest c Hin) as [H|H]; rewrite H in Hc; auto. }
  (* whether the transform was saved, by the path taken *)
  assert (Hpath :
            ((forall c, c ∈ [(nrow_call d, r1); (ncol_call d, r2)] ++ view ++ tr ++ cnt ++ rest ->
                        ~ called ".rs.saveWorkingData" c) /\
             (forall x r,
                 (applyTransform_call fields (int_result r2 0) x, r)
                   ∈ [(nrow_call d, r1); (ncol_call d, r2)] ++ view ++ tr ++ cnt ++ rest ->
                 is_null (SEXP_result r x) = true) /\
             frames' = s_cachedFrames w) \/
            ((exists c, c ∈ tr /\ called ".rs.saveWorkingData" c) /\
             (exists x r, (applyTransform_call fields (int_result r2 0) x, r) ∈ tr /\
                          is_null (SEXP_result r x) = false) /\
             frames' =
             alter (record_transform (field_search fields)
                      (getData_filters fields (int_result r2 0))
                      (field_ordercol fields) (field_orderdir fields))
                   (field_cacheKey fields) (s_cachedFrames w))).
  { destruct Hpolicy as [(_ & -> & -> & -> & _ & _ & ->)
                        | [(_ & frame & r & rc & _ & -> & _ & _ & -> & -> & -> & _ & ->)
                          | (_ & x & rx & Hsrc & -> & Htr)]].
    - left. split; [|split; [|reflexivity]].
      + intros c Hin Hc. cbn [app] in Hin.
        rewrite !elem_of_cons in Hin.
        destruct Hin as [-> | [-> | Hin]]; try discriminate Hc.
        destruct (Hrest_other _ _ Hin Hc); discriminate.
      + intros x r Hin. cbn [app] in Hin. rewrite !elem_of_cons in Hin.
        destruct Hin as [Hin | [Hin | Hin]]; try discriminate Hin.
        destruct (Hrest_other _ ".rs.applyTransform" Hin eq_refl); discriminate.
    - left. split; [|split; [|reflexivity]].
      + intros c Hin Hc. cbn [app] in Hin.
        rewrite !elem_of_cons in Hin.
        destruct Hin as [-> | [-> | [-> | [-> | Hin]]]]; try discriminate Hc.
        destruct (Hrest_other _ _ Hin Hc); discriminate.
      + intros x r' Hin. cbn [app] in Hin. rewrite !elem_of_cons in Hin.
        destruct Hin as [Hin | [Hin | [Hin | [Hin | Hin]]]]; try discriminate Hin.
        destruct (Hrest_other _ ".rs.applyTransform" Hin eq_refl); discriminate.
    - assert (Hview : forall c, c ∈ view -> called ".rs.findWorkingData" c).
      { destruct Hsrc as [(_ & -> & _) | (frame & r & _ & -> & _)]; intros c Hin.
        - now apply elem_of_nil in Hin.
        - apply list_elem_of_singleton in Hin. now subst c. }
      destruct Htr as [(Hnull & -> & -> & _ & -> & _) | (Hnull & rs & rc & -> & -> & _ & ->)].
      + left. split; [|split; [|reflexivity]].
        * intros c Hin Hc. rewrite !elem_of_app, !elem_of_cons in Hin.
          destruct Hin as [[-> | [-> | Hin]] | [Hin | [[-> | Hin] | [Hin | Hin]]]];
            try discriminate Hc; try (now apply elem_of_nil in Hin).
          -- apply Hview in Hin. unfold called in *. rewrite Hin in Hc. discriminate.
          -- destruct (Hrest_other _ _ Hin Hc); discriminate.
        * intros x' r' Hin. rewrite !elem_of_app, !elem_of_cons in Hin.
          destruct Hin as [[Hin | [Hin | Hin]] | [Hin | [[Hin | Hin] | [Hin | Hin]]]];
            try discriminate Hin; try (now apply elem_of_nil in Hin).
          -- apply Hview in Hin. discriminate Hin.
          -- injection Hin as -> ->. exact Hnull.
          -- destruct (Hrest_other _ ".rs.applyTransform" Hin eq_refl); discriminate.
      + right. split; [|split; [|reflexivity]].
        * eexists. split; [apply list_elem_of_further, list_elem_of_here|reflexivity].
        * exists x, rx. split; [apply list_elem_of_here|exact Hnull]. }
  destruct Hpath as [(Hnone & Hnull & ->) | ((c & Hc & Hsave) & (x & r & Hx & Hnull) & ->)].
  - split; [|split; [reflexivity|]].
    + intros (c & Hin & Hc). destruct (Hnone c Hin Hc).
    + split.
      * intros (c & Hin & Hc). destruct (Hnone c Hin Hc).
      * intros (x & r & Hin & Hn). rewrite (Hnull x r Hin) in Hn. discriminate.
  - assert (Hsaved : exists c,
               c ∈ [(nrow_call d, r1); (ncol_call d, r2)] ++ view ++ tr ++ cnt ++ rest /\
               called ".rs.saveWorkingData" c).
    { exists c. split; [|exact Hsave]. rewrite !elem_of_app. auto. }
    split; [reflexivity|]. split; [intros Hn; contradiction|].
    split; [|intros _; exact Hsaved].
    intros _. exists x, r. split; [|exact Hnull]. rewrite !elem_of_app. auto.
Qed.

(** X8.  The ways in which a page request fails.  When [getData] throws,
    its message is "Failure to sort or filter data" and the last R call
    made is the transform, which came to a null value; or it is "No data
    in column i" for a column index [i] below the column count; or it is
    the summary of the error that the last R call made, one that formats a
    column, has raised.  Nothing is asked of R after the failure. *)
Theorem getData_failures d fields w message :
  fst (getData d fields w) = Throw message ->
  exists nrow ncol,
    fst (getData_dimensions d w) = Return (nrow, ncol) /\
    ((message = "Failure to sort or filter data" /\
      exists x r,
        last (new_calls w (snd (getData d fields w)))
        = Some (applyTransform_call fields ncol x, r) /\
        is_null (SEXP_result r x) = true) \/
     (exists i,
         message = "No data in column " +:+ pretty i /\
         (i < Z.to_nat (to_unsigned ncol))%nat) \/
     (exists F column stored,
         last (new_calls w (snd (getData d fields w)))
         = Some (formatDataColumn_call fields F column, Raised message stored))).
Proof.
  intros Hthrow.
  destruct (getData_run d fields w) as (r1 & r2 & Hdim & Hrun). cbv zeta in Hdim, Hrun.
  destruct Hrun as (view & tr & cnt & rest & frames' & dd & F & s' & n' & result
                    & Hget & Hpolicy & Hpage).
  exists (int_result r1 1), (int_result r2 0). split; [exact Hdim|].
  rewrite Hget in Hthrow |- *. cbn [fst snd] in Hthrow |- *. subst result.
  rewrite new_calls_after.
  destruct Hpage as [([= ->] & -> & x & rx & -> & Hnull) | (fcalls & Hall & Hres)].
  - left. split; [reflexivity|]. exists x, rx. split; [|exact Hnull].
    assert (Hcnt : cnt = []).
    { destruct Hpolicy as [(_ & _ & Htr & _)
                          | [(_ & frame & r & rc & _ & _ & _ & _ & Htr & _)
                            | (_ & x' & rx' & _ & _ & [(_ & _ & Hc & _) | (_ & rs & rc & Htr & _)])]];
        try discriminate Htr. exact Hc. }
    subst cnt. rewrite !app_nil_r.
    rewrite app_assoc. apply last_snoc.
  - destruct Hres as [(fmt & rr & rn0 & Hr & _)
                     | [(i & Hi & _ & [= ->] & _) | (i & s & st & Hi & [= ->] & ->)]].
    + discriminate Hr.
    + right. left. exists i. split; [reflexivity|exact Hi].
    + right. right. exists F, (VECTOR_ELT dd (Z.of_nat i)), st.
      rewrite !app_assoc. apply last_snoc.
Qed.

(** X9.  A page request without order, filter and search bypasses the
    transform altogether, whatever the registry and R hold for its cache
    key: the registry is left as it was; after [nrow] and [ncol] the only R
    calls format the columns and the row names of the data as given, for a
    page cut to its raw row count; and [recordsFiltered] is
    [recordsTotal], that raw row count. *)
Theorem getData_plain_request d fields w nrow ncol :
  fst (getData_dimensions d w) = Return (nrow, ncol) ->
  needs_transform (field_ordercol fields) (getData_filters fields ncol)
                  (field_search fields) = false ->
  let w' := snd (getData d fields w) in
  s_cachedFrames w' = s_cachedFrames w /\
  (exists r1 r2 fcalls tail,
      new_calls w w' = [(nrow_call d, r1); (ncol_call d, r2)] ++ fcalls ++ tail /\
      Forall (fun c => exists i r,
                  c = (formatDataColumn_call fields nrow (VECTOR_ELT d (Z.of_nat i)), r))
             fcalls /\
      (tail = [] \/ exists rr, tail = [(formatRowNames_call fields nrow d, rr)])) /\
  (forall json,
      fst (getData d fields w) = Return json ->
      json_member "recordsTotal" json = Some (json_int nrow) /\
      json_member "recordsFiltered" json = Some (json_int nrow)).
Proof.
  intros Hd Hneeds.
  destruct (getData_run d fields w) as (r1 & r2 & Hdim & Hrun). cbv zeta in Hdim, Hrun.
  rewrite Hd in Hdim. injection Hdim as Hnrow Hncol.
  rewrite <- Hnrow, <- Hncol in Hrun. clear Hnrow Hncol.
  destruct Hrun as (view & tr & cnt & rest & frames' & dd & F & s' & n' & result
                    & Hget & Hpolicy & Hpage).
  rewrite Hneeds in Hpolicy.
  destruct Hpolicy as [(_ & -> & -> & -> & -> & -> & ->) | [(Hn & _) | (Hn & _)]];
    try discriminate Hn.
  cbv zeta. rewrite Hget. cbn [fst snd]. rewrite new_calls_after.
  split; [reflexivity|].
  destruct Hpage as [(_ & _ & x & rx & Htr & _) | (fcalls & Hall & Hres)];
    [discriminate Htr|].
  assert (Hall' : forall q, Forall (fun c => exists i r,
                                c = (formatDataColumn_call fields nrow
                                       (VECTOR_ELT d (Z.of_nat i)), r)) (fcalls ++ q) <->
                            Forall (fun c => exists i r,
                                c = (formatDataColumn_call fields nrow
                                       (VECTOR_ELT d (Z.of_nat i)), r)) q).
  { intros q. rewrite Forall_app. split; [tauto|]. intros Hq. split; [|exact Hq].
    eapply Forall_impl; [exact Hall|]. intros c (i & v & _ & ->). eauto. }
  destruct Hres as [(fmt & rr & rn0 & -> & -> & _)
                   | [(i & _ & _ & -> & ->) | (i & s & st & _ & -> & ->)]].
  - split.
    + exists r1, r2, fcalls, [(formatRowNames_call fields nrow d, rr)].
      split; [reflexivity|]. split; [|eauto].
      rewrite <- (app_nil_r fcalls). apply Hall'. constructor.
    + intros json [= <-]. split; reflexivity.
  - split.
    + exists r1, r2, fcalls, []. rewrite app_nil_r. split; [reflexivity|].
      split; [|now left]. rewrite <- (app_nil_r fcalls). apply Hall'. constructor.
    + intros json Hj. discriminate Hj.
  - split.
    + eexists r1, r2, (fcalls ++ [_]), []. rewrite app_nil_r. split; [reflexivity|].
      split; [|now left]. apply Hall'. constructor; [eauto|constructor].
    + intros json Hj. discriminate Hj.
Qed.

(** X10.  The shape of the response of a page request: an object with
    the members [draw], the value the request sent, [recordsTotal], the
    row count of the data as given, [recordsFiltered] and [data].  Every
    row of [data] is an array of a label followed by one string per column
    of the data as given; the label is a string, the row name, or else the
    one-based number of the row in the filtered rows. *)
Theorem getData_response_shape d fields w json :
  fst (getData d fields w) = Return json ->
  exists nrow ncol F rows,
    fst (getData_dimensions d w) = Return (nrow, ncol) /\
    json = page_json fields nrow F rows /\
    forall k row,
      rows !! k = Some row ->
      exists label cells,
        row = json_array (label :: cells) /\
        length cells = Z.to_nat ncol /\
        Forall (fun cell => exists s, cell = json_str s) cells /\
        ((exists s, label = json_str s) \/
         label = json_int (int_add (Z.of_nat k) (page_start fields))).
Proof.
  intros Hjson.
  destruct (getData_run d fields w) as (r1 & r2 & Hdim & Hrun). cbv zeta in Hdim, Hrun.
  destruct Hrun as (view & tr & cnt & rest & frames' & dd & F & s' & n' & result
                    & Hget & _ & Hpage).
  rewrite Hget in Hjson. cbn [fst] in Hjson. subst result.
  destruct Hpage as [(Hr & _) | (fcalls & Hall & Hres)]; [discriminate Hr|].
  destruct Hres as [(fmt & rr & rn0 & [= ->] & _ & Hlen & _)
                   | [(i & _ & _ & Hr & _) | (i & s & st & _ & Hr & _)]];
    try discriminate Hr.
  exists (int_result r1 1), (int_result r2 0), F.
  eexists. split; [exact Hdim|]. split; [reflexivity|].
  intros k row Hrow. rewrite list_lookup_fmap in Hrow.
  destruct (seqZ 0 (page_length fields F) !! k) as [z|] eqn:Hz; [|discriminate Hrow].
  injection Hrow as <-.
  apply lookup_seqZ in Hz as [-> _]. rewrite Z.add_0_l.
  unfold getData_row. eexists _, _. split; [reflexivity|].
  split; [now rewrite length_map|]. split.
  - apply Forall_forall. intros cell Hcell. apply list_elem_of_fmap in Hcell
      as (col & -> & _).
    destruct (negb (is_null col)); [|eauto].
    destruct (_ && _); eauto.
  - destruct (negb (is_null _)); [|now right].
    destruct (_ && _); [left; eauto|now right].
Qed.
End PageTheorems.

(** Witness of X8: in the miniature session, a request whose calls to
    format a column raise. *)
Lemma getData_failures_witness :
  let fields := @parseQueryString Mini.http "obj=cars&cache_key=k1&start=0&length=2" in
  let w := Mini.world ∅ (Mini.mkState [("cars", Mini.cars)] [] [] Mini.mNil
                                      [".rs.formatDataColumn"]) in
  exists nrow ncol,
    fst (@getData_dimensions Mini.runtime Mini.cars w) = Return (nrow, ncol) /\
    (("Error in .rs.formatDataColumn" = "Failure to sort or filter data" /\
      exists x r,
        last (@new_calls Mini.runtime w
                (snd (@getData Decimal.convert Mini.runtime Mini.http Mini.cars fields w)))
        = Some (@applyTransform_call Mini.runtime Mini.http fields ncol x, r) /\
        @is_null Mini.runtime (@SEXP_result Mini.runtime r x) = true) \/
     (exists i,
         "Error in .rs.formatDataColumn" = "No data in column " +:+ pretty i /\
         (i < Z.to_nat (to_unsigned ncol))%nat) \/
     (exists F column stored,
         last (@new_calls Mini.runtime w
                 (snd (@getData Decimal.convert Mini.runtime Mini.http Mini.cars fields w)))
         = Some (@formatDataColumn_call Mini.runtime Mini.http fields F column,
                 Raised "Error in .rs.formatDataColumn" stored))).
Proof.
  intros fields w.
  apply (@getData_failures Decimal.convert Mini.runtime Mini.http Mini.cars fields w).
  vm_compute. reflexivity.
Defined.

(** Witness of X9: in the miniature session, a plain request for a cache
    key for which R holds working data of one row; the page is cut from
    the three rows of [cars]. *)
Lemma getData_plain_request_witness :
  let fields := @parseQueryString Mini.http "obj=cars&cache_key=k1&start=0&length=2" in
  let w := Mini.world ∅ (Mini.mkState [("cars", Mini.cars)]
                                      [("k1", Mini.mFrame 2 1 [("a", ["2"]); ("b", ["y"])])]
                                      [] Mini.mNil []) in
  let json :=
    json_object
      [("draw", json_int 0); ("recordsTotal", json_int 3); ("recordsFiltered", json_int 3);
       ("data", json_array [json_array [json_int 1; json_str "1"; json_str "x"];
                            json_array [json_int 2; json_str "2"; json_str "y"]])] in
  json_member "recordsTotal" json = Some (json_int 3) /\
  json_member "recordsFiltered" json = Some (json_int 3).
Proof.
  intros fields w json.
  refine (proj2 (proj2 (@getData_plain_request Decimal.convert Mini.runtime Mini.http
                          Mini.cars fields w 3 2 _ _)) json _);
    vm_compute; reflexivity.
Defined.

(** Witness of X10: in the miniature session, the second and third row of
    [cars]. *)
Lemma getData_response_shape_witness :
  let fields := @parseQueryString Mini.http "obj=cars&cache_key=k1&draw=7&start=1&length=2" in
  let w := Mini.world ∅ (Mini.mkState [("cars", Mini.cars)] [] [] Mini.mNil []) in
  let json :=
    json_object
      [("draw", json_int 7); ("recordsTotal", json_int 3); ("recordsFiltered", json_int 3);
       ("data", json_array [json_array [json_int 2; json_str "2"; json_str "y"];
                            json_array [json_int 3; json_str "3"; json_str "z"]])] in
  exists nrow ncol F rows,
    fst (@getData_dimensions Mini.runtime Mini.cars w) = Return (nrow, ncol) /\
    json = @page_json Mini.http fields nrow F rows /\
    forall k row,
      rows !! k = Some row ->
      exists label cells,
        row = json_array (label :: cells) /\
        length cells = Z.to_nat ncol /\
        Forall (fun cell => exists s, cell = json_str s) cells /\
        ((exists s, label = json_str s) \/
         label = json_int (int_add (Z.of_nat k) (@page_start Mini.http fields))).
Proof.
  intros fields w json.
  apply (@getData_response_shape Decimal.convert Mini.runtime Mini.http Mini.cars fields w).
  vm_compute. reflexivity.
Defined.

(** ** The registry across grid requests and releases *)

Section RegistryTheorems.
Context {conv : SafeConvert} {rt : RRuntime} {hu : HttpUtil}.

Lemma getData_frames d fields w :
  exists ncol,
    s_cachedFrames (snd (getData d fields w)) = s_cachedFrames w \/
    s_cachedFrames (snd (getData d fields w)) =
    alter (record_transform (field_search fields) (getData_filters fields ncol)
                            (field_ordercol fields) (field_orderdir fields))
          (field_cacheKey fields) (s_cachedFrames w).
Proof.
  destruct (getData_run d fields w) as (r1 & r2 & Hdim & Hrun). cbv zeta in Hdim, Hrun.
  destruct Hrun as (view & tr & cnt & rest & frames' & dd & F & s' & n' & result
                    & Hget & Hpolicy & _).
  exists (int_result r2 0). rewrite Hget. cbn [snd].
  change (s_cachedFrames (after_calls w frames' s' _ n')) with frames'.
  destruct Hpolicy as [(_ & _ & _ & _ & _ & _ & ->)
                      | [(_ & frame & r & rc & _ & _ & _ & _ & _ & _ & _ & _ & ->)
                        | (_ & x & rx & _ & _ & [(_ & _ & _ & _ & -> & _)
                                                | (_ & rs & rc & _ & _ & _ & ->)])]];
    auto.
Qed.

(** Recording a transform in the frame of [key] keeps every frame
    registered for its source and leaves the frames of other keys alone. *)
Lemma record_transform_lookup search filters ordercol orderdir key
      (frames : gmap string CachedFrame) k :
  alter (record_transform search filters ordercol orderdir) key frames !! k =
  if decide (key = k)
  then record_transform search filters ordercol orderdir <$> frames !! k
  else frames !! k.
Proof.
  destruct (decide (key = k)) as [->|Hne].
  - now rewrite lookup_alter_eq.
  - now rewrite lookup_alter_ne.
Qed.

Lemma same_source_record search filters ordercol orderdir (frame : CachedFrame) :
  same_source frame (record_transform search filters ordercol orderdir frame).
Proof. repeat split. Qed.

Lemma unchanged_getCols d : unchanged s_cachedFrames (getCols d).
Proof. unfold getCols. repeat unchanged_step. Qed.

(** The registry after a grid request, from the registry before it. *)
Lemma getGridData_try_frames request w :
  s_cachedFrames (snd (getGridData_try request w)) = s_cachedFrames w \/
  exists fields,
    request_fields request = Some fields /\
    let key := urlDecode (fieldValue_string fields "cache_key" "") in
    exists F0,
      (F0 = s_cachedFrames w \/
       (urlDecode (fieldValue_string fields "env" "") <> kNoBoundEnv /\
        s_cachedFrames w !! key = None /\
        exists frame0, F0 = <[key := frame0]> (s_cachedFrames w))) /\
      (s_cachedFrames (snd (getGridData_try request w)) = F0 \/
       exists ncol,
         s_cachedFrames (snd (getGridData_try request w)) =
         alter (record_transform (field_search fields) (getData_filters fields ncol)
                                 (field_ordercol fields) (field_orderdir fields))
               key F0).
Proof.
  unfold getGridData_try, request_fields.
  destruct (index 0 "?" (uri request)) as [pos|]; [|now left].
  set (fields := parseQueryString _).
  destruct (_ && _); [now left|].
  right. exists fields. split; [reflexivity|]. cbv zeta.
  set (env := urlDecode (fieldValue_string fields "env" "")).
  set (obj := urlDecode (fieldValue_string fields "obj" "")).
  set (key := urlDecode (fieldValue_string fields "cache_key" "")).
  rewrite bind_run.
  (* the registration *)
  match goal with
  | |- context [match ?reg w with _ => _ end] =>
      assert (Hreg : exists w1,
                 reg w = (Return tt, w1) /\
                 (s_cachedFrames w1 = s_cachedFrames w \/
                  (env <> kNoBoundEnv /\ s_cachedFrames w !! key = None /\
                   exists frame0, s_cachedFrames w1 = <[key := frame0]> (s_cachedFrames w))))
  end.
  { destruct (String.eqb_spec env kNoBoundEnv) as [He|He]; cbn [negb].
    { exists w. split; [reflexivity|now left]. }
    rewrite bind_run.
    destruct (findInNamedEnvir_returns env obj w) as (sexp & w1 & -> & Hf1).
    rewrite bind_run. unfold find_frame at 1. cbv beta iota. rewrite Hf1.
    destruct (s_cachedFrames w !! key) as [fr|] eqn:Hkey.
    { exists w1. split; [reflexivity|now left]. }
    rewrite bind_run.
    destruct (CachedFrame_new_returns env obj sexp w1) as (frame0 & w2 & -> & Hf2 & _).
    eexists. split; [reflexivity|]. right. split; [exact He|]. split; [reflexivity|].
    exists frame0. cbn [s_cachedFrames snd]. now rewrite Hf2, Hf1. }
  destruct Hreg as (w1 & -> & Hw1). cbv beta iota.
  exists (s_cachedFrames w1). split.
  { destruct Hw1 as [->|(He & Hk & frame0 & ->)]; [now left|right; eauto]. }
  rewrite bind_run.
  destruct (call_SEXP_run (mkRFunction ".rs.findDataFrame"
                             [("", PString env); ("", PString obj); ("", PString key);
                              ("", PString viewerCacheDir)]) NULL w1) as (r & s' & ->).
  cbv beta iota. destruct (call_outcome r NULL) as [error dataSEXP].
  rewrite bind_run.
  set (w2 := after_calls w1 (s_cachedFrames w1) s' _ _).
  assert (Hlog : exists w3,
             (if isError error then LOG_ERROR error else ret tt) w2 = (Return tt, w3) /\
             s_cachedFrames w3 = s_cachedFrames w1).
  { destruct (isError error); eexists; split; reflexivity. }
  destruct Hlog as (w3 & -> & Hw3). cbv beta iota.
  destruct (bool_decide (dataSEXP = NULL)); [left; exact Hw3|].
  destruct (_ || _); [left; exact Hw3|].
  destruct (String.eqb _ "cols").
  { rewrite bind_run.
    match goal with
    | |- context [getCols ?x w3] =>
        pose proof (unchanged_getCols x w3) as Hc; destruct (getCols x w3) as [[v|e] w4]
    end; rewrite ?bind_run, ?ret_run; cbn [snd] in *; left; congruence. }
  destruct (String.eqb _ "data"); [|left; exact Hw3].
  rewrite bind_run.
  match goal with
  | |- context [getData ?x fields w3] =>
      destruct (getData_frames x fields w3) as (ncol & Hd);
        destruct (getData x fields w3) as [[v|e] w4]
  end; rewrite ?bind_run, ?ret_run; cbn [snd] in *; rewrite Hw3 in Hd;
    (destruct Hd as [Hd|Hd]; [left; exact Hd|right; exists ncol; exact Hd]).
Qed.

(** X11.  What a grid request does to the registry.  Every frame that is
    registered stays registered and for the same source: a request never
    drops a frame and never observes an object anew under a cache key that
    has a frame.  Frames under cache keys other than that of the request
    are left exactly as they were.  And under the marker of no environment
    the request registers nothing: the registry has the same cache keys
    after it as before. *)
Theorem getGridData_registry request response w :
  let w' := snd (getGridData request response w) in
  (forall k frame,
      s_cachedFrames w !! k = Some frame ->
      exists frame', s_cachedFrames w' !! k = Some frame' /\ same_source frame frame') /\
  (forall k,
      (forall fields, request_fields request = Some fields ->
                      k <> urlDecode (fieldValue_string fields "cache_key" "")) ->
      s_cachedFrames w' !! k = s_cachedFrames w !! k) /\
  (forall fields,
      request_fields request = Some fields ->
      urlDecode (fieldValue_string fields "env" "") = kNoBoundEnv ->
      forall k, s_cachedFrames w' !! k = None <-> s_cachedFrames w !! k = None).
Proof.
  cbv zeta. rewrite getGridData_world.
  destruct (getGridData_try_frames request w) as [->|(fields & Hf & HF)].
  { repeat split; auto. intros k frame Hk. exists frame. split; [exact Hk|].
    apply same_source_refl. }
  cbv zeta in HF. destruct HF as (F0 & HF0 & Hend).
  set (key := urlDecode (fieldValue_string fields "cache_key" "")) in *.
  assert (H0 : (forall k frame, s_cachedFrames w !! k = Some frame -> F0 !! k = Some frame) /\
               (forall k, k <> key -> F0 !! k = s_cachedFrames w !! k) /\
               (urlDecode (fieldValue_string fields "env" "") = kNoBoundEnv ->
                F0 = s_cachedFrames w)).
  { destruct HF0 as [->|(He & Hk & frame0 & ->)]; [repeat split; auto|].
    split; [|split].
    - intros k frame Hkf. rewrite lookup_insert_ne; [exact Hkf|]. intros <-. congruence.
    - intros k Hne. now rewrite lookup_insert_ne.
    - intros Henv. contradiction. }
  destruct H0 as (Hkeep & Hother & Hnoenv).
  assert (H1 : forall k,
             s_cachedFrames (snd (getGridData_try request w)) !! k = F0 !! k \/
             exists ncol,
               s_cachedFrames (snd (getGridData_try request w)) !! k =
               record_transform (field_search fields) (getData_filters fields ncol)
                                (field_ordercol fields) (field_orderdir fields)
               <$> F0 !! k).
  { intros k. destruct Hend as [->|(ncol & ->)]; [now left|].
    rewrite record_transform_lookup. destruct (decide (key = k)); [right; eauto|now left]. }
  split; [|split].
  - intros k frame Hk. apply Hkeep in Hk.
    destruct (H1 k) as [->|(ncol & ->)]; rewrite Hk.
    + exists frame. split; [reflexivity|apply same_source_refl].
    + eexists. split; [reflexivity|apply same_source_record].
  - intros k Hk. specialize (Hk fields Hf). fold key in Hk.
    destruct Hend as [->|(ncol & ->)]; [now apply Hother|].
    rewrite lookup_alter_ne by congruence. now apply Hother.
  - intros fields' Hf' Henv k. rewrite Hf in Hf'. injection Hf' as <-.
    rewrite <- (Hnoenv Henv).
    destruct (H1 k) as [->|(ncol & ->)]; [tauto|].
    destruct (F0 !! k); cbn; split; congruence.
Qed.

Lemma removeCachedData_run cacheKey w :
  exists ev s',
    removeCachedData cacheKey w =
    (Return match ev with
            | Value _ => Success
            | Raised s _ => Failure s
            end,
     after_calls w (delete cacheKey (s_cachedFrames w)) s'
       [(mkRFunction ".rs.removeCachedData"
           [("", PString cacheKey); ("", PString viewerCacheDir)], ev)]
       (uninitialized_reads w)).
Proof.
  unfold removeCachedData. rewrite bind_run. unfold set_frames at 1.
  cbv beta iota. unfold call. rewrite bind_run.
  match goal with
  | |- context [call_SEXP ?f ?v ?w'] => destruct (call_SEXP_run f v w') as (ev & s' & ->)
  end.
  exists ev, s'. cbv beta iota. rewrite ret_run. destruct ev; reflexivity.
Qed.

(** X12.  Releasing the cache key of a grid request undoes what the
    request did to the registry: after the request and [removeCachedData]
    of its cache key, the registry is the one before the request without
    that cache key, whether the request registered a frame, recorded a
    transform in it, or neither. *)
Theorem release_after_grid_request request response w fields :
  request_fields request = Some fields ->
  let key := urlDecode (fieldValue_string fields "cache_key" "") in
  s_cachedFrames (snd (removeCachedData key (snd (getGridData request response w))))
  = delete key (s_cachedFrames w).
Proof.
  intros Hf key.
  assert (Hrm : forall w1, s_cachedFrames (snd (removeCachedData key w1))
                           = delete key (s_cachedFrames w1)).
  { intros w1. now destruct (removeCachedData_run key w1) as (ev & s' & ->). }
  rewrite Hrm, getGridData_world.
  destruct (getGridData_try_frames request w) as [->|(fields' & Hf' & HF)];
    [reflexivity|].
  rewrite Hf in Hf'. injection Hf' as <-. cbv zeta in HF. fold key in HF.
  destruct HF as (F0 & HF0 & Hend).
  assert (H0 : delete key F0 = delete key (s_cachedFrames w)).
  { destruct HF0 as [->|(_ & _ & frame0 & ->)]; [reflexivity|apply delete_insert_eq]. }
  destruct Hend as [->|(ncol & ->)]; [exact H0|].
  now rewrite delete_alter_eq.
Qed.
End RegistryTheorems.

(** Witness of X12: in the miniature session, a request that registers a
    frame and records a search in it. *)
Lemma release_after_grid_request_witness :
  let request := mkRequest "/grid_data?obj=cars&cache_key=k1&start=0&length=10&search[value]=y" in
  let w := Mini.world ∅ (Mini.mkState [("cars", Mini.cars)] [] []
                           (Mini.mFrame 2 1 [("a", ["2"]); ("b", ["y"])]) []) in
  @s_cachedFrames Mini.runtime
    (snd (@removeCachedData Mini.runtime Mini.http "k1"
            (snd (@getGridData Decimal.convert Mini.runtime Mini.http request
                    (mkResponse status_Ok "") w))))
  = delete "k1" (@s_cachedFrames Mini.runtime w).
Proof.
  intros request w.
  apply (@release_after_grid_request Decimal.convert Mini.runtime Mini.http request
           (mkResponse status_Ok "") w
           (@parseQueryString Mini.http
              "obj=cars&cache_key=k1&start=0&length=10&search[value]=y")).
  vm_compute. reflexivity.
Defined.

(** ** Opening, duplicating and releasing a view; shutdown *)

Section ViewerTheorems.
Context {conv : SafeConvert} {rt : RRuntime} {hu : HttpUtil} {vb : ViewerBoundary rt}.

Notation "'let!' x ':=' m 'in' k" := (bind m (fun x => k))
  (at level 10, x pattern, m at level 100, k at level 200).

Lemma call_string_run fn value w :
  exists r s',
    call_as extract_string fn value w =
    (Return (string_error r, string_result r value),
     after_calls w (s_cachedFrames w) s' [(fn, r)] (uninitialized_reads w)).
Proof.
  unfold call_as. destruct (R_eval fn (session w)) as [r s']. exists r, s'.
  unfold string_error, string_result.
  destruct r as [v|s st]; [destruct (extract_string v)|]; reflexivity.
Qed.

Lemma makeDataItem_run d caption objName envName cacheKey w :
  exists r1 r2 s',
    makeDataItem d caption objName envName cacheKey w =
    (Return (data_item caption (int_result r1 0) (int_result r2 0) cacheKey objName envName),
     after_calls w (s_cachedFrames w) s' [(nrow_call d, r1); (ncol_call d, r2)]
                 (uninitialized_reads w)).
Proof.
  unfold makeDataItem. rewrite bind_run.
  destruct (call_int_run (mkRFunction "nrow" [("", PSexp d)]) 0 w) as (e1 & r1 & s1 & ->).
  cbv beta iota. rewrite bind_run.
  match goal with
  | |- context [call_int ?f ?v ?w'] =>
      destruct (call_int_run f v w') as (e2 & r2 & s2 & ->)
  end.
  exists r1, r2, s2. cbv beta iota. rewrite ret_run, after_calls_twice. reflexivity.
Qed.

Lemma findInNamedEnvir_run envir name w :
  exists sexp s' delta,
    findInNamedEnvir envir name w =
    (Return sexp, after_calls w (s_cachedFrames w) s' delta (uninitialized_reads w)) /\
    (delta = [] \/
     exists ev, delta = [(mkRFunction "as.environment" [("", PString envir)], ev)]).
Proof.
  unfold findInNamedEnvir.
  destruct (String.eqb envir kNoBoundEnv).
  { exists NULL, (session w), []. rewrite after_calls_id. split; [reflexivity|now left]. }
  rewrite bind_run. destruct (_ || _).
  - rewrite ret_run. cbv beta iota. exists (if is_null R_GlobalEnv then NULL
                else if bool_decide (findVar name R_GlobalEnv (session w) = R_UnboundValue)
                     then NULL else findVar name R_GlobalEnv (session w)),
      (session w), [].
    rewrite after_calls_id. split; [|now left].
    destruct (is_null R_GlobalEnv); reflexivity.
  - rewrite bind_run.
    match goal with
    | |- context [call_SEXP ?f ?v ?w'] => destruct (call_SEXP_run f v w') as (ev & s' & ->)
    end.
    cbv beta iota. rewrite ret_run. cbv beta iota.
    destruct (is_null _); eexists _, s', _; (split; [reflexivity|right; eauto]).
Qed.

(** X13.  [removeCachedData], the handler.  When the cache key cannot be
    read from the parameters of the request, the error of the reading is
    returned and the world is left as it was.  Otherwise the frame of the
    cache key is removed from the registry, whether it had one or not and
    whatever R answers; the other frames, the client events and the error
    log are left alone; exactly one R call is made, [.rs.removeCachedData]
    of the cache key and the cache directory; and the handler returns the
    error of that call, or success. *)
Theorem removeCachedData_releases request w :
  match readParam (rpc_params request) 0 with
  | Err s => removeCachedData_rpc request w = (Return (Failure s), w)
  | Ok cacheKey =>
      let r := removeCachedData_rpc request w in
      s_cachedFrames (snd r) = delete cacheKey (s_cachedFrames w) /\
      s_cachedFrames (snd r) !! cacheKey = None /\
      (forall k, k <> cacheKey -> s_cachedFrames (snd r) !! k = s_cachedFrames w !! k) /\
      clientEvents (snd r) = clientEvents w /\
      errorLog (snd r) = errorLog w /\
      exists ev,
        new_calls w (snd r) =
        [(mkRFunction ".rs.removeCachedData"
            [("", PString cacheKey); ("", PString viewerCacheDir)], ev)] /\
        fst r = Return match ev with
                       | Value _ => Success
                       | Raised s _ => Failure s
                       end
  end.
Proof.
  unfold removeCachedData_rpc.
  destruct (readParam (rpc_params request) 0) as [cacheKey|s]; [|reflexivity].
  cbv zeta. destruct (removeCachedData_run cacheKey w) as (ev & s' & ->).
  cbn [fst snd]. rewrite new_calls_after.
  change (s_cachedFrames (after_calls w ?F s' _ _)) with F.
  split; [reflexivity|]. split; [apply lookup_delete_eq|].
  split; [intros k Hk; apply lookup_delete_ne; congruence|].
  split; [reflexivity|]. split; [reflexivity|].
  exists ev. split; reflexivity.
Qed.

(** X14.  [duplicateDataView] never touches the registry, the client
    events or the error log: the copy is not registered by duplicating.
    When the parameters cannot be read the error is returned and the world
    left as it was.  Otherwise the handler returns, and it sets a result in
    one case only, together with success: [.rs.addCachedData] of the data
    found came to a cache key, and the result is the data item of the
    caption, object and environment of the request under that new cache
    key, with the row and column counts asked of R right after it.  In
    every other case the response is left as it was; when the handler
    nonetheless returns success, the object was in no environment and the
    last R call, [.rs.findDataFrame], came to a null value. *)
Theorem duplicateDataView_effect request response w :
  let r := duplicateDataView request response w in
  s_cachedFrames (snd r) = s_cachedFrames w /\
  clientEvents (snd r) = clientEvents w /\
  errorLog (snd r) = errorLog w /\
  match readParams (rpc_params request) with
  | Err s => r = (Return (Failure s, response), w)
  | Ok (caption, envName, objName, cacheKey) =>
      exists error response',
        fst r = Return (error, response') /\
        ((response' = response /\
          (error = Success ->
           exists pre ev,
             new_calls w (snd r) =
             pre ++ [(mkRFunction ".rs.findDataFrame"
                        [("", PString envName); ("", PString objName);
                         ("", PString cacheKey); ("", PString viewerCacheDir)], ev)] /\
             is_null (SEXP_result ev NULL) = true)) \/
         (error = Success /\
          exists pre d rk r1 r2,
            new_calls w (snd r) =
            pre ++ [(mkRFunction ".rs.addCachedData" [("", PSexp d)], rk);
                    (nrow_call d, r1); (ncol_call d, r2)] /\
            string_error rk = Success /\
            response' =
            Some (data_item caption (int_result r1 0) (int_result r2 0)
                            (string_result rk "") objName envName)))
  end.
Proof.
  cbv zeta. unfold duplicateDataView.
  destruct (readParams (rpc_params request)) as [[[[caption envName] objName] cacheKey]|s].
  2:{ repeat split. }
  assert (Hrun : exists error response' delta s' ,
             (let! dataSEXP := findInNamedEnvir envName objName in
              let! found :=
                (if bool_decide (dataSEXP = NULL) then
                   let! (error, dataSEXP) :=
                     call_SEXP (mkRFunction ".rs.findDataFrame"
                                  [("", PString envName); ("", PString objName);
                                   ("", PString cacheKey); ("", PString viewerCacheDir)])
                               dataSEXP in
                   if isError error then ret (inl error)
                   else if is_null dataSEXP then ret (inl Success)
                        else ret (inr dataSEXP)
                 else ret (inr dataSEXP)) in
              match found with
              | inl error => ret (error, response)
              | inr dataSEXP =>
                  let! (error, newCacheKey) :=
                    call_as extract_string
                            (mkRFunction ".rs.addCachedData" [("", PSexp dataSEXP)]) "" in
                  if isError error then ret (error, response)
                  else
                    let! dataItem :=
                      makeDataItem dataSEXP caption objName envName newCacheKey in
                    ret (Success, Some dataItem)
              end) w
             = (Return (error, response'),
                after_calls w (s_cachedFrames w) s' delta (uninitialized_reads w)) /\
             ((response' = response /\
               (error = Success ->
                exists pre ev,
                  delta =
                  pre ++ [(mkRFunction ".rs.findDataFrame"
                             [("", PString envName); ("", PString objName);
                              ("", PString cacheKey); ("", PString viewerCacheDir)], ev)] /\
                  is_null (SEXP_result ev NULL) = true)) \/
              (error = Success /\
               exists pre d rk r1 r2,
                 delta =
                 pre ++ [(mkRFunction ".rs.addCachedData" [("", PSexp d)], rk);
                         (nrow_call d, r1); (ncol_call d, r2)] /\
                 string_error rk = Success /\
                 response' =
                 Some (data_item caption (int_result r1 0) (int_result r2 0)
                                 (string_result rk "") objName envName)))).
  { rewrite bind_run.
    destruct (findInNamedEnvir_run envName objName w) as (sexp & s0 & d0 & -> & _).
    cbv beta iota. rewrite bind_run.
    set (w0 := after_calls w _ s0 d0 _).
    (* the key of the copy, once the data is found *)
    assert (Hcopy : forall d w1 pre,
               w1 = after_calls w (s_cachedFrames w) (session w1) pre (uninitialized_reads w) ->
               exists error response' delta s',
                 (let! (error, newCacheKey) :=
                    call_as extract_string
                            (mkRFunction ".rs.addCachedData" [("", PSexp d)]) "" in
                  if isError error then ret (error, response)
                  else
                    let! dataItem := makeDataItem d caption objName envName newCacheKey in
                    ret (Success, Some dataItem)) w1
                 = (Return (error, response'),
                    after_calls w (s_cachedFrames w) s' (pre ++ delta) (uninitialized_reads w)) /\
                 ((response' = response /\ error <> Success) \/
                  (error = Success /\
                   exists rk r1 r2,
                     delta = [(mkRFunction ".rs.addCachedData" [("", PSexp d)], rk);
                              (nrow_call d, r1); (ncol_call d, r2)] /\
                     string_error rk = Success /\
                     response' =
                     Some (data_item caption (int_result r1 0) (int_result r2 0)
                                     (string_result rk "") objName envName)))).
    { intros d w1 pre Hw1. rewrite bind_run.
      destruct (call_string_run (mkRFunction ".rs.addCachedData" [("", PSexp d)]) "" w1)
        as (rk & s1 & ->).
      cbv beta iota. rewrite Hw1. cbn [s_cachedFrames uninitialized_reads after_calls].
      fold (after_calls w (s_cachedFrames w) (session w1) pre (uninitialized_reads w)).
      rewrite after_calls_twice.
      destruct (string_error rk) eqn:Herr; cbn [isError].
      - rewrite bind_run.
        match goal with
        | |- context [makeDataItem ?a ?b ?c ?e ?f ?w'] =>
            destruct (makeDataItem_run a b c e f w') as (r1 & r2 & s2 & ->)
        end.
        cbv beta iota. rewrite ret_run, after_calls_twice.
        eexists _, _, _, _. split.
        { rewrite <- app_assoc. reflexivity. }
        right. split; [reflexivity|]. exists rk, r1, r2. repeat split. exact Herr.
      - rewrite ret_run. eexists _, _, _, _. split; [reflexivity|].
        left. split; [reflexivity|discriminate]. }
    destruct (bool_decide (sexp = NULL)) eqn:Hnull.
    - rewrite bind_run.
      match goal with
      | |- context [call_SEXP ?f ?v ?w'] => destruct (call_SEXP_run f v w') as (ev & s1 & ->)
      end.
      cbv beta iota. apply bool_decide_eq_true in Hnull. subst sexp.
      destruct (call_outcome ev NULL) as [error d] eqn:Hout.
      assert (Hd : SEXP_result ev NULL = d) by (unfold SEXP_result; now rewrite Hout).
      subst w0. rewrite after_calls_twice. cbn [s_cachedFrames after_calls uninitialized_reads].
      fold (after_calls w (s_cachedFrames w) s1
              (d0 ++ [(mkRFunction ".rs.findDataFrame"
                         [("", PString envName); ("", PString objName);
                          ("", PString cacheKey); ("", PString viewerCacheDir)], ev)])
              (uninitialized_reads w)).
      destruct (isError error) eqn:Herr.
      + rewrite ret_run. cbv beta iota. rewrite ret_run.
        eexists _, _, _, _. split; [reflexivity|]. left. split; [reflexivity|].
        intros ->. discriminate Herr.
      + destruct (is_null d) eqn:Hdn.
        * rewrite ret_run. cbv beta iota. rewrite ret_run.
          eexists _, _, _, _. split; [reflexivity|]. left. split; [reflexivity|].
          intros _. exists d0, ev. split; [reflexivity|]. now rewrite Hd.
        * rewrite ret_run. cbv beta iota.
          match goal with
          | |- context [after_calls w ?F s1 ?pre ?n] =>
              destruct (Hcopy d (after_calls w F s1 pre n) pre eq_refl)
                as (error' & response' & delta & s' & -> & Hres)
          end.
          eexists _, _, _, _. split; [reflexivity|].
          destruct Hres as [(-> & Hne) | (-> & rk & r1 & r2 & -> & Hk & ->)].
          -- left. split; [reflexivity|]. intros He. contradiction.
          -- right. split; [reflexivity|]. eexists _, d, rk, r1, r2.
             split; [reflexivity|]. split; [exact Hk|reflexivity].
    - rewrite ret_run. cbv beta iota.
      destruct (Hcopy sexp w0 d0 eq_refl) as (error' & response' & delta & s' & -> & Hres).
      eexists _, _, _, _. split; [reflexivity|].
      destruct Hres as [(-> & Hne) | (-> & rk & r1 & r2 & -> & Hk & ->)].
      + left. split; [reflexivity|]. intros He. contradiction.
      + right. split; [reflexivity|]. eexists _, sexp, rk, r1, r2.
        split; [reflexivity|]. split; [exact Hk|reflexivity]. }
  destruct Hrun as (error & response' & delta & s' & -> & Hres).
  cbn [fst snd]. rewrite new_calls_after.
  split; [reflexivity|]. split; [reflexivity|]. split; [reflexivity|].
  exists error, response'. split; [reflexivity|exact Hres].
Qed.

Lemma reported_environment_named name :
  reported_environment name <> "R_GlobalEnv" /\
  reported_environment name <> "R_EmptyEnv" /\
  (reported_environment name = "" <-> name = "R_GlobalEnv") /\
  (reported_environment name = kNoBoundEnv <->
   name = "R_EmptyEnv" \/ name = "" \/ name = kNoBoundEnv).
Proof.
  unfold reported_environment.
  destruct (String.eqb_spec name "R_GlobalEnv") as [->|Hg].
  { repeat split; try discriminate; auto. intros [H|[H|H]]; discriminate H. }
  destruct (String.eqb_spec name "R_EmptyEnv") as [->|He]; cbn [orb].
  { repeat split; try discriminate; auto. }
  destruct (String.eqb_spec name "") as [->|Hn].
  { repeat split; try discriminate; auto. }
  repeat split; auto; try congruence.
  intros [H|[H|H]]; congruence.
Qed.

(** X15.  [rs_viewData] leaves the registry and the error log alone, and
    first asks R for the name of the environment.  The environment it
    reports is never ["R_GlobalEnv"] nor ["R_EmptyEnv"]: the global
    environment is reported under the empty name, the empty environment
    and an environment without a name under the marker of no environment.
    With a caption that is a string of length one, it returns [R_NilValue]
    after five more R calls, [as.data.frame] of the data and twice [nrow]
    and [ncol] of the frame that gave, or of the data itself when it gave
    the null pointer, and it emits exactly one client event, [kShowData]
    with the data item of the caption, the second pair of counts, the
    cache key, the object name and the reported environment.  With any
    other caption it raises the R error "invalid caption argument", having
    made no further R call, and emits no event. *)
Theorem rs_viewData_effect dataSEXP captionSEXP nameSEXP envSEXP cacheKeySEXP w :
  let r := rs_viewData dataSEXP captionSEXP nameSEXP envSEXP cacheKeySEXP w in
  s_cachedFrames (snd r) = s_cachedFrames w /\
  errorLog (snd r) = errorLog w /\
  exists re,
    let envName := reported_environment (string_result re "") in
    envName <> "R_GlobalEnv" /\ envName <> "R_EmptyEnv" /\
    if Rf_isString captionSEXP && Z.eqb (Rf_length captionSEXP) 1
    then
      fst r = Returned R_NilValue /\
      exists rd r1 r2 r3 r4,
        let d := if bool_decide (SEXP_result rd NULL = NULL)
                 then dataSEXP else SEXP_result rd NULL in
        new_calls w (snd r) =
        [(mkRFunction "environmentName" [("", PSexp envSEXP)], re);
         (mkRFunction "as.data.frame" [("", PSexp dataSEXP)], rd);
         (nrow_call d, r1); (ncol_call d, r2); (nrow_call d, r3); (ncol_call d, r4)] /\
        new_events w (snd r) =
        [mkClientEvent kShowData
           (data_item (asString captionSEXP) (int_result r3 0) (int_result r4 0)
                      (asString cacheKeySEXP) (asString nameSEXP) envName)]
    else
      fst r = RError "invalid caption argument" /\
      new_calls w (snd r) = [(mkRFunction "environmentName" [("", PSexp envSEXP)], re)] /\
      new_events w (snd r) = [].
Proof.
  cbv zeta. unfold rs_viewData.
  destruct (call_string_run (mkRFunction "environmentName" [("", PSexp envSEXP)]) "" w)
    as (re & s0 & ->).
  fold (reported_environment (string_result re "")).
  set (envName := reported_environment (string_result re "")).
  set (w0 := after_calls w _ s0 _ _).
  assert (Htry : exists result w1,
             rs_viewData_try dataSEXP captionSEXP (asString nameSEXP) envName
                             (asString cacheKeySEXP) w0 = (result, w1) /\
             s_cachedFrames w1 = s_cachedFrames w /\
             errorLog w1 = errorLog w /\
             if Rf_isString captionSEXP && Z.eqb (Rf_length captionSEXP) 1
             then
               result = Return R_NilValue /\
               exists rd r1 r2 r3 r4,
                 let d := if bool_decide (SEXP_result rd NULL = NULL)
                          then dataSEXP else SEXP_result rd NULL in
                 new_calls w w1 =
                 [(mkRFunction "environmentName" [("", PSexp envSEXP)], re);
                  (mkRFunction "as.data.frame" [("", PSexp dataSEXP)], rd);
                  (nrow_call d, r1); (ncol_call d, r2); (nrow_call d, r3); (ncol_call d, r4)] /\
                 new_events w w1 =
                 [mkClientEvent kShowData
                    (data_item (asString captionSEXP) (int_result r3 0) (int_result r4 0)
                               (asString cacheKeySEXP) (asString nameSEXP) envName)]
             else
               result = Throw "invalid caption argument" /\
               new_calls w w1 = [(mkRFunction "environmentName" [("", PSexp envSEXP)], re)] /\
               new_events w w1 = []).
  { unfold rs_viewData_try. rewrite <- negb_andb.
    destruct (Rf_isString captionSEXP && Z.eqb (Rf_length captionSEXP) 1); cbn [negb].
    2:{ exists (Throw "invalid caption argument"), w0. split; [reflexivity|].
        split; [reflexivity|]. split; [reflexivity|]. split; [reflexivity|].
        split; [subst w0; apply new_calls_after|].
        unfold new_events. subst w0. cbn. apply drop_all. }
    rewrite bind_run.
    destruct (call_SEXP_run (mkRFunction "as.data.frame" [("", PSexp dataSEXP)]) NULL w0)
      as (rd & s1 & ->).
    cbv beta iota. destruct (call_outcome rd NULL) as [ed dataFrameSEXP] eqn:Hout.
    assert (Hd : SEXP_result rd NULL = dataFrameSEXP)
      by (unfold SEXP_result; now rewrite Hout).
    rewrite <- Hd.
    replace (if negb (bool_decide (SEXP_result rd NULL = NULL))
             then SEXP_result rd NULL else dataSEXP)
      with (if bool_decide (SEXP_result rd NULL = NULL)
            then dataSEXP else SEXP_result rd NULL)
      by (now destruct (bool_decide _)).
    set (d := if bool_decide (SEXP_result rd NULL = NULL)
              then dataSEXP else SEXP_result rd NULL).
    subst w0. rewrite after_calls_twice.
    rewrite bind_run.
    match goal with
    | |- context [call_int ?f ?v ?w'] =>
        destruct (call_int_run f v w') as (e1 & r1 & s2 & ->)
    end.
    cbv beta iota. rewrite after_calls_twice. rewrite bind_run.
    match goal with
    | |- context [call_int ?f ?v ?w'] =>
        destruct (call_int_run f v w') as (e2 & r2 & s3 & ->)
    end.
    cbv beta iota. rewrite after_calls_twice. rewrite bind_run.
    match goal with
    | |- context [makeDataItem ?a ?b ?c ?e ?f ?w'] =>
        destruct (makeDataItem_run a b c e f w') as (r3 & r4 & s4 & ->)
    end.
    cbv beta iota. rewrite after_calls_twice. rewrite bind_run.
    unfold enqueClientEvent at 1. cbv beta iota. rewrite ret_run.
    eexists _, _. split; [reflexivity|].
    split; [reflexivity|]. split; [reflexivity|]. split; [reflexivity|].
    exists rd, r1, r2, r3, r4. cbv zeta. fold d. split.
    - unfold new_calls. cbn. now rewrite drop_app_length.
    - unfold new_events. cbn. now rewrite drop_app_length. }
  destruct Htry as (result & w1 & -> & Hf & He & Hres).
  cbv beta iota.
  destruct (reported_environment_named (string_result re "")) as (Hg & Hee & _).
  destruct result as [v|e]; cbn [fst snd]; (split; [exact Hf|]); (split; [exact He|]);
    exists re; cbv zeta; fold envName; (split; [exact Hg|]); (split; [exact Hee|]);
    destruct (Rf_isString captionSEXP && Z.eqb (Rf_length captionSEXP) 1);
    destruct Hres as (Hr & Hrest); try discriminate Hr.
  - injection Hr as ->. split; [reflexivity|exact Hrest].
  - injection Hr as ->. split; [reflexivity|exact Hrest].
Qed.

(** X16.  [onShutdown] never throws, and [onSuspend] does exactly what it
    does.  It makes one R call, [.rs.saveCachedData] of the cache
    directory, and leaves the registry and the client events alone; when
    the call raises, the error is appended to the error log and nothing
    else happens, and when it does not, the error log is left as it was. *)
Theorem onShutdown_effect w :
  let r := onShutdown w in
  fst r = Return tt /\
  onSuspend w = r /\
  s_cachedFrames (snd r) = s_cachedFrames w /\
  clientEvents (snd r) = clientEvents w /\
  exists ev,
    new_calls w (snd r) = [(mkRFunction ".rs.saveCachedData" [("", PString viewerCacheDir)], ev)] /\
    new_errors w (snd r) = match ev with
                           | Value _ => []
                           | Raised s _ => [Failure s]
                           end.
Proof.
  cbv zeta. unfold onSuspend, onShutdown. rewrite bind_run. unfold call.
  rewrite bind_run.
  match goal with
  | |- context [call_SEXP ?f ?v ?w'] => destruct (call_SEXP_run f v w') as (ev & s' & ->)
  end.
  cbv beta iota. rewrite ret_run. cbv beta iota.
  destruct ev as [v|s st]; cbn [call_outcome fst isError];
    (split; [reflexivity|]); (split; [reflexivity|]); (split; [reflexivity|]);
    (split; [reflexivity|]); eexists; (split; [apply new_calls_after|]).
  - unfold new_errors. cbn. apply drop_all.
  - unfold new_errors. cbn. now rewrite drop_app_length.
Qed.
End ViewerTheorems.

(** In the miniature session: a view of [cars] in the global environment
    is opened under the empty environment name; a caption that is no string
    raises; duplicating the view gives the copy the key R assigned. *)
Example rs_viewData_global :
  let w := MiniViewer.world ∅ (Mini.mkState [("cars", Mini.cars)] [] [] Mini.mNil []) in
  let r := @rs_viewData MiniViewer.runtime MiniViewer.boundary
             Mini.cars (Mini.mStrings ["Cars"]) (Mini.mChar "cars") Mini.mGlobalEnv
             (Mini.mChar "k1") w in
  fst r = Returned Mini.mNil /\
  @clientEvents MiniViewer.runtime (snd r) =
  [mkClientEvent kShowData
     (json_object
        [("caption", json_str "Cars"); ("totalObservations", json_int 3);
         ("displayedObservations", json_int 3); ("variables", json_int 2);
         ("cacheKey", json_str "k1"); ("object", json_str "cars");
         ("environment", json_str "");
         ("contentUrl",
          json_str "grid_resource/gridviewer.html?env=&obj=cars&cache_key=k1")])].
Proof. cbv zeta. split; vm_compute; reflexivity. Qed.

Example rs_viewData_invalid_caption :
  let w := MiniViewer.world ∅ (Mini.mkState [("cars", Mini.cars)] [] [] Mini.mNil []) in
  let r := @rs_viewData MiniViewer.runtime MiniViewer.boundary
             Mini.cars (Mini.mInt 1) (Mini.mChar "cars") Mini.mGlobalEnv
             (Mini.mChar "k1") w in
  fst r = RError "invalid caption argument" /\
  @clientEvents MiniViewer.runtime (snd r) = [].
Proof. cbv zeta. split; vm_compute; reflexivity. Qed.

Example duplicateDataView_copy :
  let w := MiniViewer.world ∅ (Mini.mkState [("cars", Mini.cars)] [] [] Mini.mNil []) in
  let r := @duplicateDataView MiniViewer.runtime Mini.http MiniViewer.boundary
             (mkJsonRpcRequest [json_str "Cars"; json_str ""; json_str "cars";
                                json_str "k1"])
             None w in
  (json_member "cacheKey" <$>
   match fst r with
   | Return (Success, Some item) => Some item
   | _ => None
   end) = Some (Some (json_str "copy0")).
Proof. cbv zeta. vm_compute. reflexivity. Qed.

(** ** The scan for changes, entry by entry *)

Section ScanTheorems.
Context {conv : SafeConvert} {rt : RRuntime} {hu : HttpUtil}.

Lemma CachedFrame_new_run env obj sexp w :
  exists frame s' delta n',
    CachedFrame_new env obj sexp w =
    (Return frame, after_calls w (s_cachedFrames w) s' delta n') /\
    Forall (fun c => called "names" c \/ called "ncol" c) delta /\
    envName frame = env /\ objName frame = obj.
Proof.
  unfold CachedFrame_new. rewrite bind_run. unfold declare_int at 1. cbv beta iota.
  rewrite bind_run. unfold declare_int at 1. cbv beta iota.
  cbn [s_cachedFrames session calls clientEvents errorLog uninitialized_reads
       recursionCount].
  destruct (bool_decide (sexp = NULL)).
  { eexists _, (session w), [], _. split.
    - rewrite ret_run. unfold after_calls. now rewrite app_nil_r.
    - repeat split. constructor. }
  rewrite bind_run. unfold declare_SEXP at 1. cbv beta iota. rewrite bind_run.
  cbn [s_cachedFrames session calls clientEvents errorLog uninitialized_reads
       recursionCount].
  match goal with
  | |- context [call_SEXP ?f ?v ?w'] => destruct (call_SEXP_run f v w') as (r1 & s1 & ->)
  end.
  cbv beta iota. destruct (call_outcome r1 _) as [e1 names]. rewrite bind_run.
  match goal with
  | |- context [call_int ?f ?v ?w'] => destruct (call_int_run f v w') as (e2 & r2 & s2 & ->)
  end.
  cbv beta iota. rewrite ret_run, after_calls_twice.
  eexists _, s2, _, _. split.
  - unfold after_calls. cbn. reflexivity.
  - repeat split. constructor; [now left|]. constructor; [now right|constructor].
Qed.

Lemma removeWorkingData_keys_app l1 l2 :
  removeWorkingData_keys (l1 ++ l2)
  = removeWorkingData_keys l1 ++ removeWorkingData_keys l2.
Proof. unfold removeWorkingData_keys. apply omap_app. Qed.

Lemma removeWorkingData_keys_other l :
  Forall (fun c => ~ called ".rs.removeWorkingData" c) l ->
  removeWorkingData_keys l = [].
Proof.
  induction 1 as [|c l Hc _ IH]; [reflexivity|].
  change (c :: l) with ([c] ++ l). rewrite removeWorkingData_keys_app, IH, app_nil_r.
  unfold removeWorkingData_keys, called in *. cbn.
  destruct (String.eqb_spec (functionName (fst c)) ".rs.removeWorkingData");
    [contradiction|reflexivity].
Qed.

(** What the scan does at one entry. *)
Lemma onDetectChanges_entry_summary key w :
  let w' := snd (onDetectChanges_entry key w) in
  exists changed delta,
    clientEvents w' = clientEvents w ++ map changed_event changed /\
    calls w' = calls w ++ delta /\
    removeWorkingData_keys delta = map fst changed /\
    errorLog w' = errorLog w /\
    recursionCount w' = recursionCount w /\
    (forall k, k <> key -> s_cachedFrames w' !! k = s_cachedFrames w !! k) /\
    match s_cachedFrames w !! key with
    | None => changed = [] /\ s_cachedFrames w' !! key = None
    | Some frame =>
        (fst (findInNamedEnvir (envName frame) (objName frame) w)
         = Return (observedSEXP frame) /\
         changed = [] /\ s_cachedFrames w' !! key = Some frame) \/
        (fst (findInNamedEnvir (envName frame) (objName frame) w)
         <> Return (observedSEXP frame) /\
         exists b frame',
           changed = [(key, b)] /\ s_cachedFrames w' !! key = Some frame' /\
           envName frame' = envName frame /\ objName frame' = objName frame)
    end.
Proof.
  cbv zeta. pose proof (onDetectChanges_entry_run key w) as Hrun.
  destruct (s_cachedFrames w !! key) as [frame|] eqn:Hkey.
  2:{ rewrite Hrun. cbn [snd]. exists [], []. rewrite !app_nil_r.
      repeat split; auto. }
  destruct Hrun as (sexp & w1 & Hfind & Hrun).
  destruct (findInNamedEnvir_run (envName frame) (objName frame) w)
    as (sexp' & s1 & d1 & Hfind' & Hd1).
  rewrite Hfind in Hfind'. injection Hfind' as <- ->. rewrite Hfind. cbn [fst].
  assert (Hd1' : removeWorkingData_keys d1 = []).
  { apply removeWorkingData_keys_other.
    destruct Hd1 as [->|(ev & ->)]; repeat constructor. discriminate. }
  destruct (bool_decide (sexp = observedSEXP frame)) eqn:Hsame.
  - apply bool_decide_eq_true in Hsame. subst sexp. rewrite Hrun. cbn [snd].
    exists [], d1. rewrite app_nil_r.
    repeat match goal with |- _ /\ _ => split end; try reflexivity; auto.
  - apply bool_decide_eq_false in Hsame.
    destruct Hrun as (newFrame & w2 & r & s3 & Hnew & Hrun).
    destruct (CachedFrame_new_run (envName frame) (objName frame) sexp
                (after_calls w (s_cachedFrames w) s1 d1 (uninitialized_reads w)))
      as (nf & s2 & d2 & n2 & Hnew' & Hd2 & Henv & Hobj).
    rewrite Hnew in Hnew'. injection Hnew' as <- ->. rewrite Hrun. cbn [snd].
    rewrite after_calls_twice.
    cbn [s_cachedFrames calls clientEvents errorLog recursionCount uninitialized_reads
         after_calls].
    assert (Hd2' : removeWorkingData_keys d2 = []).
    { apply removeWorkingData_keys_other. eapply Forall_impl; [exact Hd2|].
      intros c [Hc|Hc] Hrm; unfold called in *; rewrite Hc in Hrm; discriminate. }
    eexists [(key, _)], ((d1 ++ d2) ++ [_]).
    repeat match goal with |- _ /\ _ => split end.
    + reflexivity.
    + now rewrite <- !app_assoc.
    + rewrite !removeWorkingData_keys_app, Hd1', Hd2'. reflexivity.
    + reflexivity.
    + reflexivity.
    + intros k Hk. now rewrite lookup_insert_ne by congruence.
    + right. split; [congruence|]. eexists _, newFrame.
      split; [reflexivity|]. split; [apply lookup_insert_eq|]. auto.
Qed.

Lemma keys_before_head key keys : keys_before key (key :: keys) = [].
Proof. cbn [keys_before]. now rewrite String.eqb_refl. Qed.

Lemma keys_before_tail k key keys :
  k <> key -> keys_before key (k :: keys) = k :: keys_before key keys.
Proof.
  intros Hne. cbn [keys_before].
  destruct (String.eqb_spec k key); [contradiction|reflexivity].
Qed.

(** What the scan does over a list of distinct cache keys. *)
Lemma for_each_summary (keys : list string) (w : World) :
  NoDup keys ->
  let w' := snd (for_each keys onDetectChanges_entry w) in
  exists (changed : list (string * bool)) delta,
    sublist (map fst changed) keys /\
    clientEvents w' = clientEvents w ++ map changed_event changed /\
    calls w' = calls w ++ delta /\
    removeWorkingData_keys delta = map fst changed /\
    errorLog w' = errorLog w /\
    recursionCount w' = recursionCount w /\
    (forall k, k ∉ keys -> s_cachedFrames w' !! k = s_cachedFrames w !! k) /\
    (forall k : string,
        k ∈ keys ->
        match s_cachedFrames w !! k with
        | None => (k ∉ map fst changed) /\ s_cachedFrames w' !! k = None
        | Some frame =>
            let wk := snd (for_each (keys_before k keys) onDetectChanges_entry w) in
            (fst (findInNamedEnvir (envName frame) (objName frame) wk)
             = Return (observedSEXP frame) /\
             (k ∉ map fst changed) /\ s_cachedFrames w' !! k = Some frame) \/
            (fst (findInNamedEnvir (envName frame) (objName frame) wk)
             <> Return (observedSEXP frame) /\
             k ∈ map fst changed /\
             exists frame',
               s_cachedFrames w' !! k = Some frame' /\
               envName frame' = envName frame /\ objName frame' = objName frame)
        end).
Proof.
  intros Hnd. revert w. induction Hnd as [|k0 keys Hk0 Hnd IH]; intros w; cbv zeta.
  - exists [], []. cbn [for_each]. rewrite ret_run. cbn [snd map]. rewrite !app_nil_r.
    split; [constructor|].
    repeat match goal with |- _ /\ _ => split end; auto.
    intros k Hk. now apply elem_of_nil in Hk.
  - cbn [for_each]. rewrite bind_run.
    destruct (onDetectChanges_entry_summary k0 w)
      as (c0 & d0 & He0 & Hc0 & Hr0 & Hl0 & Hn0 & Ho0 & Hk0').
    destruct (onDetectChanges_entry_effect k0 w) as (Hret & _).
    destruct (onDetectChanges_entry k0 w) as [r w1] eqn:Hent. cbn [fst snd] in *. subst r.
    cbv beta iota.
    destruct (IH w1) as (c1 & d1 & Hs1 & He1 & Hc1 & Hr1 & Hl1 & Hn1 & Ho1 & Hk1).
    cbv zeta in Hk1.
    set (w' := snd (for_each keys onDetectChanges_entry w1)) in *.
    assert (Hc0k : c0 = [] \/ exists b, c0 = [(k0, b)]).
    { destruct (s_cachedFrames w !! k0).
      - destruct Hk0' as [(_ & -> & _) | (_ & b & f & -> & _)]; eauto.
      - destruct Hk0' as (-> & _). now left. }
    assert (Hk0c1 : k0 ∉ map fst c1).
    { intros Hin. apply Hk0. eapply elem_of_sublist; eauto. }
    exists (c0 ++ c1), (d0 ++ d1).
    repeat match goal with |- _ /\ _ => split end.
    + rewrite map_app. destruct Hc0k as [->|(b & ->)]; cbn [map app fst].
      * now apply sublist_cons.
      * now apply sublist_skip.
    + rewrite He1, He0, map_app. now rewrite app_assoc.
    + rewrite Hc1, Hc0. now rewrite app_assoc.
    + rewrite removeWorkingData_keys_app, map_app. congruence.
    + congruence.
    + congruence.
    + intros k Hk. rewrite not_elem_of_cons in Hk. destruct Hk as [Hne Hk].
      rewrite (Ho1 k Hk). now apply Ho0.
    + intros k Hk. destruct (decide (k = k0)) as [->|Hne].
      * rewrite keys_before_head. cbn [for_each]. rewrite ret_run. cbn [snd].
        rewrite (Ho1 k0 Hk0).
        destruct (s_cachedFrames w !! k0) as [frame|]; rewrite map_app, elem_of_app.
        -- destruct Hk0' as [(Hf & -> & Hfr) | (Hf & b & f & -> & Hfr & He & Hob)].
           ++ left. split; [exact Hf|]. split; [|exact Hfr].
              intros [Hin|Hin]; [now apply elem_of_nil in Hin|contradiction].
           ++ right. split; [exact Hf|]. split; [left; apply list_elem_of_here|].
              exists f. auto.
        -- destruct Hk0' as (-> & Hfr). split; [|exact Hfr].
           intros [Hin|Hin]; [now apply elem_of_nil in Hin|contradiction].
      * apply elem_of_cons in Hk as [Hk|Hk]; [contradiction|].
        rewrite keys_before_tail by congruence. cbn [for_each]. rewrite bind_run, Hent.
        cbv beta iota.
        pose proof (Ho0 k Hne) as Hsame.
        specialize (Hk1 k Hk). rewrite Hsame in Hk1.
        assert (Hc0k' : k ∉ map fst c0).
        { destruct Hc0k as [->|(b & ->)]; cbn [map fst].
          - apply not_elem_of_nil.
          - intros Hin. apply list_elem_of_singleton in Hin. contradiction. }
        destruct (s_cachedFrames w !! k) as [frame|]; rewrite map_app, elem_of_app.
        -- destruct Hk1 as [(Hf & Hn & Hfr) | (Hf & Hin & Hfr)].
           ++ left. split; [exact Hf|]. split; [|exact Hfr]. tauto.
           ++ right. split; [exact Hf|]. split; [now right|exact Hfr].
        -- destruct Hk1 as (Hn & Hfr). split; [tauto|exact Hfr].
Qed.


Lemma set_recursionCount_id w : set_recursionCount (recursionCount w) w = w.
Proof. now destruct w. Qed.

(** A scan inside a scan does nothing. *)
Lemma onDetectChanges_nested w :
  recursionCount w <> 0%nat -> onDetectChanges w = (Return tt, w).
Proof.
  intros Hrc. unfold onDetectChanges.
  destruct (recursionCount w) as [|n] eqn:Hn; [contradiction|].
  cbn [set_recursionCount recursionCount Nat.ltb Nat.leb Nat.pred].
  f_equal. rewrite <- Hn. destruct w; reflexivity.
Qed.

(** The outermost scan. *)
Lemma onDetectChanges_summary w :
  recursionCount w = 0%nat ->
  let w' := snd (onDetectChanges w) in
  fst (onDetectChanges w) = Return tt /\
  exists (changed : list (string * bool)) delta,
    sublist (map fst changed) (registry_keys (s_cachedFrames w)) /\
    clientEvents w' = clientEvents w ++ map changed_event changed /\
    calls w' = calls w ++ delta /\
    removeWorkingData_keys delta = map fst changed /\
    errorLog w' = errorLog w /\
    recursionCount w' = recursionCount w /\
    (forall k : string,
        match s_cachedFrames w !! k with
        | None => (k ∉ map fst changed) /\ s_cachedFrames w' !! k = None
        | Some frame =>
            (fst (findInNamedEnvir (envName frame) (objName frame) (scan_reaches w k))
             = Return (observedSEXP frame) /\
             (k ∉ map fst changed) /\ s_cachedFrames w' !! k = Some frame) \/
            (fst (findInNamedEnvir (envName frame) (objName frame) (scan_reaches w k))
             <> Return (observedSEXP frame) /\
             k ∈ map fst changed /\
             exists frame',
               s_cachedFrames w' !! k = Some frame' /\
               envName frame' = envName frame /\ objName frame' = objName frame)
        end).
Proof.
  intros Hrc. cbv zeta. unfold onDetectChanges, scan_reaches.
  set (wS := set_recursionCount (S (recursionCount w)) w).
  replace (recursionCount wS) with 1%nat by (subst wS; cbn; now rewrite Hrc).
  cbn [Nat.ltb Nat.leb].
  change (s_cachedFrames wS) with (s_cachedFrames w).
  destruct (for_each_summary (registry_keys (s_cachedFrames w)) wS
              (registry_keys_NoDup _))
    as (changed & delta & Hsub & He & Hc & Hr & Hl & Hn & Ho & Hk).
  destruct (for_each_effect (registry_keys (s_cachedFrames w)) wS) as (Hret & _).
  cbv zeta in Hk.
  destruct (for_each (registry_keys (s_cachedFrames w)) onDetectChanges_entry wS)
    as [r w1] eqn:Hrun.
  cbn [fst snd] in *. subst r. split; [reflexivity|].
  exists changed, delta.
  cbn [set_recursionCount clientEvents calls errorLog recursionCount s_cachedFrames].
  split; [exact Hsub|]. split; [exact He|]. split; [exact Hc|]. split; [exact Hr|].
  split; [exact Hl|]. split; [rewrite Hn; subst wS; cbn; now rewrite Hrc|].
  intros k. change (s_cachedFrames wS) with (s_cachedFrames w) in *.
  destruct (s_cachedFrames w !! k) as [frame|] eqn:Hkey.
  - assert (Hin : k ∈ registry_keys (s_cachedFrames w))
      by (apply registry_keys_elem; eauto).
    specialize (Hk k Hin). rewrite Hkey in Hk. exact Hk.
  - assert (Hnin : k ∉ registry_keys (s_cachedFrames w)).
    { rewrite registry_keys_elem, Hkey. intros [x Hx]. discriminate Hx. }
    split.
    + intros Hin. apply Hnin. eapply elem_of_sublist; eauto.
    + rewrite (Ho k Hnin). exact Hkey.
Qed.

(** X17.  [onDetectChanges] never throws, logs no error, and leaves the
    counter of its recursion guard as it found it.  Called while a scan is
    under way, the counter being above 0, it does nothing at all: the
    world is left exactly as it was. *)
Theorem onDetectChanges_recursion_guard w :
  fst (onDetectChanges w) = Return tt /\
  recursionCount (snd (onDetectChanges w)) = recursionCount w /\
  errorLog (snd (onDetectChanges w)) = errorLog w /\
  ((0 < recursionCount w)%nat -> snd (onDetectChanges w) = w).
Proof.
  destruct (decide (recursionCount w = 0%nat)) as [Hrc|Hrc].
  - destruct (onDetectChanges_summary w Hrc)
      as (Hret & changed & delta & _ & _ & _ & _ & Hl & Hn & _).
    repeat split; auto. lia.
  - rewrite (onDetectChanges_nested w Hrc). repeat split.
Qed.

(** X18.  A scan neither adds nor drops a cache key, and a frame keeps
    watching the object it watched: after [onDetectChanges] a cache key has
    a frame exactly when it had one before, and that frame has the
    environment name and the object name of the frame before. *)
Theorem onDetectChanges_keeps_watch w (k : string) :
  match s_cachedFrames w !! k with
  | None => s_cachedFrames (snd (onDetectChanges w)) !! k = None
  | Some frame =>
      exists frame',
        s_cachedFrames (snd (onDetectChanges w)) !! k = Some frame' /\
        envName frame' = envName frame /\ objName frame' = objName frame
  end.
Proof.
  destruct (decide (recursionCount w = 0%nat)) as [Hrc|Hrc].
  - destruct (onDetectChanges_summary w Hrc)
      as (_ & changed & delta & _ & _ & _ & _ & _ & _ & Hk).
    specialize (Hk k). destruct (s_cachedFrames w !! k) as [frame|].
    + destruct Hk as [(_ & _ & Hf) | (_ & _ & Hf)]; [|exact Hf].
      exists frame. auto.
    + tauto.
  - rewrite (onDetectChanges_nested w Hrc). cbn [snd].
    destruct (s_cachedFrames w !! k) as [frame|]; eauto.
Qed.

(** X19.  What a scan reports.  There is a list of changed cache keys,
    each with a structure flag, such that the client events the scan emits
    are exactly the change events of these keys, in this order, and the
    [.rs.removeWorkingData] calls it makes are exactly those of these keys,
    in this order.  The keys are registered cache keys in the order of the
    registry, each at most once; a cache key without a frame is never
    reported; and the frame of a key that is not reported is left exactly
    as it was, the transform recorded in it included. *)
Theorem onDetectChanges_reports w :
  let w' := snd (onDetectChanges w) in
  exists changed : list (string * bool),
    sublist (map fst changed) (registry_keys (s_cachedFrames w)) /\
    NoDup (map fst changed) /\
    new_events w w' = map changed_event changed /\
    removeWorkingData_keys (new_calls w w') = map fst changed /\
    (forall k : string, s_cachedFrames w !! k = None -> k ∉ map fst changed) /\
    (forall (k : string) frame,
        s_cachedFrames w !! k = Some frame -> k ∉ map fst changed ->
        s_cachedFrames w' !! k = Some frame).
Proof.
  cbv zeta. destruct (decide (recursionCount w = 0%nat)) as [Hrc|Hrc].
  - destruct (onDetectChanges_summary w Hrc)
      as (_ & changed & delta & Hsub & He & Hc & Hr & _ & _ & Hk).
    exists changed. split; [exact Hsub|].
    split; [eapply sublist_NoDup; [apply registry_keys_NoDup|exact Hsub]|].
    split; [unfold new_events; now rewrite He, drop_app_length|].
    split; [unfold new_calls; now rewrite Hc, drop_app_length|].
    split.
    + intros k Hkey. specialize (Hk k). rewrite Hkey in Hk. tauto.
    + intros k frame Hkey Hn. specialize (Hk k). rewrite Hkey in Hk.
      destruct Hk as [(_ & _ & Hf) | (_ & Hin & _)]; [exact Hf|contradiction].
  - rewrite (onDetectChanges_nested w Hrc). cbn [snd]. exists [].
    split; [apply sublist_nil_l|]. split; [constructor|].
    split; [unfold new_events; apply drop_all|].
    split; [unfold new_calls; now rewrite drop_all|].
    split; [intros; apply not_elem_of_nil|auto].
Qed.

(** X20.  A frame whose object is found unchanged is left alone.  Take a
    registered frame and the world in which the outermost scan reaches it:
    if looking its object up gives the pointer the frame observed, then
    after the scan the registry holds the very same frame under the cache
    key, no change event was emitted for the key, and no
    [.rs.removeWorkingData] was called for it. *)
Theorem onDetectChanges_unchanged_frame w (key : string) frame :
  recursionCount w = 0%nat ->
  s_cachedFrames w !! key = Some frame ->
  fst (findInNamedEnvir (envName frame) (objName frame) (scan_reaches w key))
  = Return (observedSEXP frame) ->
  let w' := snd (onDetectChanges w) in
  s_cachedFrames w' !! key = Some frame /\
  (forall b, data_view_changed key b ∉ new_events w w') /\
  key ∉ removeWorkingData_keys (new_calls w w').
Proof.
  intros Hrc Hkey Hfind. cbv zeta.
  destruct (onDetectChanges_summary w Hrc)
    as (_ & changed & delta & Hsub & He & Hc & Hr & _ & _ & Hk).
  specialize (Hk key). rewrite Hkey in Hk.
  destruct Hk as [(_ & Hn & Hf) | (Hne & _)]; [|contradiction].
  split; [exact Hf|]. split.
  - intros b Hin. unfold new_events in Hin. rewrite He, drop_app_length in Hin.
    apply list_elem_of_fmap in Hin as ([k' b'] & Heq & Hin').
    injection Heq as -> ->. apply Hn. apply list_elem_of_fmap.
    exists (k', b'). auto.
  - unfold new_calls. now rewrite Hc, drop_app_length, Hr.
Qed.

(** X21.  A released view is never reported again.  After
    [removeCachedData] of a cache key, the next scan leaves the key without
    a frame, emits no change event for it and calls no
    [.rs.removeWorkingData] for it, whatever has become of its object. *)
Theorem release_stops_reports (key : string) w :
  let w1 := snd (removeCachedData key w) in
  let w2 := snd (onDetectChanges w1) in
  s_cachedFrames w2 !! key = None /\
  (forall b, data_view_changed key b ∉ new_events w1 w2) /\
  key ∉ removeWorkingData_keys (new_calls w1 w2).
Proof.
  cbv zeta. destruct (removeCachedData_run key w) as (ev & s' & ->). cbn [snd].
  set (w1 := after_calls w _ s' _ _).
  assert (Hkey : s_cachedFrames w1 !! key = None) by apply lookup_delete_eq.
  destruct (decide (recursionCount w1 = 0%nat)) as [Hrc|Hrc].
  - destruct (onDetectChanges_summary w1 Hrc)
      as (_ & changed & delta & Hsub & He & Hc & Hr & _ & _ & Hk).
    specialize (Hk key). rewrite Hkey in Hk. destruct Hk as (Hn & Hf).
    split; [exact Hf|]. split.
    + intros b Hin. unfold new_events in Hin. rewrite He, drop_app_length in Hin.
      apply list_elem_of_fmap in Hin as ([k' b'] & Heq & Hin').
      injection Heq as -> ->. apply Hn. apply list_elem_of_fmap.
      exists (k', b'). auto.
    + unfold new_calls. now rewrite Hc, drop_app_length, Hr.
  - rewrite (onDetectChanges_nested w1 Hrc). cbn [snd].
    split; [exact Hkey|]. split.
    + intros b. unfold new_events. rewrite drop_all. apply not_elem_of_nil.
    + unfold new_calls. rewrite drop_all. apply not_elem_of_nil.
Qed.
End ScanTheorems.

(** Witness of X20: in the miniature session, a frame that observes [cars]
    while the global environment still binds [cars] to the same object; the
    search recorded in the frame survives the scan. *)
Lemma onDetectChanges_unchanged_frame_witness :
  let frame := @mkCachedFrame Mini.runtime "" "cars" 2 ["a"; "b"] "y" [""; ""] (-1)
                              "asc" Mini.cars in
  let w := Mini.world {[ "k1" := frame ]}
                      (Mini.mkState [("cars", Mini.cars)] [("k1", Mini.cars)] [] Mini.mNil []) in
  @s_cachedFrames Mini.runtime (snd (@onDetectChanges Mini.runtime w)) !! "k1"
  = Some frame.
Proof.
  intros frame w.
  refine (proj1 (@onDetectChanges_unchanged_frame Mini.runtime w "k1" frame _ _ _)).
  - reflexivity.
  - vm_compute. reflexivity.
  - vm_compute. reflexivity.
Defined.

(** ** The comparator as an order on filters without a numeric range *)

Section ComparatorOrder.
Context {conv : SafeConvert}.
Import Regex RangeText.

Lemma list_ascii_of_string_append a t :
  list_ascii_of_string (a +:+ t) = list_ascii_of_string a ++ list_ascii_of_string t.
Proof.
  induction a as [|c a IH]; [reflexivity|].
  change (String c a +:+ t) with (String c (a +:+ t)).
  cbn [list_ascii_of_string app]. now rewrite IH.
Qed.

Lemma length_append a t :
  String.length (a +:+ t) = (String.length a + String.length t)%nat.
Proof.
  induction a as [|c a IH]; [reflexivity|].
  change (String c a +:+ t) with (String c (a +:+ t)).
  cbn [String.length Nat.add]. now rewrite IH.
Qed.

Lemma append_empty_r a : a +:+ "" = a.
Proof.
  induction a as [|c a IH]; [reflexivity|].
  change (String c a +:+ "") with (String c (a +:+ "")). now rewrite IH.
Qed.

Lemma append_assoc a b c : (a +:+ b) +:+ c = a +:+ b +:+ c.
Proof.
  induction a as [|x a IH]; [reflexivity|].
  change ((String x a +:+ b) +:+ c) with (String x ((a +:+ b) +:+ c)).
  change (String x a +:+ b +:+ c) with (String x (a +:+ b +:+ c)). now rewrite IH.
Qed.

Lemma length_zero_empty t : String.length t = 0%nat -> t = "".
Proof. now destruct t. Qed.

Lemma contains_range_append a t : contains_range a -> contains_range (a +:+ t).
Proof.
  intros (pre & m & post & Ha & Hm).
  exists pre, m, (post ++ list_ascii_of_string t). split; [|exact Hm].
  now rewrite list_ascii_of_string_append, Ha, <- !app_assoc.
Qed.

(** A filter that is narrowed from one with a numeric range has a numeric
    range. *)
Lemma isFilterSubset_range outer inner :
  isFilterSubset outer inner = true -> contains_range outer -> contains_range inner.
Proof.
  intros Hsub Ho.
  destruct (string_dec outer inner) as [<-|Hne]; [exact Ho|].
  destruct (scan_first (list_ascii_of_string inner)) as [[li ui]|] eqn:Ei.
  { apply contains_range_scan. rewrite Ei. discriminate. }
  assert (Hno : ~ (contains_range outer /\ contains_range inner)).
  { intros [_ Hi]. apply contains_range_scan in Hi. contradiction. }
  apply (isFilterSubset_prefix outer inner Hne Hno) in Hsub as (_ & t & ->).
  now apply contains_range_append.
Qed.

(** X22.  On filters without a numeric range [isFilterSubset] is an
    order.  It is antisymmetric on any two strings that do not both hold a
    numeric range: each a subset of the other, they are equal.  It is
    transitive through a middle string that holds no numeric range.  And a
    subset of a string that holds a numeric range holds one too.  Numeric
    ranges break both laws: with decimal conversion ["x1-2"] and ["y1-2"]
    are subsets of each other, and ["a1-9"] is a subset of ["a"] and
    ["b2-3"] of ["a1-9"], but ["b2-3"] is no subset of ["a"]. *)
Theorem isFilterSubset_order :
  (forall a b,
      ~ (contains_range a /\ contains_range b) ->
      isFilterSubset a b = true -> isFilterSubset b a = true -> a = b) /\
  (forall a b c,
      ~ contains_range b ->
      isFilterSubset a b = true -> isFilterSubset b c = true ->
      isFilterSubset a c = true) /\
  (forall a b,
      isFilterSubset a b = true -> contains_range a -> contains_range b) /\
  (@isFilterSubset Decimal.convert "x1-2" "y1-2" = true /\
   @isFilterSubset Decimal.convert "y1-2" "x1-2" = true /\
   @isFilterSubset Decimal.convert "a" "a1-9" = true /\
   @isFilterSubset Decimal.convert "a1-9" "b2-3" = true /\
   @isFilterSubset Decimal.convert "a" "b2-3" = false).
Proof.
  split; [|split; [|split; [exact isFilterSubset_range|]]].
  - intros a b Hno Hab Hba.
    destruct (string_dec a b) as [->|Hne]; [reflexivity|].
    apply (isFilterSubset_prefix a b Hne Hno) in Hab as (_ & t & Hb).
    assert (Hno' : ~ (contains_range b /\ contains_range a)) by tauto.
    apply (isFilterSubset_prefix b a (not_eq_sym Hne) Hno') in Hba as (_ & t' & Ha).
    assert (Hlen : String.length t = 0%nat).
    { apply (f_equal String.length) in Ha. rewrite Hb in Ha.
      rewrite !length_append in Ha. lia. }
    apply length_zero_empty in Hlen. subst t. now rewrite append_empty_r in Hb.
  - intros a b c Hb Hab Hbc.
    assert (Ha : ~ contains_range a).
    { intros Ha. apply Hb. eapply isFilterSubset_range; eauto. }
    destruct (string_dec a b) as [->|Hab']; [exact Hbc|].
    destruct (string_dec b c) as [<-|Hbc']; [exact Hab|].
    destruct (string_dec a c) as [->|Hac']; [apply isFilterSubset_refl|].
    apply (isFilterSubset_prefix a b Hab') in Hab as (_ & t & ->); [|tauto].
    apply (isFilterSubset_prefix _ c Hbc') in Hbc as (_ & t' & ->); [|tauto].
    apply (isFilterSubset_prefix a _ Hac'); [tauto|].
    split.
    + rewrite !length_append. lia.
    + exists (t +:+ t'). apply append_assoc.
  - repeat split; vm_compute; reflexivity.
Qed.
End ComparatorOrder.

(** ** The lookup of the data of a grid request *)

Section GridLookup.
Context {conv : SafeConvert} {rt : RRuntime} {hu : HttpUtil}.

Notation "'let!' x ':=' m 'in' k" := (bind m (fun x => k))
  (at level 10, x pattern, m at level 100, k at level 200).

(** A page request calls no R function but its seven. *)
Lemma getData_calls_other d fields w name :
  name <> "nrow" -> name <> "ncol" -> name <> ".rs.findWorkingData" ->
  name <> ".rs.applyTransform" -> name <> ".rs.saveWorkingData" ->
  name <> ".rs.formatDataColumn" -> name <> ".rs.formatRowNames" ->
  exists frames' s' delta n',
    snd (getData d fields w) = after_calls w frames' s' delta n' /\
    Forall (fun c => ~ called name c) delta.
Proof.
  intros N1 N2 N3 N4 N5 N6 N7.
  destruct (getData_run d fields w) as (r1 & r2 & Hdim & Hrun). cbv zeta in Hdim, Hrun.
  destruct Hrun as (view & tr & cnt & rest & frames' & dd & F & s' & n' & result
                    & Hget & Hpolicy & Hpage).
  eexists frames', s', _, n'. split; [now rewrite Hget|].
  assert (Hrest : Forall (fun c => ~ called name c) rest).
  { assert (H : Forall (fun c => called ".rs.formatDataColumn" c \/
                                 called ".rs.formatRowNames" c) rest).
    { destruct Hpage as [(_ & -> & _) | (fcalls & Hall & Hres)]; [constructor|].
      eapply page_calls_named; [exact Hall|].
      destruct Hres as [(fmt & rr & rn0 & _ & -> & _)
                       | [(i & _ & _ & _ & ->) | (i & s & st & _ & _ & ->)]]; eauto 10. }
    eapply Forall_impl; [exact H|]. intros c [Hc|Hc] Hn; unfold called in *; congruence. }
  assert (Hview : Forall (fun c => ~ called name c) view).
  { destruct Hpolicy as [(_ & -> & _)
                        | [(_ & frame & r & rc & _ & -> & _)
                          | (_ & x & rx & [(_ & -> & _) | (frame & r & _ & -> & _)] & _)]];
      repeat constructor; intros Hc; unfold called in Hc; cbn in Hc; congruence. }
  assert (Htr : Forall (fun c => ~ called name c) tr).
  { destruct Hpolicy as [(_ & _ & -> & _)
                        | [(_ & frame & r & rc & _ & _ & _ & _ & -> & _)
                          | (_ & x & rx & _ & _ & [(_ & -> & _) | (_ & rs & rc & -> & _)])]];
      repeat constructor; intros Hc; unfold called in Hc; cbn in Hc; congruence. }
  assert (Hcnt : Forall (fun c => ~ called name c) cnt).
  { destruct Hpolicy as [(_ & _ & _ & -> & _)
                        | [(_ & frame & r & rc & _ & _ & _ & _ & _ & _ & -> & _)
                          | (_ & x & rx & _ & _ & [(_ & _ & -> & _) | (_ & rs & rc & _ & -> & _)])]];
      repeat constructor; intros Hc; unfold called in Hc; cbn in Hc; congruence. }
  rewrite !Forall_app.
  repeat match goal with |- _ /\ _ => split end; auto;
    repeat constructor; intros Hc; unfold called in Hc; cbn in Hc; congruence.
Qed.

Lemma getCols_run d w :
  exists ev s' result,
    getCols d w =
    (Return result,
     after_calls w (s_cachedFrames w) s'
       [(mkRFunction ".rs.describeCols" [("", PSexp d)], ev)] (uninitialized_reads w)).
Proof.
  unfold getCols. rewrite bind_run.
  match goal with
  | |- context [call_SEXP ?f ?v ?w'] => destruct (call_SEXP_run f v w') as (ev & s' & ->)
  end.
  cbv beta iota. destruct (call_outcome ev NULL) as [e cols]. rewrite ret_run.
  eexists ev, s', _. reflexivity.
Qed.

(** The registration of a frame at the start of a grid request. *)
Lemma registration_run env obj key w :
  exists frames' s' delta n',
    (if negb (String.eqb env kNoBoundEnv) then
       let! objSEXP := findInNamedEnvir env obj in
       let! it := find_frame key in
       match it with
       | None =>
           let! frame := CachedFrame_new env obj objSEXP in
           set_frames (insert key frame)
       | Some _ => ret tt
       end
     else ret tt) w
    = (Return tt, after_calls w frames' s' delta n') /\
    Forall (fun c => ~ called ".rs.findDataFrame" c) delta.
Proof.
  destruct (negb _).
  2:{ exists (s_cachedFrames w), (session w), [], (uninitialized_reads w).
      rewrite after_calls_id. split; [reflexivity|constructor]. }
  rewrite bind_run.
  destruct (findInNamedEnvir_run env obj w) as (sexp & s1 & d1 & -> & Hd1).
  cbv beta iota. rewrite bind_run. unfold find_frame at 1. cbv beta iota.
  assert (H1 : Forall (fun c => ~ called ".rs.findDataFrame" c) d1).
  { destruct Hd1 as [->|(ev & ->)]; repeat constructor. discriminate. }
  change (s_cachedFrames (after_calls w (s_cachedFrames w) s1 d1 (uninitialized_reads w)))
    with (s_cachedFrames w).
  destruct (s_cachedFrames w !! key).
  { rewrite ret_run. eexists _, _, _, _. split; [reflexivity|exact H1]. }
  rewrite bind_run.
  match goal with
  | |- context [CachedFrame_new ?a ?b ?c ?w'] =>
      destruct (CachedFrame_new_run a b c w') as (frame & s2 & d2 & n2 & -> & Hd2 & _)
  end.
  cbv beta iota. rewrite after_calls_twice. unfold set_frames.
  eexists _, _, _, _. split; [reflexivity|].
  apply Forall_app. split; [exact H1|].
  eapply Forall_impl; [exact Hd2|].
  intros c [Hc|Hc] Hn; unfold called in *; congruence.
Qed.

(** What [getGridData] returns, from what its block comes to. *)
Lemma getGridData_result request response w :
  fst (getGridData request response w) =
  match fst (getGridData_try request w) with
  | Return NoOp => Some (Success, response)
  | Return (Answered result _) =>
      Some (Success, mkResponse status_Ok (json_write result))
  | Return NullDereference => None
  | Throw message =>
      Some (Success,
            mkResponse status_InternalServerError
                       (json_write (json_object [("error", json_str message)])))
  end.
Proof.
  unfold getGridData.
  destruct (getGridData_try request w) as [[[|result code|]|e] w']; reflexivity.
Qed.

(** The run of a grid request that is past both early returns: the calls
    before the lookup, the lookup, and what follows it. *)
Lemma getGridData_run request response w fields :
  request_fields request = Some fields ->
  urlDecode (fieldValue_string fields "obj" "") <> "" \/
  urlDecode (fieldValue_string fields "cache_key" "") <> "" ->
  let w' := snd (getGridData request response w) in
  exists pre ev post,
    new_calls w w' =
      pre ++ (mkRFunction ".rs.findDataFrame"
                [("", PString (urlDecode (fieldValue_string fields "env" "")));
                 ("", PString (urlDecode (fieldValue_string fields "obj" "")));
                 ("", PString (urlDecode (fieldValue_string fields "cache_key" "")));
                 ("", PString viewerCacheDir)], ev) :: post /\
    Forall (fun c => ~ called ".rs.findDataFrame" c) (pre ++ post) /\
    new_errors w w' = match ev with Raised s _ => [Failure s] | Value _ => [] end /\
    new_events w w' = [] /\
    (fst (getGridData_try request w) = Return NullDereference
     <-> SEXP_result ev NULL = NULL) /\
    (fieldValue_string fields "show" "data" <> "data" ->
     fst (getGridData_try request w) = Return NullDereference \/
     exists result code,
       fst (getGridData_try request w) = Return (Answered result code)).
Proof.
  intros Hf Hnames w'. subst w'. rewrite getGridData_world.
  unfold request_fields in Hf. unfold getGridData_try.
  destruct (index 0 "?" (uri request)) as [pos|]; [|discriminate].
  injection Hf as Hf. rewrite Hf. clear Hf.
  set (env := urlDecode (fieldValue_string fields "env" "")).
  set (obj := urlDecode (fieldValue_string fields "obj" "")).
  set (key := urlDecode (fieldValue_string fields "cache_key" "")).
  fold obj key in Hnames.
  assert (Hne : String.eqb obj "" && String.eqb key "" = false).
  { destruct (String.eqb_spec obj ""), (String.eqb_spec key ""); try reflexivity.
    destruct Hnames; contradiction. }
  rewrite Hne. cbv zeta. rewrite bind_run.
  destruct (registration_run env obj key w) as (F1 & s1 & pre & n1 & -> & Hpre).
  cbv beta iota. rewrite bind_run.
  set (fn := mkRFunction ".rs.findDataFrame" _).
  destruct (call_SEXP_run fn NULL (after_calls w F1 s1 pre n1)) as (ev & s2 & ->).
  cbv beta iota. rewrite after_calls_twice. cbn [s_cachedFrames uninitialized_reads after_calls].
  fold (after_calls w F1 s2 (pre ++ [(fn, ev)]) n1).
  exists pre, ev. unfold SEXP_result.
  assert (Hlog : forall error dataSEXP, call_outcome ev NULL = (error, dataSEXP) ->
            exists w3,
              (if isError error then LOG_ERROR error else ret tt)
                (after_calls w F1 s2 (pre ++ [(fn, ev)]) n1) = (Return tt, w3) /\
              calls w3 = calls w ++ pre ++ [(fn, ev)] /\
              errorLog w3 =
                errorLog w ++ match ev with Raised s _ => [Failure s] | Value _ => [] end /\
              clientEvents w3 = clientEvents w).
  { intros error d Hout. destruct ev as [v|s stored]; cbn in Hout;
      injection Hout as <- <-; cbn [isError]; eexists; (split; [reflexivity|]);
      cbn; rewrite ?app_nil_r; auto. }
  destruct (call_outcome ev NULL) as [error dataSEXP].
  destruct (Hlog error dataSEXP eq_refl) as (w3 & Hw3 & Hc3 & He3 & Hv3). clear Hlog.
  rewrite bind_run, Hw3. cbv beta iota. cbn [snd].
  assert (Hend : forall post w4,
            calls w4 = calls w3 ++ post -> errorLog w4 = errorLog w3 ->
            clientEvents w4 = clientEvents w3 ->
            Forall (fun c => ~ called ".rs.findDataFrame" c) post ->
            new_calls w w4 = pre ++ (fn, ev) :: post /\
            Forall (fun c => ~ called ".rs.findDataFrame" c) (pre ++ post) /\
            new_errors w w4 = match ev with Raised s _ => [Failure s] | Value _ => [] end /\
            new_events w w4 = []).
  { intros post w4 Hc4 He4 Hv4 Hpost. unfold new_calls, new_errors, new_events.
    rewrite Hc4, He4, Hv4, Hc3, He3, Hv3.
    rewrite <- !app_assoc, !drop_app_length, drop_all.
    repeat match goal with |- _ /\ _ => split end; auto.
    apply Forall_app; auto. }
  assert (Hnil : calls w3 = calls w3 ++ []) by now rewrite app_nil_r.
  pose proof (Hend [] w3 Hnil eq_refl eq_refl (Forall_nil_2 _)) as (N1 & N2 & N3 & N4).
  destruct (bool_decide_reflect (dataSEXP = NULL)) as [Hnull|Hnull].
  { exists []. rewrite ret_run. cbn [fst snd].
    repeat match goal with |- _ /\ _ => split end; auto.
    split; auto. }
  destruct (_ || _).
  { exists []. rewrite ret_run. cbn [fst snd].
    repeat match goal with |- _ /\ _ => split end; auto;
      try (split; intros; [discriminate|contradiction]; fail).
    intros _. right. eauto. }
  destruct (String.eqb _ "cols").
  { rewrite bind_run.
    match goal with
    | |- context [getCols ?d w3] => destruct (getCols_run d w3) as (r & s4 & res & ->)
    end.
    cbv beta iota. rewrite ret_run. cbn [fst snd].
    match goal with
    | |- context [after_calls w3 ?F ?s ?delta ?n] =>
        exists delta;
        destruct (Hend delta (after_calls w3 F s delta n)) as (H1 & H2 & H3 & H4);
          [reflexivity|reflexivity|reflexivity| |]
    end.
    { repeat constructor. discriminate. }
    repeat match goal with |- _ /\ _ => split end; auto;
      try (split; intros; [discriminate|contradiction]; fail).
    intros _. right. eauto. }
  destruct (String.eqb_spec (fieldValue_string fields "show" "data") "data") as [Hd|Hd].
  2:{ exists []. rewrite ret_run. cbn [fst snd].
      repeat match goal with |- _ /\ _ => split end; auto;
        try (split; intros; [discriminate|contradiction]; fail).
      intros _. right. eauto. }
  rewrite bind_run.
  match goal with
  | |- context [getData ?d ?f w3] =>
      destruct (getData_calls_other d f w3 ".rs.findDataFrame")
        as (F4 & s4 & post & n4 & Hget & Hpost); try discriminate;
      destruct (getData d f w3) as [res w4]
  end.
  cbn [snd] in Hget. subst w4. exists post.
  destruct (Hend post (after_calls w3 F4 s4 post n4)) as (H1 & H2 & H3 & H4);
    [reflexivity|reflexivity|reflexivity|exact Hpost|].
  destruct res; rewrite ?ret_run; cbn [fst snd];
    repeat match goal with |- _ /\ _ => split end; auto;
      try (split; intros; [discriminate|contradiction]; fail);
      intros Hs; contradiction.
Qed.

(** X23.  A grid request with a query string that names an object or a
    cache key asks R for the data exactly once: one call of
    [.rs.findDataFrame] with the decoded environment, object and cache key
    and the cache directory, whatever was called before and after it.  The
    error log grows by the failure of that call and by nothing else, and
    the request sends no client event. *)
Theorem getGridData_lookup request response w fields :
  request_fields request = Some fields ->
  urlDecode (fieldValue_string fields "obj" "") <> "" \/
  urlDecode (fieldValue_string fields "cache_key" "") <> "" ->
  let w' := snd (getGridData request response w) in
  exists pre ev post,
    new_calls w w' =
      pre ++ (mkRFunction ".rs.findDataFrame"
                [("", PString (urlDecode (fieldValue_string fields "env" "")));
                 ("", PString (urlDecode (fieldValue_string fields "obj" "")));
                 ("", PString (urlDecode (fieldValue_string fields "cache_key" "")));
                 ("", PString viewerCacheDir)], ev) :: post /\
    Forall (fun c => ~ called ".rs.findDataFrame" c) (pre ++ post) /\
    new_errors w w' = match ev with Raised s _ => [Failure s] | Value _ => [] end /\
    new_events w w' = [].
Proof.
  intros Hf Hnames w'.
  destruct (getGridData_run request response w fields Hf Hnames)
    as (pre & ev & post & H1 & H2 & H3 & H4 & _).
  exists pre, ev, post. auto.
Qed.


(** X5.  A grid request that asks to [show] anything but ["data"] never
    ends in the branch for R errors: the block of [getGridData] does not
    throw, and the handler, where it returns, returns [Success] with the
    response left as it was or written with status Ok. *)
Theorem getGridData_only_data_fails request response w fields :
  request_fields request = Some fields ->
  fieldValue_string fields "show" "data" <> "data" ->
  (forall message, fst (getGridData_try request w) <> Throw message) /\
  (fst (getGridData request response w) = None \/
   fst (getGridData request response w) = Some (Success, response) \/
   exists result,
     fst (getGridData request response w) =
     Some (Success, mkResponse status_Ok (json_write result))).
Proof.
  intros Hf Hshow.
  assert (Htry : fst (getGridData_try request w) = Return NoOp \/
                 fst (getGridData_try request w) = Return NullDereference \/
                 exists result code,
                   fst (getGridData_try request w) = Return (Answered result code)).
  { destruct (String.eqb_spec (urlDecode (fieldValue_string fields "obj" "")) "")
      as [Hobj|Hobj];
      [destruct (String.eqb_spec (urlDecode (fieldValue_string fields "cache_key" "")) "")
        as [Hkey|Hkey]|].
    - left. unfold request_fields in Hf. unfold getGridData_try.
      destruct (index 0 "?" (uri request)); [|discriminate]. injection Hf as Hf.
      rewrite Hf, Hobj, Hkey. reflexivity.
    - destruct (getGridData_run request response w fields Hf (or_intror Hkey))
        as (pre & ev & post & _ & _ & _ & _ & _ & Hres).
      right. exact (Hres Hshow).
    - destruct (getGridData_run request response w fields Hf (or_introl Hobj))
        as (pre & ev & post & _ & _ & _ & _ & _ & Hres).
      right. exact (Hres Hshow). }
  split.
  - intros message Hthrow. rewrite Hthrow in Htry.
    destruct Htry as [H|[H|(result & code & H)]]; discriminate.
  - rewrite getGridData_result.
    destruct Htry as [->|[->|(result & code & ->)]]; eauto.
Qed.
End GridLookup.

(** Witness of X23: a request for the columns of [cars]. *)
Lemma getGridData_lookup_witness :
  let request := mkRequest "/grid_data?obj=cars&cache_key=k1&show=cols" in
  let w := Mini.world ∅ (Mini.mkState [("cars", Mini.cars)] [] [] Mini.mNil []) in
  exists pre ev post,
    @new_calls Mini.runtime w (snd (@getGridData Decimal.convert Mini.runtime Mini.http request
                        (mkResponse status_Ok "") w)) =
      pre ++ (mkRFunction ".rs.findDataFrame"
                [("", PString ""); ("", PString "cars"); ("", PString "k1");
                 ("", PString (@viewerCacheDir Mini.http))], ev) :: post.
Proof.
  intros request w.
  destruct (@getGridData_lookup Decimal.convert Mini.runtime Mini.http request
              (mkResponse status_Ok "") w
              (@parseQueryString Mini.http "obj=cars&cache_key=k1&show=cols"))
    as (pre & ev & post & H & _).
  - vm_compute. reflexivity.
  - left. vm_compute. discriminate.
  - exists pre, ev, post. exact H.
Defined.

(** Witness of X5: in the miniature session, a request for the columns of
    [cars] while [.rs.describeCols] raises. *)
Lemma getGridData_only_data_fails_witness :
  let request := mkRequest "/grid_data?obj=cars&cache_key=k1&show=cols" in
  let response := mkResponse status_InternalServerError "" in
  let w := Mini.world ∅ (Mini.mkState [("cars", Mini.cars)] [] [] Mini.mNil
                                      [".rs.describeCols"]) in
  let r := fst (@getGridData Decimal.convert Mini.runtime Mini.http request response w) in
  r = None \/ r = Some (Success, response) \/
  exists result, r = Some (Success, mkResponse status_Ok (@json_write Mini.http result)).
Proof.
  intros request response w r.
  refine (proj2 (@getGridData_only_data_fails
                   Decimal.convert Mini.runtime Mini.http request response w
                   (@parseQueryString Mini.http "obj=cars&cache_key=k1&show=cols") _ _)).
  - vm_compute. reflexivity.
  - vm_compute. discriminate.
Defined.

